(** * ilbo_recomm: the batch classification client of [utils.py]

    A shallow embedding of [utils.py]: the article fetcher, the completion
    client, the response parser, the batch processor and the retry driver,
    with the properties of the design note stated over them.

    Python values are modelled as the code uses them: a [str] is a list of
    Unicode code points, a decoded JSON document is a tree, a dataframe is
    the list of its rows in index order.  The network, the clock and the
    JSON decoder of the standard library are the fields of a [Platform]. *)

From Stdlib Require Import List ZArith NArith Bool Lia String Ascii Sorted
  DecimalString.
Import ListNotations.

Set Implicit Arguments.
Set Warnings "-register-all".
Open Scope Z_scope.

(* ------------------------------------------------------------------ *)
(** ** Python strings *)

Module PyStr.

(** A Python [str]: a sequence of code points, so that [len] and slicing
    count characters and not bytes. *)
Definition pystr := list N.

Definition len (s : pystr) : Z := Z.of_nat (List.length s).

(** [s[:n]] for a non-negative [n]. *)
Definition slice_to (n : Z) (s : pystr) : pystr := firstn (Z.to_nat n) s.

Definition eqb (a b : pystr) : bool :=
  if list_eq_dec N.eq_dec a b then true else false.

Lemma eqb_eq a b : eqb a b = true <-> a = b.
Proof. unfold eqb. destruct (list_eq_dec N.eq_dec a b); split; congruence. Qed.

Lemma eqb_refl a : eqb a a = true.
Proof. apply eqb_eq. reflexivity. Qed.

(** Source literals are written in UTF-8; [lit] decodes them. *)
Fixpoint utf8_decode (bs : list N) : pystr :=
  match bs with
  | [] => []
  | b :: rest =>
      if (b <? 128)%N then b :: utf8_decode rest
      else if (b <? 224)%N then
        match rest with
        | c1 :: rest1 => ((b - 192) * 64 + (c1 - 128))%N :: utf8_decode rest1
        | _ => b :: utf8_decode rest
        end
      else if (b <? 240)%N then
        match rest with
        | c1 :: c2 :: rest2 =>
            ((b - 224) * 4096 + (c1 - 128) * 64 + (c2 - 128))%N
              :: utf8_decode rest2
        | _ => b :: utf8_decode rest
        end
      else
        match rest with
        | c1 :: c2 :: c3 :: rest3 =>
            ((b - 240) * 262144 + (c1 - 128) * 4096 + (c2 - 128) * 64
             + (c3 - 128))%N :: utf8_decode rest3
        | _ => b :: utf8_decode rest
        end
  end.

Definition lit (s : string) : pystr :=
  utf8_decode (map N_of_ascii (list_ascii_of_string s)).

(** [str(n)] for an integer. *)
Definition str_of_Z (z : Z) : pystr :=
  lit (NilEmpty.string_of_int (Z.to_int z)).

Fixpoint startswith (p s : pystr) : bool :=
  match p, s with
  | [], _ => true
  | a :: p', b :: s' => (a =? b)%N && startswith p' s'
  | _ :: _, [] => false
  end.

Definition endswith (p s : pystr) : bool := startswith (rev p) (rev s).

(** [needle in hay]. *)
Fixpoint contains (needle hay : pystr) : bool :=
  startswith needle hay
  || match hay with
     | [] => false
     | _ :: hay' => contains needle hay'
     end.

(** [sep.join(parts)]. *)
Fixpoint join (sep : pystr) (parts : list pystr) : pystr :=
  match parts with
  | [] => []
  | [p] => p
  | p :: ps => p ++ sep ++ join sep ps
  end.

(** [s.split(c)] for a one-character separator. *)
Fixpoint split_on (c : N) (s : pystr) : list pystr :=
  match s with
  | [] => [[]]
  | a :: s' =>
      if (a =? c)%N then [] :: split_on c s'
      else match split_on c s' with
           | l :: ls => (a :: l) :: ls
           | [] => [[a]]
           end
  end.

(** [s.replace(old, new)] for a non-empty [old]; the scan restarts after
    each replaced occurrence. *)
Fixpoint replace_fuel (fuel : nat) (old new s : pystr) : pystr :=
  match fuel with
  | O => s
  | S fuel' =>
      match s with
      | [] => []
      | a :: s' =>
          if startswith old s
          then new ++ replace_fuel fuel' old new (skipn (List.length old) s)
          else a :: replace_fuel fuel' old new s'
      end
  end.

Definition replace (old new s : pystr) : pystr :=
  replace_fuel (List.length s) old new s.

(** The characters [str.strip()] removes. *)
Definition isspace (c : N) : bool :=
  ((9 <=? c) && (c <=? 13) || (28 <=? c) && (c <=? 32) || (c =? 133)
   || (c =? 160) || (c =? 5760) || (8192 <=? c) && (c <=? 8202)
   || (c =? 8232) || (c =? 8233) || (c =? 8239) || (c =? 8287)
   || (c =? 12288))%N.

Fixpoint lstrip (s : pystr) : pystr :=
  match s with
  | c :: s' => if isspace c then lstrip s' else s
  | [] => []
  end.

Definition strip (s : pystr) : pystr := rev (lstrip (rev (lstrip s))).

End PyStr.
Import PyStr.

Arguments lit s%_string : simpl never.
Arguments str_of_Z z : simpl never.

(* ------------------------------------------------------------------ *)
(** ** Decoded JSON documents and the Python operations applied to them *)

(** What [json.loads] and [response.json()] return.  An object is a Python
    [dict]: its keys are distinct and kept in insertion order. *)
Inductive json : Type :=
| JNull
| JBool (b : bool)
| JInt (z : Z)
| JFloat (text : pystr)
| JStr (s : pystr)
| JList (items : list json)
| JDict (kvs : list (pystr * json)).

(** The exception classes the module raises or lets escape from a call. *)
Inductive exn_class : Type :=
| Exception_ | ValueError | TypeError | AttributeError | KeyError | IndexError
| RecursionError.

(** A raised exception: its class and [str(e)]. *)
Record exn : Type := mk_exn { exn_cls : exn_class; exn_str : pystr }.

Inductive result (A : Type) : Type :=
| Return (a : A)
| Raise (e : exn).
Arguments Return {A} a.
Arguments Raise {A} e.

Definition is_raise {A} (r : result A) : bool :=
  match r with Raise _ => true | Return _ => false end.

(** How a call of [json.loads] (or of [response.json()]) ends: with a
    document, with [json.JSONDecodeError], or with another exception, which
    no [except json.JSONDecodeError] catches: a plain [ValueError] for an
    integer literal over the digit limit of [int], [RecursionError] for a
    nesting too deep. *)
Inductive decoded : Type :=
| Decoded (v : json)
| NotJSON
| DecodeRaises (e : exn).

Module Py.

Definition type_name (v : json) : pystr :=
  match v with
  | JNull => lit "NoneType"
  | JBool _ => lit "bool"
  | JInt _ => lit "int"
  | JFloat _ => lit "float"
  | JStr _ => lit "str"
  | JList _ => lit "list"
  | JDict _ => lit "dict"
  end.

Fixpoint assoc (k : pystr) (kvs : list (pystr * json)) : option json :=
  match kvs with
  | [] => None
  | (k', v) :: rest => if eqb k' k then Some v else assoc k rest
  end.

(** [d[k] = v] on a dict: the first insertion fixes the position. *)
Fixpoint dict_set (k : pystr) (v : json) (kvs : list (pystr * json))
  : list (pystr * json) :=
  match kvs with
  | [] => [(k, v)]
  | (k', v') :: rest =>
      if eqb k' k then (k', v) :: rest else (k', v') :: dict_set k v rest
  end.

Definition is_str (v : json) : bool :=
  match v with JStr _ => true | _ => false end.

Definition is_dict (v : json) : bool :=
  match v with JDict _ => true | _ => false end.

Definition str_eqb (k : pystr) (v : json) : bool :=
  match v with JStr s => eqb s k | _ => false end.

(** [k in v] for a string [k]. *)
Definition contains_key (k : pystr) (v : json) : result bool :=
  match v with
  | JDict kvs => Return (match assoc k kvs with Some _ => true | None => false end)
  | JList items => Return (existsb (str_eqb k) items)
  | JStr s => Return (contains k s)
  | _ => Raise (mk_exn TypeError
                  (lit "argument of type '" ++ type_name v ++ lit "' is not iterable"))
  end.

(** [v[k]] for a string [k].  The program subscripts with literal keys
    only (plain words), which [repr] shows between single quotes. *)
Definition getitem (k : pystr) (v : json) : result json :=
  match v with
  | JDict kvs =>
      match assoc k kvs with
      | Some x => Return x
      | None => Raise (mk_exn KeyError (lit "'" ++ k ++ lit "'"))
      end
  | JList _ =>
      Raise (mk_exn TypeError (lit "list indices must be integers or slices, not str"))
  | JStr _ =>
      Raise (mk_exn TypeError (lit "string indices must be integers, not 'str'"))
  | _ => Raise (mk_exn TypeError
                  (lit "'" ++ type_name v ++ lit "' object is not subscriptable"))
  end.

(** [v.get(k, default)]. *)
Definition get (k : pystr) (default : json) (v : json) : result json :=
  match v with
  | JDict kvs =>
      Return (match assoc k kvs with Some x => x | None => default end)
  | _ => Raise (mk_exn AttributeError
                  (lit "'" ++ type_name v ++ lit "' object has no attribute 'get'"))
  end.

(** A float literal all of whose mantissa digits are zero. *)
Fixpoint float_zero (t : pystr) : bool :=
  match t with
  | [] => true
  | c :: rest =>
      if ((c =? 101) || (c =? 69))%N then true
      else ((c =? 48) || (c =? 46) || (c =? 45))%N && float_zero rest
  end.

(** Truth value of an object in [if not v]; the program applies it to the
    first component of the client's pair, a dict or [None]. *)
Definition truthy (v : json) : bool :=
  match v with
  | JNull => false
  | JBool b => b
  | JInt z => negb (z =? 0)
  | JFloat t => negb (float_zero t)
  | JStr s => negb (eqb s [])
  | JList l => match l with [] => false | _ => true end
  | JDict l => match l with [] => false | _ => true end
  end.

End Py.

(* ------------------------------------------------------------------ *)
(** ** A decoder for JSON text

    [json.loads] belongs to the Python standard library; the development is
    parametric in it (see [Platform]).  The decoder below follows the
    grammar the library accepts and instantiates the parameter in the closed
    examples.  Of the exceptions the library raises besides the decode
    error it has the refusal of an integer literal over the digit limit;
    the [RecursionError] of a nesting deeper than the interpreter's stack
    allows depends on the state of the interpreter, and is left to the
    parameter. *)

Module JsonText.

Definition is_ws (c : N) : bool :=
  ((c =? 32) || (c =? 9) || (c =? 10) || (c =? 13))%N.

Fixpoint skip_ws (s : pystr) : pystr :=
  match s with
  | c :: s' => if is_ws c then skip_ws s' else s
  | [] => []
  end.

Definition is_digit (c : N) : bool := ((48 <=? c) && (c <=? 57))%N.

Fixpoint span_digits (s : pystr) : pystr * pystr :=
  match s with
  | c :: s' =>
      if is_digit c then let (ds, r) := span_digits s' in (c :: ds, r)
      else ([], s)
  | [] => ([], [])
  end.

Definition digits_value (ds : pystr) : Z :=
  fold_left (fun acc d => acc * 10 + (Z.of_N d - 48)) ds 0.

Definition hex_value (c : N) : option N :=
  if is_digit c then Some (c - 48)%N
  else if ((97 <=? c) && (c <=? 102))%N then Some (c - 87)%N
  else if ((65 <=? c) && (c <=? 70))%N then Some (c - 55)%N
  else None.

(** Four hexadecimal digits of a [\u] escape. *)
Definition hex4 (s : pystr) : option (N * pystr) :=
  match s with
  | a :: b :: c :: d :: r =>
      match hex_value a, hex_value b, hex_value c, hex_value d with
      | Some x, Some y, Some z, Some w =>
          Some ((x * 4096 + y * 256 + z * 16 + w)%N, r)
      | _, _, _, _ => None
      end
  | _ => None
  end.

(** The body of a string literal, after its opening quote. *)
Fixpoint scan_string (fuel : nat) (s : pystr) : option (pystr * pystr) :=
  match fuel with
  | O => None
  | S fuel' =>
      match s with
      | [] => None
      | 34%N :: r => Some ([], r)
      | 92%N :: e :: r =>
          let plain (c : N) :=
            match scan_string fuel' r with
            | Some (t, r') => Some (c :: t, r')
            | None => None
            end in
          match e with
          | 34%N => plain 34%N
          | 92%N => plain 92%N
          | 47%N => plain 47%N
          | 98%N => plain 8%N
          | 102%N => plain 12%N
          | 110%N => plain 10%N
          | 114%N => plain 13%N
          | 116%N => plain 9%N
          | 117%N =>
              match hex4 r with
              | Some (hi, r1) =>
                  let single :=
                    match scan_string fuel' r1 with
                    | Some (t, r') => Some (hi :: t, r')
                    | None => None
                    end in
                  if ((55296 <=? hi) && (hi <=? 56319))%N then
                    match r1 with
                    | 92%N :: 117%N :: r2 =>
                        match hex4 r2 with
                        | Some (lo, r3) =>
                            if ((56320 <=? lo) && (lo <=? 57343))%N then
                              match scan_string fuel' r3 with
                              | Some (t, r') =>
                                  Some ((65536 + (hi - 55296) * 1024
                                         + (lo - 56320))%N :: t, r')
                              | None => None
                              end
                            else single
                        | None => single
                        end
                    | _ => single
                    end
                  else single
              | None => None
              end
          | _ => None
          end
      | c :: r =>
          if (c <? 32)%N then None
          else match scan_string fuel' r with
               | Some (t, r') => Some (c :: t, r')
               | None => None
               end
      end
  end.

(** What scanning a value gives: the value and the rest of the text, a
    syntax error, or the exception of a refused integer literal. *)
Inductive scanned : Type :=
| Scanned (v : json) (rest : pystr)
| Malformed
| Refused (e : exn).

(** [int(literal)] on too many digits. *)
Definition digit_limit_error (limit : Z) (digits : nat) : exn :=
  mk_exn ValueError
    (lit "Exceeds the limit (" ++ str_of_Z limit
     ++ lit " digits) for integer string conversion: value has "
     ++ str_of_Z (Z.of_nat digits)
     ++ lit " digits; use sys.set_int_max_str_digits() to increase the limit").

(** A number: an optional minus sign, an integer part without a leading
    zero, then an optional fraction and an optional exponent; an integer
    when it has neither of the two, and then refused when it has more
    digits than [max_digits] allows. *)
Definition scan_number (max_digits : option Z) (s : pystr) : scanned :=
  let (neg, s1) := match s with 45%N :: r => (true, r) | _ => (false, s) end in
  let int_part :=
    match s1 with
    | 48%N :: r => Some ([48%N], r)
    | c :: _ => if is_digit c then Some (span_digits s1) else None
    | [] => None
    end in
  match int_part with
  | None => Malformed
  | Some (ds, r) =>
      let (frac, r1) :=
        match r with
        | 46%N :: r' =>
            match span_digits r' with
            | ([], _) => ([], r)
            | (fs, r'') => (46%N :: fs, r'')
            end
        | _ => ([], r)
        end in
      let (ex, r2) :=
        match r1 with
        | e :: r' =>
            if ((e =? 101) || (e =? 69))%N then
              let (sign, r'') :=
                match r' with
                | sg :: q => if ((sg =? 43) || (sg =? 45))%N
                             then ([sg], q) else ([], r')
                | [] => ([], r')
                end in
              match span_digits r'' with
              | ([], _) => ([], r1)
              | (es, q) => (e :: sign ++ es, q)
              end
            else ([], r1)
        | [] => ([], r1)
        end in
      match frac, ex with
      | [], [] =>
          match max_digits with
          | Some limit =>
              if limit <? Z.of_nat (List.length ds)
              then Refused (digit_limit_error limit (List.length ds))
              else Scanned (JInt (if neg then - digits_value ds
                                  else digits_value ds)) r2
          | None =>
              Scanned (JInt (if neg then - digits_value ds
                             else digits_value ds)) r2
          end
      | _, _ =>
          Scanned (JFloat ((if neg then [45%N] else []) ++ ds ++ frac ++ ex)) r2
      end
  end.

Definition strip_prefix (p s : pystr) : option pystr :=
  if startswith p s then Some (skipn (List.length p) s) else None.

Definition scan_constant (s : pystr) : scanned :=
  match strip_prefix (lit "null") s with Some r => Scanned JNull r | None =>
  match strip_prefix (lit "true") s with Some r => Scanned (JBool true) r | None =>
  match strip_prefix (lit "false") s with Some r => Scanned (JBool false) r | None =>
  match strip_prefix (lit "NaN") s with Some r => Scanned (JFloat (lit "nan")) r | None =>
  match strip_prefix (lit "Infinity") s with Some r => Scanned (JFloat (lit "inf")) r | None =>
  match strip_prefix (lit "-Infinity") s with Some r => Scanned (JFloat (lit "-inf")) r | None =>
  Malformed end end end end end end.

Fixpoint scan_value (max_digits : option Z) (fuel : nat) (s : pystr)
  : scanned :=
  match fuel with
  | O => Malformed
  | S fuel' =>
      match s with
      | 34%N :: r =>
          match scan_string (S (List.length r)) r with
          | Some (t, r') => Scanned (JStr t) r'
          | None => Malformed
          end
      | 123%N :: r =>
          match skip_ws r with
          | 125%N :: r' => Scanned (JDict []) r'
          | r' => scan_members max_digits fuel' [] r'
          end
      | 91%N :: r =>
          match skip_ws r with
          | 93%N :: r' => Scanned (JList []) r'
          | r' => scan_items max_digits fuel' [] r'
          end
      | _ =>
          match scan_number max_digits s with
          | Malformed => scan_constant s
          | done => done
          end
      end
  end

with scan_items (max_digits : option Z) (fuel : nat) (acc : list json)
    (s : pystr) : scanned :=
  match fuel with
  | O => Malformed
  | S fuel' =>
      match scan_value max_digits fuel' s with
      | Scanned v r =>
          match skip_ws r with
          | 93%N :: r' => Scanned (JList (rev (v :: acc))) r'
          | 44%N :: r' => scan_items max_digits fuel' (v :: acc) (skip_ws r')
          | _ => Malformed
          end
      | stopped => stopped
      end
  end

with scan_members (max_digits : option Z) (fuel : nat)
    (acc : list (pystr * json)) (s : pystr) : scanned :=
  match fuel with
  | O => Malformed
  | S fuel' =>
      match s with
      | 34%N :: r =>
          match scan_string (S (List.length r)) r with
          | Some (k, r1) =>
              match skip_ws r1 with
              | 58%N :: r2 =>
                  match scan_value max_digits fuel' (skip_ws r2) with
                  | Scanned v r3 =>
                      let acc' := Py.dict_set k v acc in
                      match skip_ws r3 with
                      | 125%N :: r4 => Scanned (JDict acc') r4
                      | 44%N :: r4 =>
                          scan_members max_digits fuel' acc' (skip_ws r4)
                      | _ => Malformed
                      end
                  | stopped => stopped
                  end
              | _ => Malformed
              end
          | None => Malformed
          end
      | _ => Malformed
      end
  end.

(** The decoder, with the digit limit of integer literals as a parameter
    ([None]: no limit). *)
Definition decode (max_digits : option Z) (s : pystr) : decoded :=
  match scan_value max_digits (S (List.length s)) (skip_ws s) with
  | Scanned v r => match skip_ws r with [] => Decoded v | _ => NotJSON end
  | Malformed => NotJSON
  | Refused e => DecodeRaises e
  end.

(** [json.loads(s)], with Python's default limit of 4300 digits. *)
Definition loads (s : pystr) : decoded := decode (Some 4300) s.

(** The JSON grammar alone: what the text denotes when it is well formed. *)
Definition grammar (s : pystr) : decoded := decode None s.

End JsonText.

(* ------------------------------------------------------------------ *)
(** ** The platform: network, clock and library functions *)

(** A chat message of the request body. *)
Record message : Type := mk_message { role : pystr; msg_content : pystr }.

(** What [requests.post] yields: a response, or a
    [requests.exceptions.RequestException] with its text. *)
Record response : Type := mk_response { status_code : Z; text : pystr }.

Inductive post_outcome : Type :=
| PostResponse (r : response)
| PostRaises (e : pystr).

(** What lines 18-21 of [fetch_article_content] yield: the stripped texts
    of the [<p class="editor-p">] elements of the page, or an exception (a
    failed request, an error status) with its text. *)
Inductive get_outcome : Type :=
| GetParagraphs (paragraphs : list pystr)
| GetRaises (e : pystr).

Class Platform : Type := {
  World : Type;
  (** [requests.get(url)], [raise_for_status] and the HTML extraction *)
  requests_get : pystr -> World -> get_outcome * World;
  (** [requests.post(url, headers, data)], by URL, the two keys and the
      message list (the sampling parameters of the body are constants) *)
  requests_post : pystr -> pystr -> pystr -> list message -> World
                  -> post_outcome * World;
  (** [time.sleep(seconds)] *)
  time_sleep : Z -> World -> World;
  (** [datetime.now().strftime('%Y%m%d %H:%M:%S')] *)
  strftime_now : World -> pystr;
  (** [json.loads], and [response.json()] of the HTTP library *)
  json_loads : pystr -> decoded;
  (** [str(e)] of the decode error raised on a text *)
  json_error_str : pystr -> pystr;
  (** [repr(s)] of a string, the text of a [KeyError] on the key [s] *)
  str_repr : pystr -> pystr
}.

(** The observable effects of a run, in the order they happen. *)
Inductive event : Type :=
| EvGet (url : pystr)
| EvPost (messages : list message)
| EvSleep (seconds : Z)
| EvPrint (line : pystr).

Section Program.

Context {PF : Platform}.

(** *** Computations: world passing, exceptions, a trace of effects *)

Definition M (A : Type) : Type := World -> result A * World * list event.

Definition ret {A} (a : A) : M A := fun w => (Return a, w, []).

Definition raise {A} (e : exn) : M A := fun w => (Raise e, w, []).

Definition bind {A B} (m : M A) (k : A -> M B) : M B :=
  fun w =>
    match m w with
    | (Return a, w1, t1) =>
        let '(r, w2, t2) := k a w1 in (r, w2, t1 ++ t2)
    | (Raise e, w1, t1) => (Raise e, w1, t1)
    end.

Definition lift {A} (r : result A) : M A := fun w => (r, w, []).

(** [try: m  except Exception as e: h e]. *)
Definition try_except {A} (m : M A) (h : exn -> M A) : M A :=
  fun w =>
    match m w with
    | (Raise e, w1, t1) =>
        let '(r, w2, t2) := h e w1 in (r, w2, t1 ++ t2)
    | done => done
    end.

(** [ValueError] and its subclasses. *)
Definition is_value_error (e : exn) : bool :=
  match exn_cls e with ValueError => true | _ => false end.

(** [try: m  except ValueError as ve: h ve]. *)
Definition try_except_value_error {A} (m : M A) (h : exn -> M A) : M A :=
  fun w =>
    match m w with
    | (Raise e, w1, t1) =>
        if is_value_error e
        then let '(r, w2, t2) := h e w1 in (r, w2, t1 ++ t2)
        else (Raise e, w1, t1)
    | done => done
    end.

Definition print (line : pystr) : M unit :=
  fun w => (Return tt, w, [EvPrint line]).

Definition sleep (seconds : Z) : M unit :=
  fun w => (Return tt, time_sleep seconds w, [EvSleep seconds]).

Definition now : M pystr := fun w => (Return (strftime_now w), w, []).

Definition rbind {A B} (r : result A) (k : A -> result B) : result B :=
  match r with Return a => k a | Raise e => Raise e end.

End Program.

Declare Scope prog_scope.
Delimit Scope prog_scope with prog.
Notation "x <- m ;; k" := (bind m (fun x => k))
  (at level 61, m at next level, right associativity) : prog_scope.
Notation "' p <- m ;; k" := (bind m (fun p => k))
  (at level 61, p pattern, m at next level, right associativity) : prog_scope.
Notation "m ;; k" := (bind m (fun _ => k))
  (at level 61, right associativity) : prog_scope.
Notation "x <~ r ;; k" := (rbind r (fun x => k))
  (at level 61, r at next level, right associativity) : prog_scope.
Open Scope prog_scope.

(* ------------------------------------------------------------------ *)
(** ** Article fetcher *)

(** The value a Python function returns here: a string, an integer or a
    tuple. *)
Inductive pyval : Type :=
| PStr (s : pystr)
| PInt (z : Z)
| PTuple (items : list pyval).

Section Fetcher.

Context {PF : Platform}.

(** [fetch_article_content(url)].  The conditional expression of line 23
    binds tighter than the comma: the returned tuple is
    [(content, (len(content) if content else ("Content not found", 0)))]. *)
Definition fetch_article_content (url : pystr) : M pyval :=
  fun w =>
    let '(o, w1) := requests_get url w in
    (Return
       match o with
       | GetParagraphs paragraphs =>
           let content := join (lit " ") paragraphs in
           PTuple [PStr content;
                   if negb (eqb content [])
                   then PInt (len content)
                   else PTuple [PStr (lit "Content not found"); PInt 0]]
       | GetRaises e =>
           PTuple [PStr (lit "Error fetching content: " ++ e); PInt 0]
       end,
     w1, [EvGet url]).

End Fetcher.

(* ------------------------------------------------------------------ *)
(** ** Completion client and response parser *)

Definition key_summary : pystr := lit "요약".
Definition key_pred : pystr := lit "분류".
Definition key_reason : pystr := lit "근거".

Definition completion_url : pystr :=
  lit "https://clovastudio.stream.ntruss.com/testapp/v1/chat-completions/HCX-003".

Section Client.

Context {PF : Platform}.

(** [call_clova_api(api_key, apigw_api_key, messages)]: the pair
    [(response_json, error)], with [JNull] and [None] for Python's [None].
    Of what [response.json()] raises, line 496 catches the decode error
    only; any other exception is no [RequestException] either and leaves
    the function. *)
Definition call_clova_api (api_key apigw_api_key : pystr)
    (messages : list message) : M (json * option pystr) :=
  fun w =>
    let '(o, w1) :=
      requests_post completion_url api_key apigw_api_key messages w in
    (match o with
     | PostResponse resp =>
         if negb (status_code resp =? 200) then
           Return (JNull, Some (lit "API 호출 실패: "
                                ++ str_of_Z (status_code resp)
                                ++ lit ", " ++ text resp))
         else if eqb (text resp) [] then
           Return (JNull, Some (lit "Empty response received"))
         else
           match json_loads (text resp) with
           | NotJSON =>
               Return (JNull, Some (lit "JSON decoding error: "
                                    ++ json_error_str (text resp)
                                    ++ lit " - Response text: "
                                    ++ slice_to 100 (text resp)))
           | Decoded response_json =>
               if Py.is_dict response_json then Return (response_json, None)
               else Return (JNull, Some (lit "Unexpected response format"))
           | DecodeRaises e => Raise e
           end
     | PostRaises e => Return (JNull, Some (lit "Request failed: " ++ e))
     end,
     w1, [EvPost messages]).

(** [process_response_content(result_content)].  Line 38 catches the decode
    error only: another exception of [json.loads] leaves the function as it
    is. *)
Definition process_response_content (result_content : json)
  : result (json * json * json) :=
  match result_content with
  | JStr s =>
      match json_loads s with
      | Decoded parsed_content =>
          summary <~ Py.get key_summary (JStr []) parsed_content ;;
          pred <~ Py.get key_pred (JStr []) parsed_content ;;
          reason <~ Py.get key_reason (JStr []) parsed_content ;;
          Return (summary, pred, reason)
      | NotJSON =>
          Raise (mk_exn ValueError
                   (lit "Unexpected content format: Not a valid JSON"))
      | DecodeRaises e => Raise e
      end
  | v =>
      Raise (mk_exn TypeError
               (lit "the JSON object must be str, bytes or bytearray, not "
                ++ Py.type_name v))
  end.

(** Lines 399-411 of [process_single_row]: the shape is chosen by the
    first and last character, then decoded or read by line offsets. *)
Definition line_at (i : nat) (lines : list pystr) : result pystr :=
  match nth_error lines i with
  | Some l => Return l
  | None => Raise (mk_exn IndexError (lit "list index out of range"))
  end.

Definition parse_single_row_content (result_content : json)
  : result (json * json * json) :=
  match result_content with
  | JStr s =>
      if startswith (lit "{") s && endswith (lit "}") s then
        match json_loads s with
        | Decoded parsed_content =>
            summary <~ Py.get key_summary (JStr []) parsed_content ;;
            pred <~ Py.get key_pred (JStr []) parsed_content ;;
            reason <~ Py.get key_reason (JStr []) parsed_content ;;
            Return (summary, pred, reason)
        | NotJSON => Raise (mk_exn ValueError (json_error_str s))
        | DecodeRaises e => Raise e
        end
      else
        let lines := split_on 10%N s in
        l0 <~ line_at 0 lines ;;
        let summary := strip (replace (lit "요약:") [] l0) in
        l2 <~ line_at 2 lines ;;
        let pred := strip (replace (lit "분류:") [] l2) in
        l4 <~ line_at 4 lines ;;
        let reason := strip (replace (lit "근거:") [] l4) in
        Return (JStr summary, JStr pred, JStr reason)
  | v =>
      Raise (mk_exn AttributeError
               (lit "'" ++ Py.type_name v
                ++ lit "' object has no attribute 'startswith'"))
  end.

End Client.

(* ------------------------------------------------------------------ *)
(** ** Dataframes *)

(** A row of the input dataframe.  [len_context] is a column of its own:
    the code never recomputes it from [content]. *)
Record Row : Type := mk_Row {
  docid : Z;
  category : pystr;
  title : pystr;
  link : pystr;
  content : pystr;
  len_context : Z;
  label : pystr
}.

(** A row of the result dataframe (the dict of lines 131-142, 296-307). *)
Record ResultRow : Type := mk_ResultRow {
  r_docid : Z;
  r_category : pystr;
  r_title : pystr;
  r_link : pystr;
  r_content : pystr;
  r_len_content : Z;
  r_label : pystr;
  r_pred : json;
  r_reason : json;
  r_summary : json
}.

(** An error record; [error_stage] is set by the retry driver only. *)
Record ErrorRow : Type := mk_ErrorRow {
  e_docid : Z;
  e_category : pystr;
  e_errors : pystr;
  e_error_stage : option pystr;
  e_time : pystr
}.

(** A line of the retry log. *)
Record LogRow : Type := mk_LogRow {
  l_docid : Z;
  l_category : pystr;
  l_status : pystr;
  l_error_stage : pystr;
  l_message : pystr;
  l_time : pystr
}.

(** The result dataframe, with its default positional index.
    [pd.DataFrame([])] has no column at all, so [result_df['docid']] raises
    [KeyError] on it; a frame with columns may still have no row. *)
Inductive ResultFrame : Type :=
| NoColumns
| Frame (rows : list ResultRow).

(** [pd.DataFrame(records)]. *)
Definition DataFrame (records : list ResultRow) : ResultFrame :=
  match records with
  | [] => NoColumns
  | _ => Frame records
  end.

Definition frame_rows (f : ResultFrame) : list ResultRow :=
  match f with NoColumns => [] | Frame rows => rows end.

(** [len(result_df)]. *)
Definition nrows (f : ResultFrame) : nat := List.length (frame_rows f).

(** [df[df['category'] == category]]. *)
Definition filter_category (category0 : pystr) (df : list Row) : list Row :=
  filter (fun r => eqb (category r) category0) df.

(** [df[(df['docid'] == d) & (df['category'] == c)]]. *)
Definition matching (d : Z) (c : pystr) (df : list Row) : list Row :=
  filter (fun r => (docid r =? d) && eqb (category r) c) df.

(** Line 103-104 and its two copies: the slice is taken when the
    [len_context] column exceeds 6500. *)
Definition truncate_context (row : Row) : pystr :=
  if len_context row >? 6500 then slice_to 6500 (content row)
  else content row.

Definition chat_messages (prompt context : pystr) : list message :=
  [ mk_message (lit "system") prompt; mk_message (lit "user") context ].

(** [if error:] on the second component of the client's pair. *)
Definition error_set (error : option pystr) : option pystr :=
  match error with
  | Some e => if eqb e [] then None else Some e
  | None => None
  end.

Definition msg_missing_keys : pystr :=
  lit "Unexpected response format: 'result' or 'message' key missing".

(** ['result' not in response_json or
     'message' not in response_json['result']]. *)
Definition result_or_message_missing (response_json : json) : result bool :=
  has_result <~ Py.contains_key (lit "result") response_json ;;
  if negb has_result then Return true
  else
    res <~ Py.getitem (lit "result") response_json ;;
    has_message <~ Py.contains_key (lit "message") res ;;
    Return (negb has_message).

(** [response_json['result']['message'].get('content', '')]. *)
Definition message_content (response_json : json) : result json :=
  res <~ Py.getitem (lit "result") response_json ;;
  msg <~ Py.getitem (lit "message") res ;;
  Py.get (lit "content") (JStr []) msg.

(* ------------------------------------------------------------------ *)
(** ** Batch processor *)

Section Batch.

Context {PF : Platform}.

(** The [try] block of [process_dataframe], lines 99-144, up to the dict
    appended to [results]. *)
Definition process_row (category0 prompt api_key apigw_api_key : pystr)
    (row : Row) : M ResultRow :=
  let context := truncate_context row in
  let messages := chat_messages prompt context in
  '(response_json, error) <- call_clova_api api_key apigw_api_key messages ;;
  match error_set error with
  | Some e => raise (mk_exn Exception_ e)
  | None =>
      missing <- lift (result_or_message_missing response_json) ;;
      if (missing : bool) then raise (mk_exn Exception_ msg_missing_keys)
      else
        result_content <- lift (message_content response_json) ;;
        '(summary, pred, reason) <-
          try_except_value_error
            (lift (process_response_content result_content))
            (fun ve =>
               raise (mk_exn Exception_
                        (lit "Failed to process content for docid "
                         ++ str_of_Z (docid row) ++ lit " in " ++ category0
                         ++ lit " - " ++ exn_str ve))) ;;
        ret (mk_ResultRow (docid row) category0 (title row) (link row)
               (content row) (len_context row) (label row)
               pred reason summary)
  end.

(** One iteration of the loop of lines 97-156. *)
Definition process_step (category0 prompt api_key apigw_api_key : pystr)
    (row : Row) (acc : list ResultRow * list ErrorRow)
  : M (list ResultRow * list ErrorRow) :=
  let '(results, errors) := acc in
  acc' <-
    try_except
      (r <- process_row category0 prompt api_key apigw_api_key row ;;
       print (lit "Success: docid " ++ str_of_Z (docid row) ++ lit " in "
              ++ category0 ++ lit " 처리 완료") ;;
       ret (results ++ [r], errors))
      (fun e =>
         t <- now ;;
         print (lit "Error: docid " ++ str_of_Z (docid row) ++ lit " in "
                ++ category0 ++ lit " 처리 실패 - " ++ exn_str e) ;;
         ret (results,
              errors ++ [mk_ErrorRow (docid row) category0 (exn_str e)
                           None t])) ;;
  sleep 6 ;;
  ret acc'.

Fixpoint process_rows (category0 prompt api_key apigw_api_key : pystr)
    (rows : list Row) (acc : list ResultRow * list ErrorRow)
  : M (list ResultRow * list ErrorRow) :=
  match rows with
  | [] => ret acc
  | row :: rest =>
      acc' <- process_step category0 prompt api_key apigw_api_key row acc ;;
      process_rows category0 prompt api_key apigw_api_key rest acc'
  end.

(** [process_dataframe(df, category, prompt, api_key, apigw_api_key)]. *)
Definition process_dataframe (df : list Row)
    (category0 prompt api_key apigw_api_key : pystr)
  : M (ResultFrame * list ErrorRow) :=
  let df_filtered := filter_category category0 df in
  '(results, errors) <-
    process_rows category0 prompt api_key apigw_api_key df_filtered ([], []) ;;
  ret (DataFrame results, errors).

End Batch.

(* ------------------------------------------------------------------ *)
(** ** Retry driver *)

(** [result_df[result_df['docid'] < d].index.max()]: the position of the
    last row whose docid is smaller, [None] for the [nan] of an empty
    selection. *)
Fixpoint last_smaller (d : Z) (pos : nat) (rows : list ResultRow)
  : option nat :=
  match rows with
  | [] => None
  | r :: rest =>
      match last_smaller d (S pos) rest with
      | Some i => Some i
      | None => if r_docid r <? d then Some pos else None
      end
  end.

(** Lines 310-312: that position plus one, or 0. *)
Definition original_index (d : Z) (rows : list ResultRow) : nat :=
  match last_smaller d 0 rows with
  | Some i => S i
  | None => 0%nat
  end.

(** Lines 314-318 on the rows of a frame. *)
Definition insert_at (i : nat) (result_data : ResultRow)
    (rows : list ResultRow) : list ResultRow :=
  firstn i rows ++ [result_data] ++ skipn i rows.

(** Lines 310-318 on the frame. *)
Definition insert_result (result_df : ResultFrame) (d : Z)
    (result_data : ResultRow) : result ResultFrame :=
  match result_df with
  | NoColumns => Raise (mk_exn KeyError (lit "'docid'"))
  | Frame rows =>
      Return (Frame (insert_at (original_index d rows) result_data rows))
  end.

(** How an iteration of the inner loop leaves its [try] statement. *)
Inductive flow : Type :=
| FallThrough
| Continue.

(** The locals the inner loop updates. *)
Record pass_state : Type := mk_pass {
  ps_result_df : ResultFrame;
  ps_new_errors : list ErrorRow;
  ps_logs : list LogRow
}.

(** The state of the outer [while] loop. *)
Record loop_state : Type := mk_loop {
  ls_retry_count : Z;
  ls_errors_df : list ErrorRow;
  ls_result_df : ResultFrame;
  ls_all_logs : list LogRow
}.

Definition stage_retry : pystr := lit "Retry".

Section Retry.

Context {PF : Platform}.

Variable df : list Row.
Variable prompts : pystr -> option pystr.
Variables api_key apigw_api_key : pystr.

Definition retry_wait_time : Z := 6.

(** [prompts[c]]. *)
Definition prompt_for (c : pystr) : result pystr :=
  match prompts c with
  | Some p => Return p
  | None => Raise (mk_exn KeyError (str_repr c))
  end.

(** The [try] block of the inner loop, lines 216-329. *)
Definition retry_row (error_row : ErrorRow) (st : pass_state)
  : M (flow * pass_state) :=
  let matching_rows := matching (e_docid error_row) (e_category error_row) df in
  match matching_rows with
  | [] =>
      let log_message :=
        lit "No matching row found for docid " ++ str_of_Z (e_docid error_row)
        ++ lit " and category " ++ e_category error_row in
      print log_message ;;
      t1 <- now ;;
      t2 <- now ;;
      ret (Continue,
           mk_pass (ps_result_df st)
             (ps_new_errors st
              ++ [mk_ErrorRow (e_docid error_row) (e_category error_row)
                    log_message (Some stage_retry) t2])
             (ps_logs st
              ++ [mk_LogRow (e_docid error_row) (e_category error_row)
                    (lit "Error") stage_retry log_message t1]))
  | row :: _ =>
      let context := truncate_context row in
      prompt <- lift (prompt_for (category row)) ;;
      let messages := chat_messages prompt context in
      '(response_json, error) <- call_clova_api api_key apigw_api_key messages ;;
      match error_set error with
      | Some e =>
          if contains (lit "429") e then
            let log_message :=
              lit "429 Too Many Requests: Waiting for "
              ++ str_of_Z retry_wait_time
              ++ lit " seconds before retrying..." in
            print log_message ;;
            sleep retry_wait_time ;;
            raise (mk_exn Exception_
                     (lit "API 호출 실패: 429, Too Many Requests"))
          else if contains (lit "40005") e || contains (lit "40006") e then
            let log_message :=
              lit "Skipping retry for docid " ++ str_of_Z (e_docid error_row)
              ++ lit " in " ++ e_category error_row
              ++ lit " due to policy issue: " ++ e in
            print log_message ;;
            t1 <- now ;;
            t2 <- now ;;
            ret (Continue,
                 mk_pass (ps_result_df st)
                   (ps_new_errors st
                    ++ [mk_ErrorRow (e_docid error_row) (e_category error_row)
                          e (Some stage_retry) t2])
                   (ps_logs st
                    ++ [mk_LogRow (e_docid error_row) (e_category error_row)
                          (lit "Error") stage_retry log_message t1]))
          else raise (mk_exn Exception_ e)
      | None =>
          if negb (Py.truthy response_json) then
            raise (mk_exn Exception_
                     (lit "Received empty response from the API"))
          else
            missing <- lift (result_or_message_missing response_json) ;;
            if (missing : bool) then raise (mk_exn Exception_ msg_missing_keys)
            else
              result_content <- lift (message_content response_json) ;;
              if negb (Py.is_str result_content) then
                raise (mk_exn Exception_ (lit "Unexpected content format"))
              else
                '(summary, pred, reason) <-
                  lift (process_response_content result_content) ;;
                let result_data :=
                  mk_ResultRow (docid row) (category row) (title row)
                    (link row) (content row) (len_context row) (label row)
                    pred reason summary in
                result_df <-
                  lift (insert_result (ps_result_df st) (docid row)
                          result_data) ;;
                let log_message :=
                  lit "Success on retry: docid " ++ str_of_Z (docid row)
                  ++ lit " in " ++ category row ++ lit " 처리 완료" in
                print log_message ;;
                t <- now ;;
                ret (FallThrough,
                     mk_pass result_df (ps_new_errors st)
                       (ps_logs st
                        ++ [mk_LogRow (docid row) (category row)
                              (lit "Success") stage_retry log_message t]))
      end
  end.

(** The [except] block of the inner loop, lines 331-348. *)
Definition retry_handler (error_row : ErrorRow) (st : pass_state) (e : exn)
  : M (flow * pass_state) :=
  let log_message :=
    lit "Error on retry: docid " ++ str_of_Z (e_docid error_row)
    ++ lit " in " ++ e_category error_row ++ lit " 처리 실패 - "
    ++ exn_str e in
  t1 <- now ;;
  print log_message ;;
  t2 <- now ;;
  ret (FallThrough,
       mk_pass (ps_result_df st)
         (ps_new_errors st
          ++ [mk_ErrorRow (e_docid error_row) (e_category error_row)
                (exn_str e) (Some stage_retry) t1])
         (ps_logs st
          ++ [mk_LogRow (e_docid error_row) (e_category error_row)
                (lit "Error") stage_retry log_message t2])).

(** One iteration of the inner loop, lines 214-350: [continue] skips the
    sleep of line 350. *)
Definition retry_step (error_row : ErrorRow) (st : pass_state)
  : M pass_state :=
  '(fl, st') <-
    try_except (retry_row error_row st) (retry_handler error_row st) ;;
  match fl with
  | Continue => ret st'
  | FallThrough => sleep retry_wait_time ;; ret st'
  end.

Fixpoint retry_rows (errors_df : list ErrorRow) (st : pass_state)
  : M pass_state :=
  match errors_df with
  | [] => ret st
  | error_row :: rest =>
      st' <- retry_step error_row st ;;
      retry_rows rest st'
  end.

(** The body of the [while] loop, lines 208-356. *)
Definition retry_pass (ls : loop_state) : M loop_state :=
  let retry_count := ls_retry_count ls + 1 in
  print (lit "Retrying failed rows, attempt " ++ str_of_Z retry_count) ;;
  st <- retry_rows (ls_errors_df ls) (mk_pass (ls_result_df ls) [] []) ;;
  ret (mk_loop retry_count (ps_new_errors st) (ps_result_df st)
         (ls_all_logs ls ++ ps_logs st)).

(** [not errors_df.empty and retry_count < max_retries]. *)
Definition retry_cond (max_retries : Z) (ls : loop_state) : bool :=
  negb (match ls_errors_df ls with [] => true | _ => false end)
  && (ls_retry_count ls <? max_retries).

(** The [while] loop, unrolled at most [fuel] times; [None] when the
    condition still holds after that. *)
Fixpoint retry_while (fuel : nat) (max_retries : Z) (ls : loop_state)
  : M (option loop_state) :=
  if retry_cond max_retries ls then
    match fuel with
    | O => ret None
    | S fuel' =>
        ls' <- retry_pass ls ;;
        retry_while fuel' max_retries ls'
    end
  else ret (Some ls).

(** [retry_failed_rows(errors_df, df, result_df, prompts, api_key,
    apigw_api_key, max_retries)]: the triple
    [(result_df, errors_df, logs_df)].  The loop is run with [max_retries]
    units of fuel, which [retry_while_enough_fuel] shows to be enough. *)
Definition retry_failed_rows (errors_df : list ErrorRow)
    (result_df : ResultFrame) (max_retries : Z)
  : M (option (ResultFrame * list ErrorRow * list LogRow)) :=
  r <- retry_while (Z.to_nat max_retries) max_retries
         (mk_loop 0 errors_df result_df []) ;;
  ret (match r with
       | Some ls => Some (ls_result_df ls, ls_errors_df ls, ls_all_logs ls)
       | None => None
       end).

(** The default of the last parameter. *)
Definition default_max_retries : Z := 3.

End Retry.

(* ------------------------------------------------------------------ *)
(** ** A scripted platform for closed examples

    The world is the number of requests sent so far and a clock in
    seconds; the server answers by request number and message list,
    [JsonText.loads] stands for [json.loads], and [repr] is that of a
    string of printable characters without a quote or a backslash. *)

Module Script.

Definition world : Type := (nat * Z)%type.

Definition platform (server : nat -> list message -> post_outcome)
    (pages : pystr -> get_outcome) : Platform := {|
  World := world;
  requests_get := fun url w => (pages url, w);
  requests_post := fun _ _ _ messages w =>
                     (server (fst w) messages, (S (fst w), snd w));
  time_sleep := fun s w => (fst w, snd w + s);
  strftime_now := fun w => str_of_Z (snd w);
  json_loads := JsonText.loads;
  json_error_str := fun _ => lit "Expecting value";
  str_repr := fun s => lit "'" ++ s ++ lit "'"
|}.

Definition start : world := (0%nat, 0).

(** JSON text of a document, as a server writes it. *)
Definition quote : pystr := [34%N].

Definition hex_digit (n : N) : N :=
  if (n <? 10)%N then (48 + n)%N else (87 + n)%N.

Fixpoint escape (s : pystr) : pystr :=
  match s with
  | [] => []
  | c :: rest =>
      (if (c =? 34)%N then [92%N; 34%N]
       else if (c =? 92)%N then [92%N; 92%N]
       else if (c =? 10)%N then [92%N; 110%N]
       else if (c =? 13)%N then [92%N; 114%N]
       else if (c =? 9)%N then [92%N; 116%N]
       else if (c <? 32)%N
            then [92%N; 117%N; 48%N; 48%N; hex_digit (c / 16); hex_digit (c mod 16)]
       else [c]) ++ escape rest
  end.

Fixpoint encode (v : json) : pystr :=
  match v with
  | JNull => lit "null"
  | JBool true => lit "true"
  | JBool false => lit "false"
  | JInt z => str_of_Z z
  | JFloat t => t
  | JStr s => quote ++ escape s ++ quote
  | JList items => lit "[" ++ join (lit ", ") (map encode items) ++ lit "]"
  | JDict kvs =>
      lit "{"
      ++ join (lit ", ")
           (map (fun kv => quote ++ escape (fst kv) ++ quote ++ lit ": "
                           ++ encode (snd kv)) kvs)
      ++ lit "}"
  end.

(** A 200 response whose completion text is [body]. *)
Definition completion (body : pystr) : post_outcome :=
  PostResponse
    (mk_response 200
       (encode
          (JDict [(lit "result",
                   JDict [(lit "message",
                           JDict [(lit "role", JStr (lit "assistant"));
                                  (lit "content", JStr body)])])]))).

(** An error response with a status code and a body. *)
Definition failure (status : Z) (body : pystr) : post_outcome :=
  PostResponse (mk_response status body).

(** A completion in the JSON shape. *)
Definition json_body : pystr :=
  encode (JDict [(key_summary, JStr (lit "s")); (key_pred, JStr (lit "p"));
                 (key_reason, JStr (lit "r"))]).

(** A completion in the plain-text shape. *)
Definition text_body : pystr :=
  lit "요약: s" ++ [10%N; 10%N] ++ lit "분류: p" ++ [10%N; 10%N]
  ++ lit "근거: r".

Definition no_pages : pystr -> get_outcome := fun _ => GetParagraphs [].

Definition events {A} (r : result A * world * list event) : list event :=
  snd r.

Definition value {A} (r : result A * world * list event) : result A :=
  fst (fst r).

Definition posts (t : list event) : nat :=
  List.length (filter (fun e => match e with EvPost _ => true | _ => false end) t).

Definition a_row (d : Z) (c : pystr) (txt : pystr) : Row :=
  mk_Row d c (lit "title") (lit "link") txt (len txt) (lit "label").

End Script.

(* ------------------------------------------------------------------ *)
(** ** Reasoning about computations *)

Section Logic.

Context {PF : Platform}.

Definition res {A} (x : result A * World * list event) : result A :=
  fst (fst x).
Definition world_of {A} (x : result A * World * list event) : World :=
  snd (fst x).
Definition trace_of {A} (x : result A * World * list event) : list event :=
  snd x.

(** [post m Q E]: from any world, [m] returns a value in [Q] or raises an
    exception in [E]. *)
Definition post {A} (m : M A) (Q : A -> Prop) (E : exn -> Prop) : Prop :=
  forall w, match res (m w) with Return a => Q a | Raise e => E e end.

(** [total m Q]: [m] always returns, with a value in [Q]. *)
Definition total {A} (m : M A) (Q : A -> Prop) : Prop :=
  post m Q (fun _ => False).

(** [emits P m]: every effect of [m] satisfies [P]. *)
Definition emits {A} (P : event -> Prop) (m : M A) : Prop :=
  forall w, Forall P (trace_of (m w)).

Definition anything {A} : A -> Prop := fun _ => True.

Lemma post_ret A (a : A) (Q : A -> Prop) E : Q a -> post (ret a) Q E.
Proof. intros H w. exact H. Qed.

Lemma post_raise A e (Q : A -> Prop) (E : exn -> Prop) :
  E e -> post (raise e) Q E.
Proof. intros H w. exact H. Qed.

Lemma post_lift A (r : result A) (Q : A -> Prop) E :
  match r with Return a => Q a | Raise e => E e end -> post (lift r) Q E.
Proof. intros H w. exact H. Qed.

Lemma post_bind A B (m : M A) (k : A -> M B) R Q E :
  post m R E -> (forall a, R a -> post (k a) Q E) -> post (bind m k) Q E.
Proof.
  intros Hm Hk w. unfold bind, res. specialize (Hm w). unfold res in Hm.
  destruct (m w) as [[[a|e] w1] t1]; simpl in *.
  - specialize (Hk a Hm w1). unfold res in Hk.
    destruct (k a w1) as [[r w2] t2]. exact Hk.
  - exact Hm.
Qed.

Lemma post_try A (m : M A) h Q E' E :
  post m Q E' -> (forall e, E' e -> post (h e) Q E) ->
  post (try_except m h) Q E.
Proof.
  intros Hm Hh w. unfold try_except, res. specialize (Hm w). unfold res in Hm.
  destruct (m w) as [[[a|e] w1] t1]; simpl in *.
  - exact Hm.
  - specialize (Hh e Hm w1). unfold res in Hh.
    destruct (h e w1) as [[r w2] t2]. exact Hh.
Qed.

Lemma post_try_value_error A (m : M A) h Q E' E :
  post m Q E' ->
  (forall e, E' e -> is_value_error e = true -> post (h e) Q E) ->
  (forall e, E' e -> is_value_error e = false -> E e) ->
  post (try_except_value_error m h) Q E.
Proof.
  intros Hm Hh He w. unfold try_except_value_error, res.
  specialize (Hm w). unfold res in Hm.
  destruct (m w) as [[[a|e] w1] t1]; simpl in *.
  - exact Hm.
  - destruct (is_value_error e) eqn:Hv.
    + specialize (Hh e Hm Hv w1). unfold res in Hh.
      destruct (h e w1) as [[r w2] t2]. exact Hh.
    + simpl. apply He; assumption.
Qed.

Lemma post_weaken A (m : M A) (Q Q' : A -> Prop) (E E' : exn -> Prop) :
  post m Q E -> (forall a, Q a -> Q' a) -> (forall e, E e -> E' e) ->
  post m Q' E'.
Proof.
  intros H HQ HE w. specialize (H w).
  destruct (res (m w)); auto.
Qed.

(** Nothing is known of a value, and any exception is allowed. *)
Lemma post_any A (m : M A) : post m anything anything.
Proof. intros w. destruct (res (m w)); exact I. Qed.

Lemma total_print line : total (print line) anything.
Proof. intros w. exact I. Qed.

Lemma total_sleep s : total (sleep s) anything.
Proof. intros w. exact I. Qed.

Lemma total_now : total now anything.
Proof. intros w. exact I. Qed.

Lemma total_post A (m : M A) Q E : total m Q -> post m Q E.
Proof. intros H. eapply post_weaken; eauto. intros e []. Qed.

(** A computation that always returns can be run to its value. *)
Lemma total_run A (m : M A) Q w :
  total m Q -> exists a w1 t, m w = (Return a, w1, t) /\ Q a.
Proof.
  intros H. specialize (H w). unfold res in H.
  destruct (m w) as [[[a|e] w1] t]; simpl in H.
  - exists a, w1, t. split; [reflexivity | exact H].
  - destruct H.
Qed.

(** *** Traces *)

Lemma emits_ret A P (a : A) : emits P (ret a).
Proof. intros w. constructor. Qed.

Lemma emits_raise A P e : emits P (raise (A := A) e).
Proof. intros w. constructor. Qed.

Lemma emits_lift A P (r : result A) : emits P (lift r).
Proof. intros w. constructor. Qed.

Lemma emits_now P : emits P now.
Proof. intros w. constructor. Qed.

Lemma emits_bind A B P (m : M A) (k : A -> M B) :
  emits P m -> (forall a, emits P (k a)) -> emits P (bind m k).
Proof.
  intros Hm Hk w. unfold bind, trace_of. specialize (Hm w).
  unfold trace_of in Hm.
  destruct (m w) as [[[a|e] w1] t1]; simpl in *.
  - specialize (Hk a w1). unfold trace_of in Hk.
    destruct (k a w1) as [[r w2] t2]. simpl in *.
    apply Forall_app. split; assumption.
  - exact Hm.
Qed.

Lemma emits_try A P (m : M A) h :
  emits P m -> (forall e, emits P (h e)) -> emits P (try_except m h).
Proof.
  intros Hm Hh w. unfold try_except, trace_of. specialize (Hm w).
  unfold trace_of in Hm.
  destruct (m w) as [[[a|e] w1] t1]; simpl in *.
  - exact Hm.
  - specialize (Hh e w1). unfold trace_of in Hh.
    destruct (h e w1) as [[r w2] t2]. simpl in *.
    apply Forall_app. split; assumption.
Qed.

Lemma emits_try_value_error A P (m : M A) h :
  emits P m -> (forall e, emits P (h e)) ->
  emits P (try_except_value_error m h).
Proof.
  intros Hm Hh w. unfold try_except_value_error, trace_of. specialize (Hm w).
  unfold trace_of in Hm.
  destruct (m w) as [[[a|e] w1] t1]; simpl in *.
  - exact Hm.
  - destruct (is_value_error e); simpl; [| exact Hm].
    specialize (Hh e w1). unfold trace_of in Hh.
    destruct (h e w1) as [[r w2] t2]. simpl in *.
    apply Forall_app. split; assumption.
Qed.

Lemma emits_print (P : event -> Prop) line :
  P (EvPrint line) -> emits P (print line).
Proof. intros H w. repeat constructor. exact H. Qed.

Lemma emits_sleep (P : event -> Prop) s :
  P (EvSleep s) -> emits P (sleep s).
Proof. intros H w. repeat constructor. exact H. Qed.

Lemma emits_call_clova_api (P : event -> Prop) k g ms :
  P (EvPost ms) -> emits P (call_clova_api k g ms).
Proof.
  intros H w. unfold call_clova_api, trace_of.
  destruct (requests_post completion_url k g ms w). simpl.
  repeat constructor. exact H.
Qed.

End Logic.

(* ------------------------------------------------------------------ *)
(** ** Row conservation *)

(** A processed row adds one entry to the results or one to the errors. *)
Definition one_entry (acc acc' : list ResultRow * list ErrorRow) : Prop :=
  (exists r, acc' = (fst acc ++ [r], snd acc))
  \/ (exists e, acc' = (fst acc, snd acc ++ [e])).

(** A retried row is inserted into the result frame or appended to the new
    errors. *)
Definition moved (st st' : pass_state) : Prop :=
  (exists rows d rd,
      ps_result_df st = Frame rows
      /\ ps_result_df st' = Frame (insert_at (original_index d rows) rd rows)
      /\ ps_new_errors st' = ps_new_errors st)
  \/ (exists e,
        ps_result_df st' = ps_result_df st
        /\ ps_new_errors st' = ps_new_errors st ++ [e]).

Definition entries (acc : list ResultRow * list ErrorRow) : nat :=
  (List.length (fst acc) + List.length (snd acc))%nat.

Definition pass_entries (st : pass_state) : nat :=
  (nrows (ps_result_df st) + List.length (ps_new_errors st))%nat.

Lemma one_entry_count acc acc' :
  one_entry acc acc' -> entries acc' = S (entries acc).
Proof.
  unfold entries. intros [[r ->] | [e ->]]; simpl; rewrite length_app; simpl; lia.
Qed.

Lemma one_entry_exclusive acc acc' :
  one_entry acc acc' ->
  ~ (List.length (fst acc') = S (List.length (fst acc))
     /\ List.length (snd acc') = S (List.length (snd acc))).
Proof.
  intros [[r ->] | [e ->]]; simpl; lia.
Qed.

Lemma length_insert_at i rd rows :
  List.length (insert_at i rd rows) = S (List.length rows).
Proof.
  unfold insert_at. rewrite !length_app. simpl.
  rewrite <- (firstn_skipn i rows) at 3. rewrite length_app. lia.
Qed.

Lemma moved_count st st' : moved st st' -> pass_entries st' = S (pass_entries st).
Proof.
  unfold pass_entries, nrows.
  intros [(rows & d & rd & H1 & H2 & H3) | (e & H1 & H2)].
  - rewrite H1, H2, H3. simpl. rewrite length_insert_at. lia.
  - rewrite H1, H2, length_app. simpl. lia.
Qed.

Lemma nrows_DataFrame records : nrows (DataFrame records) = List.length records.
Proof. destruct records; reflexivity. Qed.

Section Conservation.

Context {PF : Platform}.

Lemma process_step_total c p k g row acc :
  total (process_step c p k g row acc) (one_entry acc).
Proof.
  unfold total, process_step. destruct acc as [results errors].
  apply post_bind with (R := one_entry (results, errors)).
  - apply post_try with (E' := anything).
    + apply post_bind with (R := anything); [apply post_any |].
      intros r _. apply post_bind with (R := anything).
      * apply post_weaken with (Q := anything) (E := fun _ => False);
          [apply total_print | auto | intros e []].
      * intros _ _. apply post_ret. left. exists r. reflexivity.
    + intros e _. apply post_bind with (R := anything);
        [apply total_now |].
      intros t _. apply post_bind with (R := anything);
        [apply total_print |].
      intros _ _. apply post_ret. right. eexists. reflexivity.
  - intros acc' H. apply post_bind with (R := anything);
      [apply total_sleep |].
    intros _ _. apply post_ret. exact H.
Qed.

Lemma process_rows_total c p k g rows : forall acc,
  total (process_rows c p k g rows acc)
        (fun acc' => entries acc' = (List.length rows + entries acc)%nat).
Proof.
  induction rows as [| row rest IH]; intros acc; simpl.
  - apply post_ret. reflexivity.
  - apply post_bind with (R := one_entry acc);
      [apply process_step_total |].
    intros acc' H. eapply post_weaken; [apply IH | | auto].
    intros acc'' ->. simpl. rewrite (one_entry_count H). lia.
Qed.

Lemma process_dataframe_total df c p k g :
  total (process_dataframe df c p k g)
        (fun '(result_df, errors_df) =>
           (nrows result_df + List.length errors_df)%nat
           = List.length (filter_category c df)).
Proof.
  unfold process_dataframe.
  eapply post_bind; [apply process_rows_total |].
  intros [results errors] H. apply post_ret.
  rewrite nrows_DataFrame. unfold entries in H. simpl in H. lia.
Qed.

Variable df : list Row.
Variable prompts : pystr -> option pystr.
Variables api_key apigw_api_key : pystr.

Lemma retry_row_post error_row st :
  post (retry_row df prompts api_key apigw_api_key error_row st)
       (fun out => moved st (snd out)) anything.
Proof.
  unfold retry_row.
  destruct (matching (e_docid error_row) (e_category error_row) df)
    as [| row _].
  - apply post_bind with (R := anything); [apply post_any |]. intros _ _.
    apply post_bind with (R := anything); [apply post_any |]. intros t1 _.
    apply post_bind with (R := anything); [apply post_any |]. intros t2 _.
    apply post_ret. right. eexists. split; reflexivity.
  - apply post_bind with (R := anything); [apply post_any |]. intros prompt _.
    apply post_bind with (R := anything); [apply post_any |].
    intros [response_json error] _.
    destruct (error_set error) as [e |].
    + destruct (contains (lit "429") e).
      * apply post_bind with (R := anything); [apply post_any |]. intros _ _.
        apply post_bind with (R := anything); [apply post_any |]. intros _ _.
        apply post_raise. exact I.
      * destruct (contains (lit "40005") e || contains (lit "40006") e).
        -- apply post_bind with (R := anything); [apply post_any |]. intros _ _.
           apply post_bind with (R := anything); [apply post_any |]. intros t1 _.
           apply post_bind with (R := anything); [apply post_any |]. intros t2 _.
           apply post_ret. right. eexists. split; reflexivity.
        -- apply post_raise. exact I.
    + destruct (negb (Py.truthy response_json)); [apply post_raise; exact I |].
      apply post_bind with (R := anything); [apply post_any |].
      intros [|] _; [apply post_raise; exact I |].
      apply post_bind with (R := anything); [apply post_any |].
      intros result_content _.
      destruct (negb (Py.is_str result_content)); [apply post_raise; exact I |].
      apply post_bind with (R := anything); [apply post_any |].
      intros [[summary pred] reason] _.
      eapply post_bind with
        (R := fun result_df => exists rows d rd,
                  ps_result_df st = Frame rows
                  /\ result_df = Frame (insert_at (original_index d rows) rd rows)).
      * apply post_lift. unfold insert_result.
        destruct (ps_result_df st) as [| rows]; [exact I |].
        do 3 eexists. split; reflexivity.
      * intros result_df (rows & d & rd & H1 & H2).
        apply post_bind with (R := anything); [apply post_any |]. intros _ _.
        apply post_bind with (R := anything); [apply post_any |]. intros t _.
        apply post_ret. left. exists rows, d, rd. simpl. auto.
Qed.

Lemma retry_handler_total error_row st e :
  total (retry_handler error_row st e) (fun out => moved st (snd out)).
Proof.
  unfold total, retry_handler.
  apply post_bind with (R := anything); [apply total_now |]. intros t1 _.
  apply post_bind with (R := anything); [apply total_print |]. intros _ _.
  apply post_bind with (R := anything); [apply total_now |]. intros t2 _.
  apply post_ret. right. eexists. split; reflexivity.
Qed.

Lemma retry_step_total error_row st :
  total (retry_step df prompts api_key apigw_api_key error_row st) (moved st).
Proof.
  unfold total, retry_step.
  apply post_bind with (R := fun out => moved st (snd out)).
  - apply post_try with (E' := anything); [apply retry_row_post |].
    intros e _. apply retry_handler_total.
  - intros [fl st'] H. simpl in H. destruct fl.
    + apply post_bind with (R := anything); [apply total_sleep |].
      intros _ _. apply post_ret. exact H.
    + apply post_ret. exact H.
Qed.

Lemma retry_rows_total errors_df : forall st,
  total (retry_rows df prompts api_key apigw_api_key errors_df st)
        (fun st' =>
           pass_entries st' = (List.length errors_df + pass_entries st)%nat).
Proof.
  induction errors_df as [| error_row rest IH]; intros st; simpl.
  - apply post_ret. reflexivity.
  - apply post_bind with (R := moved st); [apply retry_step_total |].
    intros st' H. eapply post_weaken; [apply IH | | auto].
    intros st'' ->. simpl. rewrite (moved_count H). lia.
Qed.

Definition loop_entries (ls : loop_state) : nat :=
  (nrows (ls_result_df ls) + List.length (ls_errors_df ls))%nat.

Lemma retry_pass_total ls :
  total (retry_pass df prompts api_key apigw_api_key ls)
        (fun ls' => loop_entries ls' = loop_entries ls
                    /\ ls_retry_count ls' = ls_retry_count ls + 1).
Proof.
  unfold total, retry_pass.
  apply post_bind with (R := anything); [apply total_print |]. intros _ _.
  eapply post_bind; [apply retry_rows_total |].
  intros st H. apply post_ret. unfold loop_entries, pass_entries in *.
  simpl in *. split; [lia | reflexivity].
Qed.

End Conservation.

(* ------------------------------------------------------------------ *)
(** ** The retry loop: passes and termination *)

Section Passes.

Context {PF : Platform}.

Variable df : list Row.
Variable prompts : pystr -> option pystr.
Variables api_key apigw_api_key : pystr.

(** [n] consecutive passes, each over the errors the previous one left. *)
Fixpoint passes (n : nat) (ls : loop_state) : M loop_state :=
  match n with
  | O => ret ls
  | S n' => ls' <- retry_pass df prompts api_key apigw_api_key ls ;; passes n' ls'
  end.

(** The passes the loop condition still allows from a state. *)
Definition remaining (max_retries : Z) (ls : loop_state) : nat :=
  Z.to_nat (max_retries - ls_retry_count ls).

Lemma retry_cond_true max_retries ls :
  retry_cond max_retries ls = true ->
  ls_errors_df ls <> [] /\ ls_retry_count ls < max_retries.
Proof.
  unfold retry_cond. intros H. apply andb_true_iff in H as [H1 H2].
  apply Z.ltb_lt in H2. split; [| exact H2].
  destruct (ls_errors_df ls); [discriminate | discriminate].
Qed.

Lemma retry_cond_false max_retries ls :
  retry_cond max_retries ls = false ->
  ls_errors_df ls = [] \/ max_retries <= ls_retry_count ls.
Proof.
  unfold retry_cond. intros H. apply andb_false_iff in H as [H | H].
  - left. destruct (ls_errors_df ls); [reflexivity | discriminate].
  - right. apply Z.ltb_ge in H. exact H.
Qed.

Lemma pass_run ls w :
  exists ls' w' t,
    retry_pass df prompts api_key apigw_api_key ls w = (Return ls', w', t)
    /\ loop_entries ls' = loop_entries ls
    /\ ls_retry_count ls' = ls_retry_count ls + 1.
Proof.
  destruct (total_run w (retry_pass_total df prompts api_key apigw_api_key ls))
    as (ls' & w' & t & H & H1 & H2).
  exists ls', w', t. auto.
Qed.

Lemma passes_succ n ls w ls1 w1 t1 ls' w' t :
  retry_pass df prompts api_key apigw_api_key ls w = (Return ls1, w1, t1) ->
  passes n ls1 w1 = (Return ls', w', t) ->
  passes (S n) ls w = (Return ls', w', t1 ++ t).
Proof.
  intros H1 H2. simpl. unfold bind. rewrite H1, H2. reflexivity.
Qed.

Lemma while_step fuel max_retries ls w ls1 w1 t1 :
  retry_cond max_retries ls = true ->
  retry_pass df prompts api_key apigw_api_key ls w = (Return ls1, w1, t1) ->
  retry_while df prompts api_key apigw_api_key (S fuel) max_retries ls w
  = let '(r, w2, t2) := retry_while df prompts api_key apigw_api_key fuel max_retries ls1 w1 in (r, w2, t1 ++ t2).
Proof.
  intros Hc H1. simpl. rewrite Hc. unfold bind. rewrite H1. reflexivity.
Qed.

Lemma while_stop fuel max_retries ls w :
  retry_cond max_retries ls = false ->
  retry_while df prompts api_key apigw_api_key fuel max_retries ls w = (Return (Some ls), w, []).
Proof. intros Hc. destruct fuel; simpl; rewrite Hc; reflexivity. Qed.

(** With enough fuel the loop is a number of passes: as many as it takes
    to empty the error set, and no more than the condition allows. *)
Lemma retry_while_passes max_retries : forall fuel ls w,
  (remaining max_retries ls <= fuel)%nat ->
  exists n ls' w' t,
    passes n ls w = (Return ls', w', t)
    /\ retry_while df prompts api_key apigw_api_key fuel max_retries ls w = (Return (Some ls'), w', t)
    /\ (n <= remaining max_retries ls)%nat
    /\ (ls_errors_df ls' = [] \/ n = remaining max_retries ls)
    /\ (forall k, (k < n)%nat ->
          exists lsk wk tk,
            passes k ls w = (Return lsk, wk, tk) /\ ls_errors_df lsk <> []).
Proof.
  induction fuel as [| fuel IH]; intros ls w Hfuel;
    destruct (retry_cond max_retries ls) eqn:Hc.
  - apply retry_cond_true in Hc as [_ Hlt]. unfold remaining in Hfuel. lia.
  - exists 0%nat, ls, w, []. repeat split.
    + apply while_stop. exact Hc.
    + lia.
    + apply retry_cond_false in Hc as [He | Hge]; [left; exact He |].
      right. unfold remaining. lia.
    + intros k Hk. lia.
  - destruct (retry_cond_true _ _ Hc) as [Hne Hlt].
    destruct (pass_run ls w) as (ls1 & w1 & t1 & Hp & _ & Hcount).
    assert (Hrem : remaining max_retries ls = S (remaining max_retries ls1)).
    { unfold remaining. rewrite Hcount. lia. }
    destruct (IH ls1 w1) as (n & ls' & w' & t & Hn & Hw & Hle & Hend & Hk);
      [lia |].
    exists (S n), ls', w', (t1 ++ t). repeat split.
    + eapply passes_succ; eassumption.
    + rewrite (@while_step fuel _ _ _ _ _ _ Hc Hp), Hw. reflexivity.
    + lia.
    + destruct Hend as [He | He]; [left; exact He | right; lia].
    + intros [| k] Hlt'.
      * exists ls, w, []. split; [reflexivity | exact Hne].
      * destruct (Hk k) as (lsk & wk & tk & Hpk & Hnk); [lia |].
        exists lsk, wk, (t1 ++ tk). split; [| exact Hnk].
        eapply passes_succ; eassumption.
  - exists 0%nat, ls, w, []. repeat split.
    + apply while_stop. exact Hc.
    + lia.
    + apply retry_cond_false in Hc as [He | Hge]; [left; exact He |].
      right. unfold remaining. lia.
    + intros k Hk. lia.
Qed.

(** The fuel handed to the loop does not matter once it is enough. *)
Lemma retry_while_enough_fuel max_retries : forall fuel1 fuel2 ls w,
  (remaining max_retries ls <= fuel1)%nat ->
  (remaining max_retries ls <= fuel2)%nat ->
  retry_while df prompts api_key apigw_api_key fuel1 max_retries ls w = retry_while df prompts api_key apigw_api_key fuel2 max_retries ls w.
Proof.
  induction fuel1 as [| fuel1 IH]; intros fuel2 ls w H1 H2;
    destruct (retry_cond max_retries ls) eqn:Hc.
  - apply retry_cond_true in Hc as [_ Hlt]. unfold remaining in H1. lia.
  - rewrite !while_stop by exact Hc. reflexivity.
  - destruct (retry_cond_true _ _ Hc) as [_ Hlt].
    destruct fuel2 as [| fuel2]; [unfold remaining in H2; lia |].
    destruct (pass_run ls w) as (ls1 & w1 & t1 & Hp & _ & Hcount).
    rewrite (@while_step fuel1 _ _ _ _ _ _ Hc Hp), (@while_step fuel2 _ _ _ _ _ _ Hc Hp).
    rewrite (IH fuel2 ls1 w1); [reflexivity | |];
      unfold remaining in *; rewrite Hcount; lia.
  - rewrite !while_stop by exact Hc. reflexivity.
Qed.

Lemma passes_entries : forall n ls w ls' w' t,
  passes n ls w = (Return ls', w', t) -> loop_entries ls' = loop_entries ls.
Proof.
  induction n as [| n IH]; intros ls w ls' w' t H; simpl in H.
  - inversion H. reflexivity.
  - unfold bind in H.
    destruct (pass_run ls w) as (ls1 & w1 & t1 & Hp & He & _).
    rewrite Hp in H.
    destruct (passes n ls1 w1) as [[r w2] t2] eqn:Hn.
    inversion H; subst. rewrite (IH _ _ _ _ _ Hn). exact He.
Qed.

Lemma passes_count : forall n ls w ls' w' t,
  passes n ls w = (Return ls', w', t) ->
  ls_retry_count ls' = ls_retry_count ls + Z.of_nat n.
Proof.
  induction n as [| n IH]; intros ls w ls' w' t H; simpl in H.
  - inversion H. lia.
  - unfold bind in H.
    destruct (pass_run ls w) as (ls1 & w1 & t1 & Hp & _ & Hc).
    rewrite Hp in H.
    destruct (passes n ls1 w1) as [[r w2] t2] eqn:Hn.
    inversion H; subst. rewrite (IH _ _ _ _ _ Hn), Hc. lia.
Qed.

(** [retry_failed_rows] is the result of those passes. *)
Lemma retry_failed_rows_passes errors_df result_df max_retries w :
  let ls0 := mk_loop 0 errors_df result_df [] in
  exists n ls' w' t,
    passes n ls0 w = (Return ls', w', t)
    /\ retry_failed_rows df prompts api_key apigw_api_key
         errors_df result_df max_retries w
       = (Return (Some (ls_result_df ls', ls_errors_df ls', ls_all_logs ls')),
          w', t)
    /\ (n <= Z.to_nat max_retries)%nat
    /\ (ls_errors_df ls' = [] \/ n = Z.to_nat max_retries)
    /\ (forall k, (k < n)%nat ->
          exists lsk wk tk,
            passes k ls0 w = (Return lsk, wk, tk) /\ ls_errors_df lsk <> []).
Proof.
  intros ls0.
  assert (Hrem : remaining max_retries ls0 = Z.to_nat max_retries).
  { unfold remaining, ls0. simpl. f_equal. lia. }
  destruct (@retry_while_passes max_retries (Z.to_nat max_retries) ls0 w)
    as (n & ls' & w' & t & Hn & Hw & Hle & Hend & Hk); [lia |].
  exists n, ls', w', t. rewrite Hrem in *. repeat split; auto.
  unfold retry_failed_rows, bind. fold ls0. rewrite Hw. simpl.
  rewrite app_nil_r. reflexivity.
Qed.

End Passes.

(* ------------------------------------------------------------------ *)
(** ** Ordered insertion of a recovered row *)

(** Sorted by document id, equal ids allowed. *)
Definition docid_le (a b : ResultRow) : Prop := r_docid a <= r_docid b.

Definition sorted_by_docid (rows : list ResultRow) : Prop :=
  Sorted docid_le rows.

Lemma last_smaller_shift d rows : forall pos,
  last_smaller d (S pos) rows = option_map S (last_smaller d pos rows).
Proof.
  induction rows as [| r rest IH]; intros pos; simpl.
  - reflexivity.
  - rewrite (IH (S pos)), (IH pos).
    destruct (last_smaller d pos rest); simpl; [reflexivity |].
    destruct (r_docid r <? d); reflexivity.
Qed.

Lemma original_index_cons_lt d r rest :
  r_docid r < d -> original_index d (r :: rest) = S (original_index d rest).
Proof.
  intros H. unfold original_index. simpl. rewrite last_smaller_shift.
  destruct (last_smaller d 0 rest); simpl; [reflexivity |].
  apply Z.ltb_lt in H. rewrite H. reflexivity.
Qed.

Lemma last_smaller_none d rows : forall pos,
  Forall (fun x => d <= r_docid x) rows -> last_smaller d pos rows = None.
Proof.
  induction rows as [| r rest IH]; intros pos H; simpl.
  - reflexivity.
  - inversion H as [| ? ? Hr Hrest]; subst.
    rewrite (IH (S pos) Hrest).
    apply Z.ltb_ge in Hr. rewrite Hr. reflexivity.
Qed.

Lemma original_index_none d rows :
  Forall (fun x => d <= r_docid x) rows -> original_index d rows = 0%nat.
Proof.
  intros H. unfold original_index. rewrite (@last_smaller_none _ _ 0%nat H). reflexivity.
Qed.

Lemma docid_le_trans : Relations_1.Transitive docid_le.
Proof. intros a b c. unfold docid_le. lia. Qed.

Lemma HdRel_insert_at r rd i rest :
  docid_le r rd -> HdRel docid_le r rest ->
  HdRel docid_le r (insert_at i rd rest).
Proof.
  intros Hrd Hrest. unfold insert_at.
  destruct i as [| i]; simpl; [constructor; exact Hrd |].
  destruct rest as [| x rest']; simpl.
  - constructor. exact Hrd.
  - constructor. inversion Hrest. assumption.
Qed.

Lemma insert_at_sorted rd : forall rows,
  sorted_by_docid rows ->
  sorted_by_docid (insert_at (original_index (r_docid rd) rows) rd rows).
Proof.
  unfold sorted_by_docid.
  induction rows as [| r rest IH]; intros Hs.
  - unfold insert_at. simpl. repeat constructor.
  - inversion Hs as [| ? ? Hrest Hhd]; subst.
    destruct (Z.lt_ge_cases (r_docid r) (r_docid rd)) as [Hlt | Hge].
    + rewrite (@original_index_cons_lt _ _ rest Hlt).
      change (insert_at (S (original_index (r_docid rd) rest)) rd (r :: rest))
        with (r :: insert_at (original_index (r_docid rd) rest) rd rest).
      constructor; [apply IH; exact Hrest |].
      apply HdRel_insert_at; [unfold docid_le; lia | exact Hhd].
    + assert (Hall : Forall (fun x => r_docid rd <= r_docid x) (r :: rest)).
      { constructor; [exact Hge |].
        apply Sorted_StronglySorted in Hs; [| exact docid_le_trans].
        inversion Hs as [| ? ? _ Hfa]; subst.
        apply Forall_impl with (P := docid_le r); [| exact Hfa].
        unfold docid_le. intros x Hx. lia. }
      rewrite (@original_index_none _ _ Hall). unfold insert_at. simpl.
      constructor; [exact Hs |]. constructor. exact Hge.
Qed.

(** The position is the one the scan describes: every row before it that
    matters is smaller, and no row from it on is. *)
Lemma original_index_spec d : forall rows,
  Forall (fun x => ~ r_docid x < d) (skipn (original_index d rows) rows)
  /\ (original_index d rows = 0%nat
      \/ exists x, nth_error rows (pred (original_index d rows)) = Some x
                   /\ r_docid x < d).
Proof.
  induction rows as [| r rest [IH1 IH2]].
  - split; [constructor | left; reflexivity].
  - unfold original_index in *. simpl. rewrite last_smaller_shift.
    destruct (last_smaller d 0 rest) as [i |] eqn:Hl; simpl in *.
    + split; [exact IH1 |]. right.
      destruct IH2 as [H0 | H]; [discriminate | exact H].
    + destruct (r_docid r <? d) eqn:Hr; simpl.
      * split; [exact IH1 |]. right. exists r. split; [reflexivity |].
        apply Z.ltb_lt. exact Hr.
      * split; [| left; reflexivity].
        constructor; [apply Z.ltb_ge in Hr; lia | exact IH1].
Qed.

(* ------------------------------------------------------------------ *)
(** ** What is sent to the completion client *)

(** The user message of a request holds at most 6500 characters. *)
Definition user_content_bounded (ev : event) : Prop :=
  match ev with
  | EvPost messages =>
      Forall (fun m => role m = lit "user" -> len (msg_content m) <= 6500)
             messages
  | _ => True
  end.

(** The [len_context] column does not understate the content. *)
Definition length_recorded (row : Row) : Prop :=
  len (content row) <= len_context row.

Lemma truncate_context_long row :
  len_context row > 6500 ->
  truncate_context row = slice_to 6500 (content row).
Proof.
  intros H. unfold truncate_context.
  destruct (len_context row >? 6500) eqn:Hc; [reflexivity |].
  rewrite Z.gtb_ltb in Hc. apply Z.ltb_ge in Hc. lia.
Qed.

Lemma truncate_context_short row :
  len_context row <= 6500 -> truncate_context row = content row.
Proof.
  intros H. unfold truncate_context.
  destruct (len_context row >? 6500) eqn:Hc; [| reflexivity].
  rewrite Z.gtb_ltb in Hc. apply Z.ltb_lt in Hc. lia.
Qed.

Lemma len_slice_to n s : 0 <= n -> len (slice_to n s) <= n.
Proof.
  intros Hn. unfold len, slice_to.
  pose proof (firstn_le_length (Z.to_nat n) s). lia.
Qed.

Lemma truncate_context_bounded row :
  length_recorded row -> len (truncate_context row) <= 6500.
Proof.
  unfold length_recorded. intros H.
  destruct (Z_gt_le_dec (len_context row) 6500) as [Hgt | Hle].
  - rewrite (truncate_context_long row Hgt). apply len_slice_to. lia.
  - rewrite (truncate_context_short row Hle). lia.
Qed.

Lemma chat_messages_bounded prompt row :
  length_recorded row ->
  user_content_bounded (EvPost (chat_messages prompt (truncate_context row))).
Proof.
  intros H. simpl. repeat constructor; simpl.
  - intros Hrole. discriminate Hrole.
  - intros _. apply truncate_context_bounded. exact H.
Qed.

Ltac emits_quiet :=
  repeat first
    [ apply emits_ret | apply emits_raise | apply emits_lift | apply emits_now
    | apply emits_print; exact I | apply emits_sleep; exact I
    | apply emits_try | apply emits_try_value_error | apply emits_bind
    | match goal with
      | |- emits _ (match ?x with _ => _ end) => destruct x
      | |- forall _, _ => intro
      end ].

Section Sent.

Context {PF : Platform}.

Lemma process_row_emits c p k g row :
  length_recorded row ->
  emits user_content_bounded (process_row c p k g row).
Proof.
  intros H. unfold process_row. apply emits_bind.
  - apply emits_call_clova_api. apply chat_messages_bounded. exact H.
  - intros [response_json error]. emits_quiet.
Qed.

Lemma process_rows_emits c p k g rows : forall acc,
  Forall length_recorded rows ->
  emits user_content_bounded (process_rows c p k g rows acc).
Proof.
  induction rows as [| row rest IH]; intros acc H; simpl.
  - apply emits_ret.
  - inversion H as [| ? ? Hrow Hrest]; subst.
    apply emits_bind; [| intros acc'; apply IH; exact Hrest].
    unfold process_step. destruct acc as [results errors].
    apply emits_bind; [| emits_quiet].
    apply emits_try; [| emits_quiet].
    apply emits_bind; [apply process_row_emits; exact Hrow | emits_quiet].
Qed.

Lemma process_dataframe_emits df c p k g :
  Forall length_recorded df ->
  emits user_content_bounded (process_dataframe df c p k g).
Proof.
  intros H. unfold process_dataframe. apply emits_bind.
  - apply process_rows_emits. unfold filter_category.
    apply Forall_forall. intros row Hin. apply filter_In in Hin as [Hin _].
    rewrite Forall_forall in H. apply H. exact Hin.
  - intros [results errors]. apply emits_ret.
Qed.

Variable df : list Row.
Variable prompts : pystr -> option pystr.
Variables api_key apigw_api_key : pystr.
Hypothesis df_recorded : Forall length_recorded df.

Lemma retry_row_emits error_row st :
  emits user_content_bounded
        (retry_row df prompts api_key apigw_api_key error_row st).
Proof.
  unfold retry_row.
  destruct (matching (e_docid error_row) (e_category error_row) df)
    as [| row others] eqn:Hm.
  - emits_quiet.
  - assert (Hrow : length_recorded row).
    { rewrite Forall_forall in df_recorded. apply df_recorded.
      assert (Hin : In row (matching (e_docid error_row)
                              (e_category error_row) df))
        by (rewrite Hm; left; reflexivity).
      unfold matching in Hin. apply filter_In in Hin as [Hin _]. exact Hin. }
    apply emits_bind; [apply emits_lift |]. intros prompt.
    apply emits_bind.
    + apply emits_call_clova_api. apply chat_messages_bounded. exact Hrow.
    + intros [response_json error]. emits_quiet.
Qed.

Lemma retry_rows_emits errors_df : forall st,
  emits user_content_bounded
        (retry_rows df prompts api_key apigw_api_key errors_df st).
Proof.
  induction errors_df as [| error_row rest IH]; intros st; simpl.
  - apply emits_ret.
  - apply emits_bind; [| intros st'; apply IH].
    unfold retry_step. apply emits_bind.
    + apply emits_try; [apply retry_row_emits |].
      intros e. unfold retry_handler. emits_quiet.
    + intros [fl st']. emits_quiet.
Qed.

Lemma retry_while_emits max_retries : forall fuel ls,
  emits user_content_bounded
        (retry_while df prompts api_key apigw_api_key fuel max_retries ls).
Proof.
  induction fuel as [| fuel IH]; intros ls; simpl;
    destruct (retry_cond max_retries ls); try apply emits_ret.
  apply emits_bind; [| intros ls'; apply IH].
  unfold retry_pass. apply emits_bind; [apply emits_print; exact I |].
  intros _. apply emits_bind; [apply retry_rows_emits |].
  intros st. apply emits_ret.
Qed.

Lemma retry_failed_rows_emits errors_df result_df max_retries :
  emits user_content_bounded
        (retry_failed_rows df prompts api_key apigw_api_key
           errors_df result_df max_retries).
Proof.
  unfold retry_failed_rows. apply emits_bind; [apply retry_while_emits |].
  intros r. apply emits_ret.
Qed.

End Sent.

(* ------------------------------------------------------------------ *)
(** ** Failure isolation in the batch processor *)

Definition acc_app (a b : list ResultRow * list ErrorRow)
  : list ResultRow * list ErrorRow :=
  (fst a ++ fst b, snd a ++ snd b).

(** An error record without its timestamp. *)
Definition untimed (e : ErrorRow) : Z * pystr * pystr * option pystr :=
  (e_docid e, e_category e, e_errors e, e_error_stage e).

Lemma acc_app_assoc a b c : acc_app (acc_app a b) c = acc_app a (acc_app b c).
Proof. unfold acc_app. simpl. rewrite !app_assoc. reflexivity. Qed.

Lemma acc_app_nil_l a : acc_app ([], []) a = a.
Proof. destruct a. reflexivity. Qed.

Section Isolation.

Context {PF : Platform}.

Definition map_run {A B} (f : A -> B) (x : result A * World * list event)
  : result B * World * list event :=
  let '(r, w, t) := x in
  (match r with Return a => Return (f a) | Raise e => Raise e end, w, t).

Lemma bind_assoc A B C (m : M A) (k : A -> M B) (h : B -> M C) w :
  bind (bind m k) h w = bind m (fun a => bind (k a) h) w.
Proof.
  unfold bind. destruct (m w) as [[[a|e] w1] t1]; [| reflexivity].
  destruct (k a w1) as [[[b|e] w2] t2]; [| reflexivity].
  destruct (h b w2) as [[r w3] t3]. rewrite app_assoc. reflexivity.
Qed.

Lemma bind_ext A B (m : M A) (k1 k2 : A -> M B) w :
  (forall a w1, k1 a w1 = k2 a w1) -> bind m k1 w = bind m k2 w.
Proof.
  intros H. unfold bind. destruct (m w) as [[[a|e] w1] t1]; [| reflexivity].
  rewrite H. reflexivity.
Qed.

Variables category0 prompt api_key apigw_api_key : pystr.

(** The error record line 147 builds for a row that raised [e]. *)
Definition error_record (row : Row) (e : exn) (time : pystr) : ErrorRow :=
  mk_ErrorRow (docid row) category0 (exn_str e) None time.

(** One iteration, read off the outcome of its [try] block. *)
Lemma process_step_run row acc w :
  process_step category0 prompt api_key apigw_api_key row acc w
  = match process_row category0 prompt api_key apigw_api_key row w with
    | (Return r, w1, t1) =>
        (Return (fst acc ++ [r], snd acc), time_sleep 6 w1,
         t1 ++ [EvPrint (lit "Success: docid " ++ str_of_Z (docid row)
                         ++ lit " in " ++ category0 ++ lit " 처리 완료");
                EvSleep 6])
    | (Raise e, w1, t1) =>
        (Return (fst acc, snd acc ++ [error_record row e (strftime_now w1)]),
         time_sleep 6 w1,
         t1 ++ [EvPrint (lit "Error: docid " ++ str_of_Z (docid row)
                         ++ lit " in " ++ category0 ++ lit " 처리 실패 - "
                         ++ exn_str e);
                EvSleep 6])
    end.
Proof.
  unfold process_step, bind, try_except. destruct acc as [results errors].
  destruct (process_row category0 prompt api_key apigw_api_key row w)
    as [[[r|e] w1] t1]; simpl; rewrite ?app_nil_r, <- ?app_assoc; reflexivity.
Qed.

Lemma process_step_acc row acc w :
  process_step category0 prompt api_key apigw_api_key row acc w
  = map_run (acc_app acc)
      (process_step category0 prompt api_key apigw_api_key row ([], []) w).
Proof.
  rewrite !process_step_run.
  destruct (process_row category0 prompt api_key apigw_api_key row w)
    as [[[r|e] w1] t1]; unfold acc_app; simpl; rewrite ?app_nil_r;
    reflexivity.
Qed.

Lemma process_rows_cons row rest acc :
  process_rows category0 prompt api_key apigw_api_key (row :: rest) acc
  = bind (process_step category0 prompt api_key apigw_api_key row acc)
         (process_rows category0 prompt api_key apigw_api_key rest).
Proof. reflexivity. Qed.

Lemma process_rows_acc rows : forall acc w,
  process_rows category0 prompt api_key apigw_api_key rows acc w
  = map_run (acc_app acc)
      (process_rows category0 prompt api_key apigw_api_key rows ([], []) w).
Proof.
  induction rows as [| row rest IH]; intros acc w.
  - destruct acc. unfold acc_app. simpl. rewrite !app_nil_r. reflexivity.
  - rewrite !process_rows_cons. unfold bind.
    rewrite (process_step_acc row acc w).
    destruct (process_step category0 prompt api_key apigw_api_key row ([], []) w)
      as [[[d|e] w1] t1]; [| reflexivity].
    cbv beta iota delta [map_run].
    rewrite (IH (acc_app acc d) w1), (IH d w1).
    destruct (process_rows category0 prompt api_key apigw_api_key rest ([], []) w1)
      as [[[a|e] w2] t2]; [| reflexivity].
    cbv beta iota delta [map_run]. rewrite acc_app_assoc. reflexivity.
Qed.

Lemma process_rows_app rows1 : forall rows2 acc w,
  process_rows category0 prompt api_key apigw_api_key (rows1 ++ rows2) acc w
  = bind (process_rows category0 prompt api_key apigw_api_key rows1 acc)
         (process_rows category0 prompt api_key apigw_api_key rows2) w.
Proof.
  induction rows1 as [| row rest IH]; intros rows2 acc w.
  - unfold bind. simpl. unfold ret.
    destruct (process_rows category0 prompt api_key apigw_api_key rows2 acc w)
      as [[r w1] t1]. reflexivity.
  - rewrite <- app_comm_cons, !process_rows_cons, bind_assoc.
    apply bind_ext. intros a w1. apply IH.
Qed.

Lemma process_rows_run rows acc w :
  exists a w1 t,
    process_rows category0 prompt api_key apigw_api_key rows acc w
    = (Return a, w1, t).
Proof.
  destruct (total_run w (process_rows_total category0 prompt api_key
                           apigw_api_key rows acc))
    as (a & w1 & t & H & _).
  exists a, w1, t. exact H.
Qed.

Lemma filter_category_split pre bad post :
  eqb (category bad) category0 = true ->
  filter_category category0 (pre ++ bad :: post)
  = filter_category category0 pre
    ++ bad :: filter_category category0 post.
Proof.
  intros H. unfold filter_category. rewrite filter_app. simpl.
  rewrite H. reflexivity.
Qed.

Lemma process_dataframe_run df w :
  process_dataframe df category0 prompt api_key apigw_api_key w
  = map_run (fun acc => (DataFrame (fst acc), snd acc))
      (process_rows category0 prompt api_key apigw_api_key
         (filter_category category0 df) ([], []) w).
Proof.
  unfold process_dataframe, bind.
  destruct (process_rows category0 prompt api_key apigw_api_key
              (filter_category category0 df) ([], []) w)
    as [[[[results errors]|e] w1] t1]; simpl; rewrite ?app_nil_r; reflexivity.
Qed.

Lemma frame_rows_DataFrame records : frame_rows (DataFrame records) = records.
Proof. destruct records; reflexivity. Qed.

(** A failing row between [pre] and [post]: the batch is the run on [pre],
    one error record, and the run on [post] from the world the failed row
    leaves behind. *)
Lemma process_dataframe_failed_row pre bad post w F1 E1 w1 t1 e w2 t2 :
  eqb (category bad) category0 = true ->
  process_dataframe pre category0 prompt api_key apigw_api_key w
  = (Return (F1, E1), w1, t1) ->
  process_row category0 prompt api_key apigw_api_key bad w1
  = (Raise e, w2, t2) ->
  exists F2 E2 w3 t3 line,
    process_dataframe post category0 prompt api_key apigw_api_key
      (time_sleep 6 w2) = (Return (F2, E2), w3, t3)
    /\ process_dataframe (pre ++ bad :: post) category0 prompt api_key
         apigw_api_key w
       = (Return (DataFrame (frame_rows F1 ++ frame_rows F2),
                  E1 ++ error_record bad e (strftime_now w2) :: E2),
          w3, t1 ++ (t2 ++ [EvPrint line; EvSleep 6]) ++ t3).
Proof.
  intros Hcat Hpre Hbad.
  rewrite process_dataframe_run in Hpre.
  destruct (process_rows category0 prompt api_key apigw_api_key
              (filter_category category0 pre) ([], []) w)
    as [[[[R1 E1']|e1] wa] ta] eqn:Hrows1; simpl in Hpre; [| discriminate].
  inversion Hpre; subst F1 E1 w1 t1. clear Hpre.
  destruct (process_rows_run (filter_category category0 post) ([], [])
              (time_sleep 6 w2)) as ([R2 E2] & w3 & t3 & Hrows2).
  exists (DataFrame R2), E2, w3, t3. eexists. split.
  - rewrite process_dataframe_run, Hrows2. reflexivity.
  - rewrite process_dataframe_run, (filter_category_split pre bad post Hcat).
    rewrite process_rows_app. unfold bind. rewrite Hrows1.
    rewrite process_rows_cons. unfold bind.
    rewrite process_step_run, Hbad.
    rewrite process_rows_acc, Hrows2.
    cbv beta iota delta [map_run acc_app fst snd].
    rewrite !frame_rows_DataFrame, <- !app_assoc. reflexivity.
Qed.

End Isolation.

(** *** A server whose answer depends on the request only *)

Section Stateless.

Context {PF : Platform}.

(** The response to a request is the same in every world. *)
Definition stateless_server : Prop :=
  forall url k g ms w w',
    fst (requests_post url k g ms w) = fst (requests_post url k g ms w').

(** The result of [m] is the same in every world. *)
Definition pure_res {A} (m : M A) : Prop :=
  forall w w', res (m w) = res (m w').

Lemma pure_ret A (a : A) : pure_res (ret a).
Proof. intros w w'. reflexivity. Qed.

Lemma pure_raise A e : pure_res (raise (A := A) e).
Proof. intros w w'. reflexivity. Qed.

Lemma pure_lift A (r : result A) : pure_res (lift r).
Proof. intros w w'. reflexivity. Qed.

Lemma pure_bind A B (m : M A) (k : A -> M B) :
  pure_res m -> (forall a, pure_res (k a)) -> pure_res (bind m k).
Proof.
  intros Hm Hk w w'. specialize (Hm w w'). unfold res, bind in *.
  destruct (m w) as [[r1 w1] t1], (m w') as [[r2 w2] t2]. simpl in Hm.
  subst r2. destruct r1 as [a | e]; [| reflexivity].
  specialize (Hk a w1 w2). unfold res in Hk.
  destruct (k a w1) as [[r3 w3] t3], (k a w2) as [[r4 w4] t4]. exact Hk.
Qed.

Lemma pure_try_value_error A (m : M A) h :
  pure_res m -> (forall e, pure_res (h e)) ->
  pure_res (try_except_value_error m h).
Proof.
  intros Hm Hh w w'. specialize (Hm w w').
  unfold res, try_except_value_error in *.
  destruct (m w) as [[r1 w1] t1], (m w') as [[r2 w2] t2]. simpl in Hm.
  subst r2. destruct r1 as [a | e]; [reflexivity |].
  destruct (is_value_error e); [| reflexivity].
  specialize (Hh e w1 w2). unfold res in Hh.
  destruct (h e w1) as [[r3 w3] t3], (h e w2) as [[r4 w4] t4]. exact Hh.
Qed.

Hypothesis server_stateless : stateless_server.

Lemma pure_call_clova_api k g ms : pure_res (call_clova_api k g ms).
Proof.
  intros w w'. unfold res, call_clova_api.
  pose proof (server_stateless completion_url k g ms w w') as H.
  destruct (requests_post completion_url k g ms w) as [o1 w1],
           (requests_post completion_url k g ms w') as [o2 w2].
  simpl in *. subst o2. reflexivity.
Qed.

Variables category0 prompt api_key apigw_api_key : pystr.

Lemma pure_process_row row :
  pure_res (process_row category0 prompt api_key apigw_api_key row).
Proof.
  unfold process_row. apply pure_bind; [apply pure_call_clova_api |].
  intros [response_json error].
  destruct (error_set error); [apply pure_raise |].
  apply pure_bind; [apply pure_lift |]. intros [|]; [apply pure_raise |].
  apply pure_bind; [apply pure_lift |]. intros result_content.
  apply pure_bind.
  - apply pure_try_value_error; [apply pure_lift | intros e; apply pure_raise].
  - intros [[summary pred] reason]. apply pure_ret.
Qed.

(** What a run leaves when timestamps are not compared. *)
Definition same_entries (a b : list ResultRow * list ErrorRow) : Prop :=
  fst a = fst b /\ map untimed (snd a) = map untimed (snd b).

Lemma process_rows_same rows : forall w w',
  exists a w1 t a' w1' t',
    process_rows category0 prompt api_key apigw_api_key rows ([], []) w
    = (Return a, w1, t)
    /\ process_rows category0 prompt api_key apigw_api_key rows ([], []) w'
       = (Return a', w1', t')
    /\ same_entries a a'.
Proof.
  induction rows as [| row rest IH]; intros w w'.
  - exists ([], []), w, [], ([], []), w', []. repeat split.
  - rewrite !process_rows_cons. unfold bind. rewrite !process_step_run.
    pose proof (pure_process_row row w w') as Hres. unfold res in Hres.
    destruct (process_row category0 prompt api_key apigw_api_key row w)
      as [[r1 wa] ta],
      (process_row category0 prompt api_key apigw_api_key row w')
      as [[r2 wb] tb].
    simpl in Hres. subst r2.
    destruct (IH (time_sleep 6 wa) (time_sleep 6 wb))
      as ([Ra Ea] & w1 & t & [Ra' Ea'] & w1' & t' & H1 & H2 & Hfst & Hsnd).
    simpl in Hfst, Hsnd. subst Ra'.
    destruct r1 as [r | e];
      rewrite (process_rows_acc category0 prompt api_key apigw_api_key
                 rest _ (time_sleep 6 wa)),
              (process_rows_acc category0 prompt api_key apigw_api_key
                 rest _ (time_sleep 6 wb)), H1, H2;
      cbv beta iota delta [map_run acc_app fst snd];
      do 6 eexists; (split; [reflexivity |]); (split; [reflexivity |]);
      unfold same_entries; cbn [fst snd app map]; rewrite Hsnd;
      split; reflexivity.
Qed.

(** Without the failing row the results are the same and the errors are
    the same records, up to their timestamps, less the one of that row. *)
Lemma process_dataframe_without_row pre bad post w :
  eqb (category bad) category0 = true ->
  is_raise (res (process_row category0 prompt api_key apigw_api_key bad w))
  = true ->
  exists F E w1 t1 F' E' w1' t1',
    process_dataframe (pre ++ bad :: post) category0 prompt api_key
      apigw_api_key w = (Return (F, E), w1, t1)
    /\ process_dataframe (pre ++ post) category0 prompt api_key
         apigw_api_key w = (Return (F', E'), w1', t1')
    /\ F = F'
    /\ exists Ea err Eb Eb',
         E = Ea ++ err :: Eb /\ E' = Ea ++ Eb'
         /\ map untimed Eb = map untimed Eb'
         /\ e_docid err = docid bad /\ e_category err = category0.
Proof.
  intros Hcat Hraise.
  rewrite !process_dataframe_run.
  rewrite (filter_category_split category0 pre bad post Hcat).
  unfold filter_category at 3. rewrite filter_app.
  fold (filter_category category0 pre) (filter_category category0 post).
  rewrite !process_rows_app. unfold bind.
  destruct (process_rows_run category0 prompt api_key apigw_api_key
              (filter_category category0 pre) ([], []) w)
    as ([R1 E1] & wa & ta & Hpre).
  rewrite Hpre. rewrite process_rows_cons. unfold bind.
  rewrite process_step_run.
  pose proof (pure_process_row bad w wa) as Hres. unfold res in Hres.
  unfold res in Hraise.
  destruct (process_row category0 prompt api_key apigw_api_key bad w)
    as [[r0 w0] t0],
    (process_row category0 prompt api_key apigw_api_key bad wa)
    as [[r2 w2] t2].
  simpl in Hres, Hraise. subst r2.
  destruct r0 as [r | e]; [discriminate |].
  destruct (process_rows_same (filter_category category0 post)
              (time_sleep 6 w2) wa)
    as ([Ra Ea] & w3 & t3 & [Ra' Ea'] & w3' & t3' & H1 & H2 & Hfst & Hsnd).
  simpl in Hfst, Hsnd. subst Ra'.
  rewrite (process_rows_acc category0 prompt api_key apigw_api_key
             (filter_category category0 post) _ (time_sleep 6 w2)),
          (process_rows_acc category0 prompt api_key apigw_api_key
             (filter_category category0 post) _ wa), H1, H2.
  cbv beta iota delta [map_run acc_app fst snd].
  do 8 eexists. split; [reflexivity |]. split; [reflexivity |].
  split; [reflexivity |].
  exists E1, (error_record category0 bad e (strftime_now w2)), Ea, Ea'.
  rewrite <- app_assoc. cbn [app error_record e_docid e_category]. auto.
Qed.

End Stateless.

(* ------------------------------------------------------------------ *)
(** ** The delay after a request *)

(** The next effect that is not a printed line is a sleep of 6 seconds. *)
Fixpoint delay_follows (t : list event) : bool :=
  match t with
  | EvPrint _ :: rest => delay_follows rest
  | EvSleep s :: _ => s =? 6
  | _ => false
  end.

(** Every request of a trace is followed by that sleep before anything
    else happens. *)
Fixpoint every_post_delayed (t : list event) : bool :=
  match t with
  | [] => true
  | EvPost _ :: rest => delay_follows rest && every_post_delayed rest
  | _ :: rest => every_post_delayed rest
  end.

Definition silent (ev : event) : Prop := False.

Lemma silent_nil t : Forall silent t -> t = [].
Proof. intros H. destruct t as [| ev rest]; [reflexivity |]. inversion H as [| ? ? []]. Qed.

Section Delay.

Context {PF : Platform}.

Variables category0 prompt api_key apigw_api_key : pystr.

Lemma bind_trace_silent A B (m : M A) (k : A -> M B) w :
  (forall a, emits silent (k a)) ->
  trace_of (bind m k w) = trace_of (m w).
Proof.
  intros Hk. unfold bind, trace_of.
  destruct (m w) as [[[a | e] w1] t1]; [| reflexivity].
  specialize (Hk a w1). unfold trace_of in Hk.
  destruct (k a w1) as [[r2 w2] t2]. simpl in *.
  rewrite (silent_nil Hk), app_nil_r. reflexivity.
Qed.

Lemma call_clova_api_trace ms w :
  trace_of (call_clova_api api_key apigw_api_key ms w) = [EvPost ms].
Proof.
  unfold call_clova_api, trace_of.
  destruct (requests_post completion_url api_key apigw_api_key ms w).
  reflexivity.
Qed.

(** The [try] block of the batch processor sends one request and has no
    other effect. *)
Lemma process_row_trace row w :
  trace_of (process_row category0 prompt api_key apigw_api_key row w)
  = [EvPost (chat_messages prompt (truncate_context row))].
Proof.
  unfold process_row. rewrite bind_trace_silent.
  - apply call_clova_api_trace.
  - intros [response_json error]. emits_quiet.
Qed.

Lemma process_step_trace row acc w :
  exists line,
    trace_of (process_step category0 prompt api_key apigw_api_key row acc w)
    = [EvPost (chat_messages prompt (truncate_context row));
       EvPrint line; EvSleep 6].
Proof.
  rewrite process_step_run.
  pose proof (process_row_trace row w) as Ht. unfold trace_of in *.
  destruct (process_row category0 prompt api_key apigw_api_key row w)
    as [[[r|e] w1] t1]; simpl in Ht; subst t1; eexists; reflexivity.
Qed.

Lemma process_rows_delayed rows : forall acc w,
  every_post_delayed
    (trace_of (process_rows category0 prompt api_key apigw_api_key rows acc w))
  = true.
Proof.
  induction rows as [| row rest IH]; intros acc w.
  - reflexivity.
  - rewrite process_rows_cons. unfold bind, trace_of.
    destruct (process_step_trace row acc w) as [line Ht].
    unfold trace_of in Ht.
    destruct (process_step category0 prompt api_key apigw_api_key row acc w)
      as [[[acc' | e] w1] t1]; simpl in Ht; subst t1.
    + specialize (IH acc' w1). unfold trace_of in IH.
      destruct (process_rows category0 prompt api_key apigw_api_key rest acc' w1)
        as [[r w2] t2]. simpl in *. exact IH.
    + reflexivity.
Qed.

(** In the batch processor every request is followed by the sleep. *)
Lemma process_dataframe_delayed df w :
  every_post_delayed
    (trace_of (process_dataframe df category0 prompt api_key apigw_api_key w))
  = true.
Proof.
  rewrite process_dataframe_run.
  pose proof (process_rows_delayed (filter_category category0 df) ([], []) w)
    as H.
  unfold trace_of, map_run in *.
  destruct (process_rows category0 prompt api_key apigw_api_key
              (filter_category category0 df) ([], []) w) as [[r w1] t1].
  exact H.
Qed.

End Delay.

(* ------------------------------------------------------------------ *)
(** ** The policy branch of the retry driver *)

Section Policy.

Context {PF : Platform}.

Variable df : list Row.
Variable prompts : pystr -> option pystr.
Variables api_key apigw_api_key : pystr.

(** An iteration whose request is refused with code 40005 or 40006 (and
    whose error text does not contain 429): the row goes to [new_errors]
    with the error text, one line is logged, and the iteration ends in the
    world the request left, without the sleep of line 350. *)
Lemma retry_step_policy_error error_row st w row others p rj e w1 t1 :
  matching (e_docid error_row) (e_category error_row) df = row :: others ->
  prompts (category row) = Some p ->
  call_clova_api api_key apigw_api_key
    (chat_messages p (truncate_context row)) w
  = (Return (rj, Some e), w1, t1) ->
  e <> [] ->
  contains (lit "429") e = false ->
  contains (lit "40005") e || contains (lit "40006") e = true ->
  exists line,
    retry_step df prompts api_key apigw_api_key error_row st w
    = (Return
         (mk_pass (ps_result_df st)
            (ps_new_errors st
             ++ [mk_ErrorRow (e_docid error_row) (e_category error_row) e
                   (Some stage_retry) (strftime_now w1)])
            (ps_logs st
             ++ [mk_LogRow (e_docid error_row) (e_category error_row)
                   (lit "Error") stage_retry line (strftime_now w1)])),
       w1, t1 ++ [EvPrint line]).
Proof.
  intros Hm Hp Hcall Hne H429 Hpolicy.
  assert (Hset : error_set (Some e) = Some e).
  { unfold error_set. destruct (eqb e []) eqn:He; [| reflexivity].
    apply eqb_eq in He. contradiction. }
  unfold retry_step, retry_row. rewrite Hm. unfold prompt_for. rewrite Hp.
  unfold bind at 1. unfold try_except. unfold bind at 1. unfold lift at 1.
  unfold bind at 1. rewrite Hcall, Hset, H429, Hpolicy.
  eexists. cbn [bind print now ret app]. unfold bind, print, now, ret.
  cbn [app]. rewrite !app_nil_r. reflexivity.
Qed.

(** The row a policy error leaves in [new_errors] is read again by the
    next pass: a pass runs [retry_step] on every record of its error set. *)
Lemma retry_rows_cons error_row rest st :
  retry_rows df prompts api_key apigw_api_key (error_row :: rest) st
  = bind (retry_step df prompts api_key apigw_api_key error_row st)
         (retry_rows df prompts api_key apigw_api_key rest).
Proof. reflexivity. Qed.

End Policy.

(* ------------------------------------------------------------------ *)
(** ** The fetcher's return value *)

Section FetcherFacts.

Context {PF : Platform}.

Definition content_not_found : pyval :=
  PTuple [PStr (lit "Content not found"); PInt 0].

Lemma fetch_article_content_empty url w paragraphs w1 :
  requests_get url w = (GetParagraphs paragraphs, w1) ->
  join (lit " ") paragraphs = [] ->
  res (fetch_article_content url w)
  = Return (PTuple [PStr []; content_not_found]).
Proof.
  intros Hget Hempty. unfold res, fetch_article_content.
  rewrite Hget, Hempty. reflexivity.
Qed.

(** Non-empty content is returned with its length. *)
Lemma fetch_article_content_found url w paragraphs w1 :
  requests_get url w = (GetParagraphs paragraphs, w1) ->
  join (lit " ") paragraphs <> [] ->
  res (fetch_article_content url w)
  = Return (PTuple [PStr (join (lit " ") paragraphs);
                    PInt (len (join (lit " ") paragraphs))]).
Proof.
  intros Hget Hfull. unfold res, fetch_article_content. rewrite Hget.
  destruct (eqb (join (lit " ") paragraphs) []) eqn:He; [| reflexivity].
  apply eqb_eq in He. contradiction.
Qed.

Lemma fetch_article_content_error url w e w1 :
  requests_get url w = (GetRaises e, w1) ->
  res (fetch_article_content url w)
  = Return (PTuple [PStr (lit "Error fetching content: " ++ e); PInt 0]).
Proof.
  intros Hget. unfold res, fetch_article_content. rewrite Hget. reflexivity.
Qed.

End FetcherFacts.

(* ------------------------------------------------------------------ *)
(** ** Closed runs on the scripted platform *)

Module Ex.

Import Script.

Definition cat : pystr := lit "난이도".
Definition a_prompt : pystr := lit "classify".
Definition key1 : pystr := lit "k1".
Definition key2 : pystr := lit "k2".
Definition prompts : pystr -> option pystr := fun _ => Some a_prompt.

(** A page without any [editor-p] paragraph. *)
Definition bare_pages : Platform :=
  platform (fun _ _ => PostRaises []) no_pages.

Definition article_url : pystr := lit "https://www.hankookilbo.com/News/Read/A1".

(** A completion in the plain-text shape. *)
Definition plain_text : pystr := text_body.

(** The server refuses every request with the policy code 40005. *)
Definition policy_server : nat -> list message -> post_outcome :=
  fun _ _ =>
    failure 400
      (encode (JDict [(lit "status",
                       JDict [(lit "code", JStr (lit "40005"));
                              (lit "message", JStr (lit "policy"))])])).

Definition policy_platform : Platform := platform policy_server no_pages.

Definition article : Row := a_row 7 cat (lit "기사 본문").

Definition failed_once : list ErrorRow :=
  [mk_ErrorRow 7 cat (lit "API 호출 실패: 400") None (lit "0")].

Definition policy_run
  : result (option (ResultFrame * list ErrorRow * list LogRow))
    * world * list event :=
  @retry_failed_rows policy_platform [article] prompts key1 key2
    failed_once (Frame []) default_max_retries start.

Definition is_post (ev : event) : bool :=
  match ev with EvPost _ => true | _ => false end.

Definition is_print (ev : event) : bool :=
  match ev with EvPrint _ => true | _ => false end.

Definition without_prints (t : list event) : list event :=
  filter (fun ev => negb (is_print ev)) t.

Definition final_errors
    (r : result (option (ResultFrame * list ErrorRow * list LogRow)))
  : list ErrorRow :=
  match r with
  | Return (Some (_, errors_df, _)) => errors_df
  | _ => []
  end.

(** A row whose [len_context] understates a content of 6501 characters. *)
Definition long_content : pystr := repeat 97%N (Z.to_nat 6501).

Definition understated : Row :=
  mk_Row 1 cat (lit "t") (lit "l") long_content 0 (lit "y").

Definition good_platform : Platform :=
  platform (fun _ _ => completion json_body) no_pages.

(** A server that fails on the article [bad] and answers every other
    request, whatever came before. *)
Definition picky_server : nat -> list message -> post_outcome :=
  fun _ ms =>
    if existsb (fun m => eqb (msg_content m) (lit "bad")) ms
    then failure 500 (lit "boom")
    else completion json_body.

Definition picky_platform : Platform := platform picky_server no_pages.

Definition batch : list Row :=
  [a_row 1 cat (lit "one"); a_row 2 cat (lit "bad"); a_row 3 cat (lit "three")].

(** A JSON number of 5000 digits. *)
Definition long_number : pystr := repeat 49%N (Z.to_nat 5000).

(** An article of 7000 characters, recorded with its length, after a
    short one. *)
Definition long_article : Row := a_row 9 cat (repeat 97%N (Z.to_nat 7000)).

Definition long_batch : list Row := [a_row 1 cat (lit "one"); long_article].

(** A server that fails on its second request and answers the others. *)
Definition flaky_server : nat -> list message -> post_outcome :=
  fun n _ =>
    if (n =? 1)%nat then failure 500 (lit "boom") else completion json_body.

Definition flaky_platform : Platform := platform flaky_server no_pages.

(** What the batch processor leaves of [long_batch] on that server: the
    first article among the results, the long one among the errors. *)
Definition first_result : ResultRow :=
  mk_ResultRow 1 cat (lit "title") (lit "link") (lit "one") 3 (lit "label")
    (JStr (lit "p")) (JStr (lit "r")) (JStr (lit "s")).

Definition long_failed : list ErrorRow :=
  [mk_ErrorRow 9 cat (lit "API 호출 실패: 500, boom") None (lit "6")].

(** The request that carries the first 6500 characters of the long
    article. *)
Definition cut_request : event :=
  EvPost (chat_messages a_prompt (repeat 97%N (Z.to_nat 6500))).

(** A server with a quota of two requests, which fails on the article
    [bad]. *)
Definition quota_server : nat -> list message -> post_outcome :=
  fun n ms =>
    if (2 <=? n)%nat then failure 429 (lit "Too Many Requests")
    else if existsb (fun m => eqb (msg_content m) (lit "bad")) ms
         then failure 500 (lit "boom")
         else completion json_body.

Definition quota_platform : Platform := platform quota_server no_pages.

Definition bad_article : Row := a_row 2 cat (lit "bad").

(** What a run of the batch processor leaves: the docids of the results,
    and of each error record the docid, the text and the time. *)
Definition outcome (r : result (ResultFrame * list ErrorRow))
  : list Z * list (Z * pystr * pystr) :=
  match r with
  | Return (result_df, errors_df) =>
      (map r_docid (frame_rows result_df),
       map (fun e => (e_docid e, e_errors e, e_time e)) errors_df)
  | Raise _ => ([], [])
  end.

Definition result_docids
    (r : result (option (ResultFrame * list ErrorRow * list LogRow)))
  : list Z :=
  match r with
  | Return (Some (result_df, _, _)) => map r_docid (frame_rows result_df)
  | _ => []
  end.

Definition rrow (d : Z) : ResultRow :=
  mk_ResultRow d cat (lit "t") (lit "l") (lit "c") 1 (lit "y")
    (JStr (lit "p")) (JStr (lit "r")) (JStr (lit "s")).

End Ex.

(* ------------------------------------------------------------------ *)
(** ** The properties of the design note *)

(** The field a JSON document gives for a key, the empty string when the
    key is absent: [parsed_content.get(key, '')]. *)
Definition field (k : pystr) (kvs : list (pystr * json)) : json :=
  match Py.assoc k kvs with Some v => v | None => JStr [] end.

(** C1.  Row conservation.  Each iteration of the batch loop adds one
    entry to the results or one to the errors, each iteration of a retry
    pass inserts the row into the result frame or appends it to the new
    errors, and after [process_dataframe] followed by [retry_failed_rows]
    (which returns, whatever [max_retries] is) the rows of the result frame
    plus the unresolved errors are as many as the input rows of the
    category. *)
Theorem C1_rows_conserved {PF : Platform} (df : list Row)
    (category0 prompt : pystr) (prompts : pystr -> option pystr)
    (api_key apigw_api_key : pystr) (max_retries : Z) (w : World) :
  (forall row acc,
      total (process_step category0 prompt api_key apigw_api_key row acc)
            (fun acc' => one_entry acc acc'
                         /\ entries acc' = S (entries acc)))
  /\ (forall error_row st,
        total (retry_step df prompts api_key apigw_api_key error_row st)
              (fun st' => moved st st'
                          /\ pass_entries st' = S (pass_entries st)))
  /\ exists result_df errors_df w1 t1,
       process_dataframe df category0 prompt api_key apigw_api_key w
       = (Return (result_df, errors_df), w1, t1)
       /\ (nrows result_df + List.length errors_df)%nat
          = List.length (filter_category category0 df)
       /\ exists result_df' errors_df' logs_df w2 t2,
            retry_failed_rows df prompts api_key apigw_api_key
              errors_df result_df max_retries w1
            = (Return (Some (result_df', errors_df', logs_df)), w2, t2)
            /\ (nrows result_df' + List.length errors_df')%nat
               = List.length (filter_category category0 df).
Proof.
  split; [| split].
  - intros row acc. eapply post_weaken;
      [apply process_step_total | | intros e H; exact H].
    intros acc' H. split; [exact H | apply one_entry_count; exact H].
  - intros error_row st. eapply post_weaken;
      [apply retry_step_total | | intros e H; exact H].
    intros st' H. split; [exact H | apply moved_count; exact H].
  - destruct (total_run w (process_dataframe_total df category0 prompt
                             api_key apigw_api_key))
      as ([result_df errors_df] & w1 & t1 & Hrun & Hcount).
    exists result_df, errors_df, w1, t1.
    split; [exact Hrun |]. split; [exact Hcount |].
    destruct (retry_failed_rows_passes df prompts api_key apigw_api_key
                errors_df result_df max_retries w1)
      as (n & ls' & w2 & t2 & Hpasses & Hretry & _).
    exists (ls_result_df ls'), (ls_errors_df ls'), (ls_all_logs ls'), w2, t2.
    split; [exact Hretry |].
    apply passes_entries in Hpasses. unfold loop_entries in Hpasses.
    simpl in Hpasses. lia.
Qed.

(** C2.  On a page without paragraph text [fetch_article_content] does not
    return [("Content not found", 0)]: the conditional expression of line
    23 is the second component only, so the function returns the empty
    string paired with that tuple. *)
Theorem C2_empty_content_nested_tuple :
  Script.value (@fetch_article_content Ex.bare_pages Ex.article_url
                  Script.start)
  = Return (PTuple [PStr []; content_not_found])
  /\ Script.value (@fetch_article_content Ex.bare_pages Ex.article_url
                     Script.start)
     <> Return content_not_found.
Proof.
  split; [reflexivity | discriminate].
Qed.

(** C3, as stated, fails: the parser of the batch processor and of the
    retry driver raises [ValueError] on a plain-text body, although the
    line offsets of [process_single_row] would read its three fields. *)
Lemma C3_plain_text_rejected :
  @process_response_content Ex.bare_pages (JStr Ex.plain_text)
  = Raise (mk_exn ValueError
             (lit "Unexpected content format: Not a valid JSON"))
  /\ @parse_single_row_content Ex.bare_pages (JStr Ex.plain_text)
     = Return (JStr (lit "s"), JStr (lit "p"), JStr (lit "r")).
Proof. split; vm_compute; reflexivity. Qed.

(** C3, amended.  [process_response_content], the parser of the batch
    processor and of the retry driver, reads the three fields of a body
    that decodes to a JSON object and raises [ValueError] on a body that is
    not valid JSON.  Only [process_single_row] reads plain text: a body
    that does not both start with an opening and end with a closing brace
    is split into lines, and lines 0, 2 and 4, their prefixes removed and
    stripped, are the three fields (an [IndexError] when there are fewer
    than five lines); a body in braces is decoded as JSON. *)
Theorem C3_response_shapes {PF : Platform} (body : pystr) :
  (forall kvs,
      json_loads body = Decoded (JDict kvs) ->
      process_response_content (JStr body)
      = Return (field key_summary kvs, field key_pred kvs,
                field key_reason kvs))
  /\ (json_loads body = NotJSON ->
      process_response_content (JStr body)
      = Raise (mk_exn ValueError
                 (lit "Unexpected content format: Not a valid JSON")))
  /\ (startswith (lit "{") body && endswith (lit "}") body = false ->
      (forall l0 l1 l2 l3 l4 rest,
          split_on 10%N body = l0 :: l1 :: l2 :: l3 :: l4 :: rest ->
          parse_single_row_content (JStr body)
          = Return (JStr (strip (replace (lit "요약:") [] l0)),
                    JStr (strip (replace (lit "분류:") [] l2)),
                    JStr (strip (replace (lit "근거:") [] l4))))
      /\ ((List.length (split_on 10%N body) < 5)%nat ->
          parse_single_row_content (JStr body)
          = Raise (mk_exn IndexError (lit "list index out of range"))))
  /\ (startswith (lit "{") body && endswith (lit "}") body = true ->
      forall kvs,
        json_loads body = Decoded (JDict kvs) ->
        parse_single_row_content (JStr body)
        = Return (field key_summary kvs, field key_pred kvs,
                  field key_reason kvs)).
Proof.
  split; [| split; [| split]].
  - intros kvs H. unfold process_response_content. rewrite H. reflexivity.
  - intros H. unfold process_response_content. rewrite H. reflexivity.
  - intros H. split.
    + intros l0 l1 l2 l3 l4 rest Hl. unfold parse_single_row_content.
      rewrite H, Hl. reflexivity.
    + intros Hlen. unfold parse_single_row_content. rewrite H.
      destruct (split_on 10%N body) as [| l0 [| l1 [| l2 [| l3 [| l4 rest]]]]];
        simpl in Hlen; try reflexivity; lia.
  - intros H kvs Hk. unfold parse_single_row_content. rewrite H, Hk.
    reflexivity.
Qed.

(** C4.  A row refused with code 40005 is not dropped from the retry set:
    the 40005 branch appends it to [new_errors], the error set of the next
    pass, so with the default of three attempts the same request is sent
    in every pass and the row is still among the errors at the end. *)
Theorem C4_policy_error_is_retried :
  Script.posts (Script.events Ex.policy_run) = 3%nat
  /\ map e_docid (Ex.final_errors (Script.value Ex.policy_run)) = [7]
  /\ Forall (fun e => contains (lit "40005") (e_errors e) = true)
            (Ex.final_errors (Script.value Ex.policy_run)).
Proof.
  split; [vm_compute; reflexivity |].
  split; [vm_compute; reflexivity |].
  vm_compute. repeat constructor.
Qed.

(** C10, as stated, fails: a literal of 5000 digits is valid JSON, a
    number, but [json.loads] refuses to convert it and raises a plain
    [ValueError], which line 38 does not catch; so
    [process_response_content] raises [ValueError] on a string that is
    valid JSON, and no [AttributeError]. *)
Lemma C10_long_number_value_error :
  (exists z, JsonText.grammar Ex.long_number = Decoded (JInt z))
  /\ @process_response_content Ex.bare_pages (JStr Ex.long_number)
     = Raise (JsonText.digit_limit_error 4300 (Z.to_nat 5000))
  /\ exn_cls (JsonText.digit_limit_error 4300 (Z.to_nat 5000)) = ValueError
  /\ exn_str (JsonText.digit_limit_error 4300 (Z.to_nat 5000))
     <> lit "Unexpected content format: Not a valid JSON".
Proof.
  split; [eexists; vm_compute; reflexivity |].
  split; [vm_compute; reflexivity |].
  split; [reflexivity |].
  vm_compute. intros Hc. discriminate Hc.
Qed.

(** C10, amended.  On a string, [process_response_content] follows the
    three ways [json.loads] ends.  When it raises the decode error, the
    function raises [ValueError] with its fixed message; any other
    exception of [json.loads] leaves the function unchanged; so a
    [ValueError] is raised exactly when [json.loads] raises the decode
    error or a [ValueError] of its own.  When the string decodes to a
    value that is no object, it raises [AttributeError], and on an object
    it returns the three fields, the empty string standing for an absent
    one. *)
Theorem C10_parser_errors {PF : Platform} (s : pystr) :
  (json_loads s = NotJSON ->
   process_response_content (JStr s)
   = Raise (mk_exn ValueError
              (lit "Unexpected content format: Not a valid JSON")))
  /\ (forall e,
        json_loads s = DecodeRaises e ->
        process_response_content (JStr s) = Raise e)
  /\ ((exists msg,
         process_response_content (JStr s) = Raise (mk_exn ValueError msg))
      <-> (json_loads s = NotJSON
           \/ exists msg,
                json_loads s = DecodeRaises (mk_exn ValueError msg)))
  /\ (forall v,
        json_loads s = Decoded v -> Py.is_dict v = false ->
        process_response_content (JStr s)
        = Raise (mk_exn AttributeError
                   (lit "'" ++ Py.type_name v
                    ++ lit "' object has no attribute 'get'")))
  /\ (forall kvs,
        json_loads s = Decoded (JDict kvs) ->
        process_response_content (JStr s)
        = Return (field key_summary kvs, field key_pred kvs,
                  field key_reason kvs))
  /\ (forall kvs k, Py.assoc k kvs = None -> field k kvs = JStr []).
Proof.
  unfold process_response_content.
  split; [intros H; rewrite H; reflexivity |].
  split; [intros e H; rewrite H; reflexivity |].
  split; [split |].
  - intros [msg H]. destruct (json_loads s) as [v | | e].
    + destruct v; simpl in H; discriminate.
    + left. reflexivity.
    + right. exists msg. congruence.
  - intros [H | [msg H]]; rewrite H; eexists; reflexivity.
  - split; [| split].
    + intros v Hv Hd. rewrite Hv.
      destruct v; simpl in Hd; try discriminate; reflexivity.
    + intros kvs H. rewrite H. reflexivity.
    + intros kvs k H. unfold field. rewrite H. reflexivity.
Qed.

(** C5, as stated, fails: the slice is taken when the [len_context] column
    exceeds 6500, not when the content does, and a row whose column
    understates its content is sent whole (here 6501 characters). *)
Lemma C5_understated_length_sent_whole :
  len (content Ex.understated) = 6501
  /\ hd_error
       (Script.events
          (@process_dataframe Ex.good_platform [Ex.understated] Ex.cat
             Ex.a_prompt Ex.key1 Ex.key2 Script.start))
     = Some (EvPost (chat_messages Ex.a_prompt (content Ex.understated)))
  /\ ~ user_content_bounded
         (EvPost (chat_messages Ex.a_prompt (content Ex.understated))).
Proof.
  split; [vm_compute; reflexivity |].
  split; [vm_compute; reflexivity |].
  intros H. simpl in H. inversion H as [| ? ? _ H2]; subst.
  inversion H2 as [| ? ? Huser _]; subst.
  specialize (Huser eq_refl). vm_compute in Huser.
  apply Huser. reflexivity.
Qed.

(** C5, amended.  A row whose [len_context] column exceeds 6500 is sent
    as the first 6500 characters of its content; and when no row of the
    dataframe has a [len_context] below the length of its content, no
    request of the batch processor or of the retry driver carries a user
    message of more than 6500 characters. *)
Theorem C5_truncation {PF : Platform} (df : list Row)
    (category0 prompt : pystr) (prompts : pystr -> option pystr)
    (api_key apigw_api_key : pystr) (errors_df : list ErrorRow)
    (result_df : ResultFrame) (max_retries : Z) :
  Forall length_recorded df ->
  (forall row,
      len_context row > 6500 ->
      truncate_context row = slice_to 6500 (content row)
      /\ len (truncate_context row) <= 6500)
  /\ emits user_content_bounded
       (process_dataframe df category0 prompt api_key apigw_api_key)
  /\ emits user_content_bounded
       (retry_failed_rows df prompts api_key apigw_api_key
          errors_df result_df max_retries).
Proof.
  intros Hdf. split; [| split].
  - intros row Hlong. rewrite (truncate_context_long row Hlong).
    split; [reflexivity | apply len_slice_to; lia].
  - apply process_dataframe_emits. exact Hdf.
  - apply retry_failed_rows_emits. exact Hdf.
Qed.

(** C6.  The delay is skipped after a request refused with code 40005 or
    40006: the [continue] of line 277 leaves the iteration before the sleep
    of line 350, so the three requests of the run below follow one another
    with no sleep in between. *)
Theorem C6_no_delay_after_policy_error :
  Forall (fun ev => Ex.is_post ev = true)
         (Ex.without_prints (Script.events Ex.policy_run))
  /\ Script.posts (Script.events Ex.policy_run) = 3%nat
  /\ every_post_delayed (Script.events Ex.policy_run) = false.
Proof.
  split; [vm_compute; repeat constructor |].
  split; vm_compute; reflexivity.
Qed.

(** C8.  Inserting a recovered row into a result frame that is sorted by
    document id leaves it sorted: the row goes just after the last row with
    a smaller docid, or first when there is none. *)
Theorem C8_insertion_keeps_order (rows : list ResultRow) (rd : ResultRow) :
  sorted_by_docid rows ->
  let i := original_index (r_docid rd) rows in
  insert_result (Frame rows) (r_docid rd) rd
  = Return (Frame (insert_at i rd rows))
  /\ sorted_by_docid (insert_at i rd rows)
  /\ Forall (fun x => ~ r_docid x < r_docid rd) (skipn i rows)
  /\ (i = 0%nat
      \/ exists x, nth_error rows (pred i) = Some x
                   /\ r_docid x < r_docid rd).
Proof.
  intros Hs i. split; [reflexivity |].
  split; [apply insert_at_sorted; exact Hs |].
  apply original_index_spec.
Qed.

(** C9, as stated, fails: what the rows after a failing one give is not
    what they would give without it.  The failed request and the sleep
    that follows it have changed the world.  On a server with a quota of
    two requests the third article is a result without the failing second
    one and an error with it; and on a server that only looks at the
    request, the error record of a later article carries another time. *)
Lemma C9_later_rows_depend_on_failed_row :
  is_raise
    (Script.value
       (@process_row Ex.quota_platform Ex.cat Ex.a_prompt Ex.key1 Ex.key2
          Ex.bad_article (1%nat, 6)))
  = true
  /\ Ex.outcome
       (Script.value
          (@process_dataframe Ex.quota_platform
             [Script.a_row 1 Ex.cat (lit "one"); Ex.bad_article;
              Script.a_row 3 Ex.cat (lit "three")]
             Ex.cat Ex.a_prompt Ex.key1 Ex.key2 Script.start))
     = ([1],
        [(2, lit "API 호출 실패: 500, boom", lit "6");
         (3, lit "API 호출 실패: 429, Too Many Requests", lit "12")])
  /\ Ex.outcome
       (Script.value
          (@process_dataframe Ex.quota_platform
             [Script.a_row 1 Ex.cat (lit "one");
              Script.a_row 3 Ex.cat (lit "three")]
             Ex.cat Ex.a_prompt Ex.key1 Ex.key2 Script.start))
     = ([1; 3], [])
  /\ Ex.outcome
       (Script.value
          (@process_dataframe Ex.picky_platform
             [Ex.bad_article; Script.a_row 4 Ex.cat (lit "bad")]
             Ex.cat Ex.a_prompt Ex.key1 Ex.key2 Script.start))
     = ([],
        [(2, lit "API 호출 실패: 500, boom", lit "0");
         (4, lit "API 호출 실패: 500, boom", lit "6")])
  /\ Ex.outcome
       (Script.value
          (@process_dataframe Ex.picky_platform
             [Script.a_row 4 Ex.cat (lit "bad")]
             Ex.cat Ex.a_prompt Ex.key1 Ex.key2 Script.start))
     = ([], [(4, lit "API 호출 실패: 500, boom", lit "0")]).
Proof.
  split; [vm_compute; reflexivity |].
  split; [vm_compute; reflexivity |].
  split; [vm_compute; reflexivity |].
  split; vm_compute; reflexivity.
Qed.

(** C9, amended.  No failure of a row aborts the batch.
    [process_dataframe] always returns; an iteration whose [try] block
    raises appends one error record for its row and nothing else; the run
    on [pre ++ bad :: post], where [bad] fails, is the run on [pre], that
    record, and the run of [process_dataframe] on [post] from the world the
    failed row leaves; and when the server's answer depends on the request
    only, the results are those of the run without [bad] and the errors
    are the same records, up to their timestamps, with the record of [bad]
    in between. *)
Theorem C9_failures_isolated {PF : Platform}
    (category0 prompt api_key apigw_api_key : pystr) :
  (forall df w,
      exists out w' t,
        process_dataframe df category0 prompt api_key apigw_api_key w
        = (Return out, w', t))
  /\ (forall row acc w e w1 t1,
        process_row category0 prompt api_key apigw_api_key row w
        = (Raise e, w1, t1) ->
        exists t,
          process_step category0 prompt api_key apigw_api_key row acc w
          = (Return (fst acc,
                     snd acc
                     ++ [error_record category0 row e (strftime_now w1)]),
             time_sleep 6 w1, t))
  /\ (forall pre bad post w F1 E1 w1 t1 e w2 t2,
        eqb (category bad) category0 = true ->
        process_dataframe pre category0 prompt api_key apigw_api_key w
        = (Return (F1, E1), w1, t1) ->
        process_row category0 prompt api_key apigw_api_key bad w1
        = (Raise e, w2, t2) ->
        exists F2 E2 w3 t3 line,
          process_dataframe post category0 prompt api_key apigw_api_key
            (time_sleep 6 w2) = (Return (F2, E2), w3, t3)
          /\ process_dataframe (pre ++ bad :: post) category0 prompt
               api_key apigw_api_key w
             = (Return (DataFrame (frame_rows F1 ++ frame_rows F2),
                        E1 ++ error_record category0 bad e (strftime_now w2)
                           :: E2),
                w3, t1 ++ (t2 ++ [EvPrint line; EvSleep 6]) ++ t3))
  /\ (stateless_server ->
      forall pre bad post w,
        eqb (category bad) category0 = true ->
        is_raise
          (res (process_row category0 prompt api_key apigw_api_key bad w))
        = true ->
        exists F E w1 t1 F' E' w1' t1',
          process_dataframe (pre ++ bad :: post) category0 prompt api_key
            apigw_api_key w = (Return (F, E), w1, t1)
          /\ process_dataframe (pre ++ post) category0 prompt api_key
               apigw_api_key w = (Return (F', E'), w1', t1')
          /\ F = F'
          /\ exists Ea err Eb Eb',
               E = Ea ++ err :: Eb /\ E' = Ea ++ Eb'
               /\ map untimed Eb = map untimed Eb'
               /\ e_docid err = docid bad /\ e_category err = category0).
Proof.
  split; [| split; [| split]].
  - intros df w.
    destruct (total_run w (process_dataframe_total df category0 prompt
                             api_key apigw_api_key))
      as (out & w' & t & H & _).
    exists out, w', t. exact H.
  - intros row acc w e w1 t1 H. rewrite process_step_run, H.
    eexists. reflexivity.
  - intros pre bad post w F1 E1 w1 t1 e w2 t2 Hcat Hpre Hbad.
    eapply process_dataframe_failed_row; eassumption.
  - intros Hserver pre bad post w Hcat Hraise.
    apply process_dataframe_without_row; assumption.
Qed.

(** *** Instances on the scripted platform *)

Lemma picky_server_stateless : @stateless_server Ex.picky_platform.
Proof. intros url k g ms w w'. reflexivity. Qed.

Lemma long_batch_length_recorded : Forall length_recorded Ex.long_batch.
Proof.
  repeat constructor; unfold length_recorded; vm_compute;
    intros Hc; discriminate Hc.
Defined.

Lemma long_article_is_long : len_context Ex.long_article > 6500.
Proof. vm_compute. reflexivity. Defined.

(** C5 on an article of 7000 characters that fails in the batch and is
    recovered by the retry: both times the request carries its first 6500
    characters. *)
Lemma C5_truncation_witness :
  Forall length_recorded Ex.long_batch
  /\ len_context Ex.long_article > 6500
  /\ (truncate_context Ex.long_article
      = slice_to 6500 (content Ex.long_article)
      /\ len (truncate_context Ex.long_article) <= 6500)
  /\ emits user_content_bounded
       (@process_dataframe Ex.flaky_platform Ex.long_batch Ex.cat Ex.a_prompt
          Ex.key1 Ex.key2)
  /\ emits user_content_bounded
       (@retry_failed_rows Ex.flaky_platform Ex.long_batch Ex.prompts Ex.key1
          Ex.key2 Ex.long_failed (Frame [Ex.first_result]) 3)
  /\ @process_dataframe Ex.flaky_platform Ex.long_batch Ex.cat Ex.a_prompt
       Ex.key1 Ex.key2 Script.start
     = (Return (Frame [Ex.first_result], Ex.long_failed), (2%nat, 12),
        [EvPost (chat_messages Ex.a_prompt (lit "one"));
         EvPrint (lit "Success: docid 1 in 난이도 처리 완료");
         EvSleep 6;
         Ex.cut_request;
         EvPrint (lit "Error: docid 9 in 난이도 처리 실패 - API 호출 실패: 500, boom");
         EvSleep 6])
  /\ filter Ex.is_post
       (Script.events
          (@retry_failed_rows Ex.flaky_platform Ex.long_batch Ex.prompts
             Ex.key1 Ex.key2 Ex.long_failed (Frame [Ex.first_result]) 3
             (2%nat, 12)))
     = [Ex.cut_request]
  /\ Ex.result_docids
       (Script.value
          (@retry_failed_rows Ex.flaky_platform Ex.long_batch Ex.prompts
             Ex.key1 Ex.key2 Ex.long_failed (Frame [Ex.first_result]) 3
             (2%nat, 12)))
     = [1; 9].
Proof.
  split; [exact long_batch_length_recorded |].
  split; [exact long_article_is_long |].
  split;
    [exact (proj1 (@C5_truncation Ex.flaky_platform Ex.long_batch Ex.cat
                     Ex.a_prompt Ex.prompts Ex.key1 Ex.key2 Ex.long_failed
                     (Frame [Ex.first_result]) 3
                     long_batch_length_recorded)
              Ex.long_article long_article_is_long) |].
  split;
    [exact (proj1 (proj2 (@C5_truncation Ex.flaky_platform Ex.long_batch
                            Ex.cat Ex.a_prompt Ex.prompts Ex.key1 Ex.key2
                            Ex.long_failed (Frame [Ex.first_result]) 3
                            long_batch_length_recorded))) |].
  split;
    [exact (proj2 (proj2 (@C5_truncation Ex.flaky_platform Ex.long_batch
                            Ex.cat Ex.a_prompt Ex.prompts Ex.key1 Ex.key2
                            Ex.long_failed (Frame [Ex.first_result]) 3
                            long_batch_length_recorded))) |].
  split; [vm_compute; reflexivity |].
  split; vm_compute; reflexivity.
Defined.

Definition sorted_rows : list ResultRow := [Ex.rrow 1; Ex.rrow 3; Ex.rrow 5].

Lemma sorted_rows_sorted : sorted_by_docid sorted_rows.
Proof.
  repeat constructor; unfold docid_le; vm_compute; intros Hc; discriminate Hc.
Defined.

(** C8 on the documents 1, 3, 5 and the recovered document 4. *)
Lemma C8_insertion_witness :
  sorted_by_docid sorted_rows
  /\ insert_result (Frame sorted_rows) 4 (Ex.rrow 4)
     = Return (Frame [Ex.rrow 1; Ex.rrow 3; Ex.rrow 4; Ex.rrow 5])
  /\ sorted_by_docid
       (insert_at (original_index 4 sorted_rows) (Ex.rrow 4) sorted_rows).
Proof.
  split; [exact sorted_rows_sorted |].
  split; [reflexivity |].
  exact (proj1 (proj2 (@C8_insertion_keeps_order sorted_rows (Ex.rrow 4)
                         sorted_rows_sorted))).
Defined.

(** C9 on three rows, the second of which the server refuses. *)
Lemma C9_isolation_witness :
  @stateless_server Ex.picky_platform
  /\ is_raise
       (Script.value
          (@process_row Ex.picky_platform Ex.cat Ex.a_prompt Ex.key1 Ex.key2
             (Script.a_row 2 Ex.cat (lit "bad")) Script.start))
     = true
  /\ exists F E w1 t1 F' E' w1' t1',
       @process_dataframe Ex.picky_platform
         ([Script.a_row 1 Ex.cat (lit "one")]
          ++ Script.a_row 2 Ex.cat (lit "bad")
             :: [Script.a_row 3 Ex.cat (lit "three")])
         Ex.cat Ex.a_prompt Ex.key1 Ex.key2 Script.start
       = (Return (F, E), w1, t1)
       /\ @process_dataframe Ex.picky_platform
            ([Script.a_row 1 Ex.cat (lit "one")]
             ++ [Script.a_row 3 Ex.cat (lit "three")])
            Ex.cat Ex.a_prompt Ex.key1 Ex.key2 Script.start
          = (Return (F', E'), w1', t1')
       /\ F = F'
       /\ exists Ea err Eb Eb',
            E = Ea ++ err :: Eb /\ E' = Ea ++ Eb'
            /\ map untimed Eb = map untimed Eb'
            /\ e_docid err = 2 /\ e_category err = Ex.cat.
Proof.
  split; [exact picky_server_stateless |].
  split; [vm_compute; reflexivity |].
  apply (proj2 (proj2 (proj2
           (@C9_failures_isolated Ex.picky_platform Ex.cat Ex.a_prompt
              Ex.key1 Ex.key2)))
           picky_server_stateless
           [Script.a_row 1 Ex.cat (lit "one")]
           (Script.a_row 2 Ex.cat (lit "bad"))
           [Script.a_row 3 Ex.cat (lit "three")] Script.start).
  - vm_compute. reflexivity.
  - vm_compute. reflexivity.
Defined.

(** *** The fetcher on a page with text *)

Definition two_paragraphs : Platform :=
  Script.platform (fun _ _ => PostRaises [])
    (fun _ => GetParagraphs [lit "첫 문단"; lit "둘째 문단"]).

(** A page with two paragraphs: the joined text and its ten characters. *)
Lemma fetch_article_content_found_witness :
  join (lit " ") [lit "첫 문단"; lit "둘째 문단"] <> []
  /\ Script.value (@fetch_article_content two_paragraphs Ex.article_url
                     Script.start)
     = Return (PTuple [PStr (lit "첫 문단 둘째 문단"); PInt 10]).
Proof.
  split; [vm_compute; intros Hc; discriminate Hc |].
  exact (@fetch_article_content_found two_paragraphs Ex.article_url
           Script.start [lit "첫 문단"; lit "둘째 문단"] Script.start
           eq_refl
           (fun Hc : join (lit " ") [lit "첫 문단"; lit "둘째 문단"] = [] =>
              match Hc in (_ = l) return (match l with [] => False | _ => True end)
              with eq_refl => I end)).
Defined.

(* ------------------------------------------------------------------ *)
(** ** The remaining functions of the module *)

Definition tokenizer_url : pystr :=
  lit "https://clovastudio.apigw.ntruss.com/v1/api-tools/chat-tokenize/HCX-003".

(** How a call of [calculate_token_count] ends: it has no [try], so a
    failed request and every error of the decoding escape. *)
Inductive token_outcome : Type :=
| TokenReturn (v : option json)
| TokenRaise (e : exn)
| TokenRequestException (e : pystr).

Definition token_of_result (r : result (option json)) : token_outcome :=
  match r with
  | Return v => TokenReturn v
  | Raise e => TokenRaise e
  end.

(** [for message in v]: the items of a list, the keys of a dict, the
    characters of a string. *)
Definition py_iter (v : json) : result (list json) :=
  match v with
  | JList items => Return items
  | JDict kvs => Return (map (fun kv => JStr (fst kv)) kvs)
  | JStr s => Return (map (fun c => JStr [c]) s)
  | _ => Raise (mk_exn TypeError
                  (lit "'" ++ Py.type_name v ++ lit "' object is not iterable"))
  end.

Section Tokens.

Context {PF : Platform}.

(** Python's [+] when one of the two numbers is a float. *)
Variable float_add : json -> json -> json.

(** [total_token_count += count], the total being an int or a float. *)
Definition add_count (total count : json) : result json :=
  match total, count with
  | JInt a, JInt b => Return (JInt (a + b))
  | JInt a, JBool b => Return (JInt (a + (if b then 1 else 0)))
  | JInt _, JFloat _ => Return (float_add total count)
  | JFloat _, JInt _ => Return (float_add total count)
  | JFloat _, JFloat _ => Return (float_add total count)
  | JFloat _, JBool _ => Return (float_add total count)
  | _, _ =>
      Raise (mk_exn TypeError
               (lit "unsupported operand type(s) for +=: '"
                ++ Py.type_name total ++ lit "' and '"
                ++ Py.type_name count ++ lit "'"))
  end.

(** The loop of lines 453-454. *)
Fixpoint sum_counts (messages : list json) (total : json) : result json :=
  match messages with
  | [] => Return total
  | message :: rest =>
      count <~ Py.getitem (lit "count") message ;;
      total' <~ add_count total count ;;
      sum_counts rest total'
  end.

(** Lines 450-457, on the decoded body. *)
Definition count_tokens (response_data : json) : result (option json) :=
  status <~ Py.getitem (lit "status") response_data ;;
  code <~ Py.getitem (lit "code") status ;;
  if Py.str_eqb (lit "20000") code then
    res_ <~ Py.getitem (lit "result") response_data ;;
    messages <~ Py.getitem (lit "messages") res_ ;;
    items <~ py_iter messages ;;
    total <~ sum_counts items (JInt 0) ;;
    Return (Some total)
  else Return None.

(** [calculate_token_count(messages, api_key, apigw_api_key)]. *)
Definition calculate_token_count (messages : list message)
    (api_key apigw_api_key : pystr)
  : World -> token_outcome * World * list event :=
  fun w =>
    let '(o, w1) :=
      requests_post tokenizer_url api_key apigw_api_key messages w in
    (match o with
     | PostResponse response =>
         if status_code response =? 200 then
           match json_loads (text response) with
           | Decoded response_data =>
               token_of_result (count_tokens response_data)
           | NotJSON =>
               TokenRaise (mk_exn ValueError (json_error_str (text response)))
           | DecodeRaises e => TokenRaise e
           end
         else TokenReturn None
     | PostRaises e => TokenRequestException e
     end,
     w1, [EvPost messages]).

End Tokens.

Section SingleRow.

Context {PF : Platform}.

(** [repr] of a value that is not a string, as an f-string prints it. *)
Variable py_repr : json -> pystr.

(** [str(v)] inside an f-string. *)
Definition py_str (v : json) : pystr :=
  match v with JStr s => s | _ => py_repr v end.

(** Lines 387-416: the [try] block after the call. *)
Definition single_row_body (row : Row) (called : json * option pystr)
  : M unit :=
  let '(response_json, error) := called in
  match error_set error with
  | Some e => raise (mk_exn Exception_ e)
  | None =>
      print (lit "Full response for docid " ++ str_of_Z (docid row)
             ++ lit ": " ++ py_str response_json) ;;
      missing <- lift (result_or_message_missing response_json) ;;
      if (missing : bool) then raise (mk_exn Exception_ msg_missing_keys)
      else
        result_content <- lift (message_content response_json) ;;
        '(summary, pred, reason) <-
          lift (parse_single_row_content result_content) ;;
        print (lit "Summary: " ++ py_str summary) ;;
        print (lit "Prediction: " ++ py_str pred) ;;
        print (lit "Reason: " ++ py_str reason)
  end.

(** [process_single_row(row, prompt, api_key, apigw_api_key)]. *)
Definition process_single_row (row : Row)
    (prompt api_key apigw_api_key : pystr) : M unit :=
  try_except
    (let context := truncate_context row in
     let messages := chat_messages prompt context in
     called <- call_clova_api api_key apigw_api_key messages ;;
     single_row_body row called)
    (fun e =>
       print (lit "Error: docid " ++ str_of_Z (docid row)
              ++ lit " 처리 실패 - " ++ exn_str e)).

End SingleRow.

(* ------------------------------------------------------------------ *)
(** ** Subsequences *)

(** [subseq l1 l2]: [l1] is [l2] with some elements left out. *)
Inductive subseq {A : Type} : list A -> list A -> Prop :=
| subseq_nil : subseq [] []
| subseq_skip x l1 l2 : subseq l1 l2 -> subseq l1 (x :: l2)
| subseq_take x l1 l2 : subseq l1 l2 -> subseq (x :: l1) (x :: l2).

Lemma subseq_refl A (l : list A) : subseq l l.
Proof. induction l; [constructor | apply subseq_take; assumption]. Qed.

Lemma subseq_nil_l A (l : list A) : subseq [] l.
Proof. induction l; constructor; assumption. Qed.

Lemma subseq_trans A (l1 l2 l3 : list A) :
  subseq l1 l2 -> subseq l2 l3 -> subseq l1 l3.
Proof.
  intros H12 H23. revert l1 H12.
  induction H23 as [| x l2 l3 H23 IH | x l2 l3 H23 IH]; intros l1 H12.
  - exact H12.
  - constructor. apply IH. exact H12.
  - inversion H12; subst.
    + apply subseq_skip. apply IH. assumption.
    + apply subseq_take. apply IH. assumption.
Qed.

Lemma subseq_app A (l1 l2 l3 l4 : list A) :
  subseq l1 l2 -> subseq l3 l4 -> subseq (l1 ++ l3) (l2 ++ l4).
Proof.
  intros H12 H34. induction H12; simpl.
  - exact H34.
  - apply subseq_skip. assumption.
  - apply subseq_take. assumption.
Qed.

Lemma subseq_app_l A (l m : list A) : subseq l (l ++ m).
Proof.
  rewrite <- (app_nil_r l) at 1.
  apply subseq_app; [apply subseq_refl | apply subseq_nil_l].
Qed.

Lemma subseq_map A B (f : A -> B) (l1 l2 : list A) :
  subseq l1 l2 -> subseq (map f l1) (map f l2).
Proof.
  intros H. induction H; simpl.
  - constructor.
  - apply subseq_skip. assumption.
  - apply subseq_take. assumption.
Qed.

Lemma subseq_length A (l1 l2 : list A) :
  subseq l1 l2 -> (List.length l1 <= List.length l2)%nat.
Proof. intros H. induction H; simpl; lia. Qed.

Lemma subseq_Forall A (P : A -> Prop) (l1 l2 : list A) :
  subseq l1 l2 -> Forall P l2 -> Forall P l1.
Proof.
  intros H. induction H; intros HF.
  - constructor.
  - inversion HF; subst. auto.
  - inversion HF; subst. constructor; auto.
Qed.

Lemma subseq_StronglySorted A (R : A -> A -> Prop) (l1 l2 : list A) :
  subseq l1 l2 -> StronglySorted R l2 -> StronglySorted R l1.
Proof.
  intros H. induction H; intros HS.
  - constructor.
  - inversion HS; subst. auto.
  - inversion HS as [| ? ? Hrest Hall]; subst. constructor; [auto |].
    eapply subseq_Forall; eassumption.
Qed.

Lemma subseq_filter A (f : A -> bool) (l : list A) : subseq (filter f l) l.
Proof.
  induction l as [| x l IH]; simpl; [constructor |].
  destruct (f x); [apply subseq_take | apply subseq_skip]; exact IH.
Qed.

Lemma subseq_insert_at i rd rows : subseq rows (insert_at i rd rows).
Proof.
  unfold insert_at. rewrite <- (firstn_skipn i rows) at 1.
  apply subseq_app; [apply subseq_refl |].
  simpl. apply subseq_skip. apply subseq_refl.
Qed.

(* ------------------------------------------------------------------ *)
(** ** What a retry pass does, row by row *)

(** The key the retry driver looks a record up by. *)
Definition error_key (e : ErrorRow) : Z * pystr := (e_docid e, e_category e).

Section Retried.

Context {PF : Platform}.

Variable df : list Row.
Variable prompts : pystr -> option pystr.
Variables api_key apigw_api_key : pystr.

(** The two ways an iteration leaves the locals: the matching row of the
    dataframe is inserted into the result frame, or a record with the key
    of the retried one is appended to the new errors; either way the
    attempt is logged once. *)
Inductive retried (error_row : ErrorRow) (st st' : pass_state) : Prop :=
| Recovered row others rows pred reason summary line time :
    matching (e_docid error_row) (e_category error_row) df = row :: others ->
    ps_result_df st = Frame rows ->
    ps_result_df st'
    = Frame (insert_at (original_index (docid row) rows)
               (mk_ResultRow (docid row) (category row) (title row)
                  (link row) (content row) (len_context row) (label row)
                  pred reason summary)
               rows) ->
    ps_new_errors st' = ps_new_errors st ->
    ps_logs st'
    = ps_logs st
      ++ [mk_LogRow (docid row) (category row) (lit "Success") stage_retry
            line time] ->
    retried error_row st st'
| Kept errors line time time' :
    ps_result_df st' = ps_result_df st ->
    ps_new_errors st'
    = ps_new_errors st
      ++ [mk_ErrorRow (e_docid error_row) (e_category error_row) errors
            (Some stage_retry) time] ->
    ps_logs st'
    = ps_logs st
      ++ [mk_LogRow (e_docid error_row) (e_category error_row) (lit "Error")
            stage_retry line time'] ->
    retried error_row st st'.

Lemma retry_row_retried error_row st :
  post (retry_row df prompts api_key apigw_api_key error_row st)
       (fun out => retried error_row st (snd out)) anything.
Proof.
  unfold retry_row.
  destruct (matching (e_docid error_row) (e_category error_row) df)
    as [| row others] eqn:Hm.
  - apply post_bind with (R := anything); [apply post_any |]. intros _ _.
    apply post_bind with (R := anything); [apply post_any |]. intros t1 _.
    apply post_bind with (R := anything); [apply post_any |]. intros t2 _.
    apply post_ret. eapply Kept; reflexivity.
  - apply post_bind with (R := anything); [apply post_any |]. intros prompt _.
    apply post_bind with (R := anything); [apply post_any |].
    intros [response_json error] _.
    destruct (error_set error) as [e |].
    + destruct (contains (lit "429") e).
      * apply post_bind with (R := anything); [apply post_any |]. intros _ _.
        apply post_bind with (R := anything); [apply post_any |]. intros _ _.
        apply post_raise. exact I.
      * destruct (contains (lit "40005") e || contains (lit "40006") e).
        -- apply post_bind with (R := anything); [apply post_any |]. intros _ _.
           apply post_bind with (R := anything); [apply post_any |]. intros t1 _.
           apply post_bind with (R := anything); [apply post_any |]. intros t2 _.
           apply post_ret. eapply Kept; reflexivity.
        -- apply post_raise. exact I.
    + destruct (negb (Py.truthy response_json)); [apply post_raise; exact I |].
      apply post_bind with (R := anything); [apply post_any |].
      intros [|] _; [apply post_raise; exact I |].
      apply post_bind with (R := anything); [apply post_any |].
      intros result_content _.
      destruct (negb (Py.is_str result_content)); [apply post_raise; exact I |].
      apply post_bind with (R := anything); [apply post_any |].
      intros [[summary pred] reason] _.
      eapply post_bind with
        (R := fun result_df => exists rows,
                  ps_result_df st = Frame rows
                  /\ result_df
                     = Frame (insert_at (original_index (docid row) rows)
                                (mk_ResultRow (docid row) (category row)
                                   (title row) (link row) (content row)
                                   (len_context row) (label row)
                                   pred reason summary)
                                rows)).
      * apply post_lift. unfold insert_result.
        destruct (ps_result_df st) as [| rows]; [exact I |].
        eexists. split; reflexivity.
      * intros result_df (rows & H1 & H2).
        apply post_bind with (R := anything); [apply post_any |]. intros _ _.
        apply post_bind with (R := anything); [apply post_any |]. intros t _.
        apply post_ret. eapply Recovered with (rows := rows);
          [exact Hm | exact H1 | simpl; exact H2 | reflexivity
          | reflexivity].
Qed.

Lemma retry_step_retried error_row st :
  total (retry_step df prompts api_key apigw_api_key error_row st)
        (retried error_row st).
Proof.
  unfold total, retry_step.
  apply post_bind with (R := fun out => retried error_row st (snd out)).
  - apply post_try with (E' := anything); [apply retry_row_retried |].
    intros e _. unfold retry_handler.
    apply post_bind with (R := anything); [apply total_now |]. intros t1 _.
    apply post_bind with (R := anything); [apply total_print |]. intros _ _.
    apply post_bind with (R := anything); [apply total_now |]. intros t2 _.
    apply post_ret. eapply Kept; reflexivity.
  - intros [fl st'] H. simpl in H. destruct fl.
    + apply post_bind with (R := anything); [apply total_sleep |].
      intros _ _. apply post_ret. exact H.
    + apply post_ret. exact H.
Qed.

(** A pass: one iteration per record of the error set, in order. *)
Inductive retried_all : list ErrorRow -> pass_state -> pass_state -> Prop :=
| retried_none st : retried_all [] st st
| retried_next error_row rest st st' st'' :
    retried error_row st st' -> retried_all rest st' st'' ->
    retried_all (error_row :: rest) st st''.

Lemma retry_rows_retried errors_df : forall st,
  total (retry_rows df prompts api_key apigw_api_key errors_df st)
        (retried_all errors_df st).
Proof.
  induction errors_df as [| error_row rest IH]; intros st; simpl.
  - apply post_ret. constructor.
  - apply post_bind with (R := retried error_row st);
      [apply retry_step_retried |].
    intros st' H. eapply post_weaken; [apply IH | | auto].
    intros st'' H'. econstructor; eassumption.
Qed.

(** One turn of the [while] loop, on the loop state. *)
Definition pass_of (ls ls' : loop_state) : Prop :=
  exists st,
    retried_all (ls_errors_df ls) (mk_pass (ls_result_df ls) [] []) st
    /\ ls' = mk_loop (ls_retry_count ls + 1) (ps_new_errors st)
               (ps_result_df st) (ls_all_logs ls ++ ps_logs st).

Lemma retry_pass_of ls :
  total (retry_pass df prompts api_key apigw_api_key ls) (pass_of ls).
Proof.
  unfold total, retry_pass.
  apply post_bind with (R := anything); [apply total_print |]. intros _ _.
  eapply post_bind; [apply retry_rows_retried |].
  intros st H. apply post_ret. exists st. split; [exact H | reflexivity].
Qed.

(** A run of [n] passes splits into its first pass and the rest. *)
Lemma passes_inv n ls w ls' w' t :
  passes df prompts api_key apigw_api_key (S n) ls w = (Return ls', w', t) ->
  exists ls1 w1 t1 t2,
    retry_pass df prompts api_key apigw_api_key ls w = (Return ls1, w1, t1)
    /\ pass_of ls ls1
    /\ passes df prompts api_key apigw_api_key n ls1 w1 = (Return ls', w', t2)
    /\ t = t1 ++ t2.
Proof.
  intros H. simpl in H. unfold bind in H.
  destruct (total_run w (retry_pass_of ls)) as (ls1 & w1 & t1 & Hp & Hrel).
  rewrite Hp in H.
  destruct (passes df prompts api_key apigw_api_key n ls1 w1)
    as [[r w2] t2] eqn:Hn.
  inversion H; subst. exists ls1, w1, t1, t2. auto.
Qed.

(** An invariant of the passes holds of what [retry_failed_rows] returns. *)
Lemma retry_failed_rows_invariant (I : loop_state -> Prop)
    errors_df result_df max_retries w :
  I (mk_loop 0 errors_df result_df []) ->
  (forall ls ls', I ls -> pass_of ls ls' -> I ls') ->
  exists ls' w' t,
    retry_failed_rows df prompts api_key apigw_api_key
      errors_df result_df max_retries w
    = (Return (Some (ls_result_df ls', ls_errors_df ls', ls_all_logs ls')),
       w', t)
    /\ I ls'.
Proof.
  intros H0 Hstep.
  destruct (retry_failed_rows_passes df prompts api_key apigw_api_key
              errors_df result_df max_retries w)
    as (n & ls' & w' & t & Hpasses & Hretry & _).
  exists ls', w', t. split; [exact Hretry |].
  clear Hretry. revert Hpasses H0.
  generalize (mk_loop 0 errors_df result_df []). revert w ls' w' t.
  induction n as [| n IH]; intros w ls' w' t ls Hpasses Hls.
  - simpl in Hpasses. inversion Hpasses; subst. exact Hls.
  - apply passes_inv in Hpasses
      as (ls1 & w1 & t1 & t2 & _ & Hrel & Hrest & _).
    eapply IH; [exact Hrest |]. eapply Hstep; eassumption.
Qed.

End Retried.

(* ------------------------------------------------------------------ *)
(** ** The runs of a pass *)

Section PassRuns.

Context {PF : Platform}.

Variable df : list Row.
Variable prompts : pystr -> option pystr.
Variables api_key apigw_api_key : pystr.

(** A run of the inner loop over an error set: the iteration of lines
    214-350 on each record, in order, each from the locals and the world
    the one before left. *)
Inductive steps_run
  : list ErrorRow -> pass_state -> World -> pass_state -> World
    -> list event -> Prop :=
| steps_done st w : steps_run [] st w st w []
| steps_next error_row rest st w st1 w1 t1 st2 w2 t2 :
    retry_step df prompts api_key apigw_api_key error_row st w
    = (Return st1, w1, t1) ->
    retried df error_row st st1 ->
    steps_run rest st1 w1 st2 w2 t2 ->
    steps_run (error_row :: rest) st w st2 w2 (t1 ++ t2).

Lemma retry_rows_steps errors_df : forall st w,
  exists st' w' t,
    retry_rows df prompts api_key apigw_api_key errors_df st w
    = (Return st', w', t)
    /\ steps_run errors_df st w st' w' t.
Proof.
  induction errors_df as [| error_row rest IH]; intros st w.
  - exists st, w, []. split; [reflexivity | constructor].
  - destruct (total_run w (retry_step_retried df prompts api_key
                             apigw_api_key error_row st))
      as (st1 & w1 & t1 & Hstep & Hrel).
    destruct (IH st1 w1) as (st2 & w2 & t2 & Hrest & Hruns).
    exists st2, w2, (t1 ++ t2). split.
    + rewrite retry_rows_cons. unfold bind. rewrite Hstep, Hrest.
      reflexivity.
    + econstructor; eassumption.
Qed.

(** A run of the body of the [while] loop from a loop state: the counter
    goes up by one, the inner loop runs over the current error set from the
    current result frame and empty lists, and what it leaves in
    [new_errors] is the next error set. *)
Definition pass_run_of (ls : loop_state) (w : World) (ls' : loop_state)
    (w' : World) (t : list event) : Prop :=
  exists st t',
    steps_run (ls_errors_df ls) (mk_pass (ls_result_df ls) [] []) w st w' t'
    /\ ls' = mk_loop (ls_retry_count ls + 1) (ps_new_errors st)
               (ps_result_df st) (ls_all_logs ls ++ ps_logs st)
    /\ t = EvPrint (lit "Retrying failed rows, attempt "
                    ++ str_of_Z (ls_retry_count ls + 1)) :: t'.

Lemma retry_pass_steps ls w :
  exists ls' w' t,
    retry_pass df prompts api_key apigw_api_key ls w = (Return ls', w', t)
    /\ pass_run_of ls w ls' w' t
    /\ pass_of df ls ls'.
Proof.
  destruct (retry_rows_steps (ls_errors_df ls)
              (mk_pass (ls_result_df ls) [] []) w)
    as (st & w' & t' & Hrows & Hsteps).
  do 3 eexists. split; [| split].
  - unfold retry_pass, bind, print, ret. rewrite Hrows.
    cbn [app]. rewrite app_nil_r. reflexivity.
  - exists st, t'. split; [exact Hsteps |]. split; reflexivity.
  - exists st. split; [| reflexivity].
    clear Hrows. induction Hsteps; econstructor; eassumption.
Qed.

(** [k] passes and one more are [k + 1] passes. *)
Lemma passes_snoc : forall k ls w lsk wk tk ls' w' t',
  passes df prompts api_key apigw_api_key k ls w = (Return lsk, wk, tk) ->
  retry_pass df prompts api_key apigw_api_key lsk wk = (Return ls', w', t') ->
  passes df prompts api_key apigw_api_key (S k) ls w
  = (Return ls', w', tk ++ t').
Proof.
  induction k as [| k IH]; intros ls w lsk wk tk ls' w' t' Hk Hpass.
  - simpl in Hk. inversion Hk; subst. simpl. unfold bind, ret.
    rewrite Hpass. rewrite app_nil_r. reflexivity.
  - apply passes_inv in Hk as (ls1 & w1 & t1 & t2 & Hfirst & _ & Hrest & ->).
    rewrite (@passes_succ PF df prompts api_key apigw_api_key (S k) ls w
               ls1 w1 t1 ls' w' (t2 ++ t') Hfirst
               (IH ls1 w1 lsk wk t2 ls' w' t' Hrest Hpass)).
    rewrite app_assoc. reflexivity.
Qed.

End PassRuns.

(** C7.  [retry_failed_rows] returns, and it is a number [n] of passes:
    [n] is at most [max_retries] (at most 3 with the default), and the loop
    stops with an empty error set or after exactly [max_retries] passes.
    Each of the passes starts from a non-empty error set, the one the pass
    before left (the given one for the first), and runs the iteration of
    the inner loop on each of its records in order, every record being
    inserted into the result frame or appended to the new errors; what it
    leaves in [new_errors] is the error set of the next pass. *)
Theorem C7_bounded_passes {PF : Platform} (df : list Row)
    (prompts : pystr -> option pystr) (api_key apigw_api_key : pystr)
    (errors_df : list ErrorRow) (result_df : ResultFrame)
    (max_retries : Z) (w : World) :
  let ls0 := mk_loop 0 errors_df result_df [] in
  exists n ls' w' t,
    passes df prompts api_key apigw_api_key n ls0 w = (Return ls', w', t)
    /\ retry_failed_rows df prompts api_key apigw_api_key
         errors_df result_df max_retries w
       = (Return (Some (ls_result_df ls', ls_errors_df ls', ls_all_logs ls')),
          w', t)
    /\ ls_retry_count ls' = Z.of_nat n
    /\ Z.of_nat n <= Z.max 0 max_retries
    /\ (max_retries = default_max_retries -> (n <= 3)%nat)
    /\ (ls_errors_df ls' = [] \/ Z.of_nat n = Z.max 0 max_retries)
    /\ (forall k, (k < n)%nat ->
          exists lsk wk tk lsk' wk' tk',
            passes df prompts api_key apigw_api_key k ls0 w
            = (Return lsk, wk, tk)
            /\ ls_errors_df lsk <> []
            /\ retry_pass df prompts api_key apigw_api_key lsk wk
               = (Return lsk', wk', tk')
            /\ pass_run_of df prompts api_key apigw_api_key
                 lsk wk lsk' wk' tk'
            /\ pass_of df lsk lsk'
            /\ passes df prompts api_key apigw_api_key (S k) ls0 w
               = (Return lsk', wk', tk ++ tk')).
Proof.
  intros ls0.
  destruct (retry_failed_rows_passes df prompts api_key apigw_api_key
              errors_df result_df max_retries w)
    as (n & ls' & w' & t & Hpasses & Hretry & Hle & Hend & Hbefore).
  exists n, ls', w', t. fold ls0 in Hpasses, Hbefore.
  split; [exact Hpasses |]. split; [exact Hretry |].
  split; [rewrite (passes_count _ _ _ _ _ _ _ Hpasses); reflexivity |].
  split; [lia |].
  split; [intros ->; unfold default_max_retries in Hle; lia |].
  split; [destruct Hend as [He | He]; [left; exact He | right; lia] |].
  intros k Hk. destruct (Hbefore k Hk) as (lsk & wk & tk & Hpk & Hne).
  destruct (retry_pass_steps df prompts api_key apigw_api_key lsk wk)
    as (lsk' & wk' & tk' & Hpass & Hruns & Hrel).
  exists lsk, wk, tk, lsk', wk', tk'.
  split; [exact Hpk |]. split; [exact Hne |]. split; [exact Hpass |].
  split; [exact Hruns |]. split; [exact Hrel |].
  eapply passes_snoc; eassumption.
Qed.

(* ------------------------------------------------------------------ *)
(** ** Invariants of the retry driver *)

Definition tagged_retry (e : ErrorRow) : Prop :=
  e_error_stage e = Some stage_retry.

Section RetryInvariants.

Context {PF : Platform}.

Variable df : list Row.
Variable prompts : pystr -> option pystr.
Variables api_key apigw_api_key : pystr.

Lemma retried_all_invariant (J : pass_state -> Prop) errs st st' :
  retried_all df errs st st' ->
  (forall er s s', J s -> retried df er s s' -> J s') ->
  J st -> J st'.
Proof.
  intros Hall Hstep. induction Hall as [st | er rest st st1 st2 H1 _ IH].
  - auto.
  - intros HJ. apply IH. eapply Hstep; eassumption.
Qed.

Lemma retried_all_errors errs st st' :
  retried_all df errs st st' ->
  exists added,
    ps_new_errors st' = ps_new_errors st ++ added
    /\ subseq (map error_key added) (map error_key errs)
    /\ Forall tagged_retry added.
Proof.
  intros Hall. induction Hall as [st | er rest st st1 st2 H1 _ IH].
  - exists []. rewrite app_nil_r. repeat split; constructor.
  - destruct IH as (added & Hadd & Hsub & Htag).
    destruct H1 as [row others rows pred reason summary line time
                      _ _ _ Herr _
                   | errors line time time' _ Herr _].
    + exists added. rewrite Hadd, Herr. split; [reflexivity |].
      split; [simpl; apply subseq_skip; exact Hsub | exact Htag].
    + exists (mk_ErrorRow (e_docid er) (e_category er) errors
                (Some stage_retry) time :: added).
      rewrite Hadd, Herr, <- app_assoc. split; [reflexivity |].
      split; [simpl; apply subseq_take; exact Hsub |].
      constructor; [reflexivity | exact Htag].
Qed.

Lemma retried_all_logs errs st st' :
  retried_all df errs st st' ->
  exists added,
    ps_logs st' = ps_logs st ++ added
    /\ List.length added = List.length errs.
Proof.
  intros Hall. induction Hall as [st | er rest st st1 st2 H1 _ IH].
  - exists []. rewrite app_nil_r. split; reflexivity.
  - destruct IH as (added & Hadd & Hlen).
    destruct H1 as [row others rows pred reason summary line time
                      _ _ _ _ Hlog
                   | errors line time time' _ _ Hlog];
      rewrite Hadd, Hlog, <- app_assoc; eexists; (split; [reflexivity |]);
      simpl; rewrite Hlen; reflexivity.
Qed.

Lemma retried_all_no_columns errs st st' :
  retried_all df errs st st' ->
  ps_result_df st = NoColumns ->
  ps_result_df st' = NoColumns
  /\ map error_key (ps_new_errors st')
     = map error_key (ps_new_errors st) ++ map error_key errs.
Proof.
  intros Hall. induction Hall as [st | er rest st st1 st2 H1 _ IH];
    intros Hno.
  - rewrite app_nil_r. auto.
  - destruct H1 as [row others rows pred reason summary line time
                      _ Hframe _ _ _
                   | errors line time time' Hres Herr _].
    + rewrite Hno in Hframe. discriminate.
    + destruct IH as [IH1 IH2]; [rewrite Hres; exact Hno |].
      split; [exact IH1 |]. rewrite IH2, Herr, map_app, <- app_assoc.
      reflexivity.
Qed.

Lemma retried_sorted er st st' :
  sorted_by_docid (frame_rows (ps_result_df st)) ->
  retried df er st st' ->
  sorted_by_docid (frame_rows (ps_result_df st')).
Proof.
  intros Hs [row others rows pred reason summary line time _ Hframe Hres _ _
            | errors line time time' Hres _ _].
  - rewrite Hres. rewrite Hframe in Hs. simpl in *.
    exact (insert_at_sorted
             (mk_ResultRow (docid row) (category row) (title row) (link row)
                (content row) (len_context row) (label row)
                pred reason summary) Hs).
  - rewrite Hres. exact Hs.
Qed.

Lemma retried_subseq er st st' :
  retried df er st st' ->
  subseq (frame_rows (ps_result_df st)) (frame_rows (ps_result_df st')).
Proof.
  intros [row others rows pred reason summary line time _ Hframe Hres _ _
         | errors line time time' Hres _ _].
  - rewrite Hres, Hframe. simpl. apply subseq_insert_at.
  - rewrite Hres. apply subseq_refl.
Qed.

(** The passes of a run, counted. *)
Lemma retry_failed_rows_counted (I : loop_state -> Prop)
    errors_df result_df max_retries w :
  I (mk_loop 0 errors_df result_df []) ->
  (forall ls ls', I ls -> pass_of df ls ls' -> I ls') ->
  exists n ls' w' t,
    retry_failed_rows df prompts api_key apigw_api_key
      errors_df result_df max_retries w
    = (Return (Some (ls_result_df ls', ls_errors_df ls', ls_all_logs ls')),
       w', t)
    /\ passes df prompts api_key apigw_api_key n
         (mk_loop 0 errors_df result_df []) w = (Return ls', w', t)
    /\ (n <= Z.to_nat max_retries)%nat
    /\ I ls'.
Proof.
  intros H0 Hstep.
  destruct (retry_failed_rows_passes df prompts api_key apigw_api_key
              errors_df result_df max_retries w)
    as (n & ls' & w' & t & Hpasses & Hretry & Hle & _).
  exists n, ls', w', t. split; [exact Hretry |].
  split; [exact Hpasses |]. split; [exact Hle |].
  clear Hretry Hle. revert Hpasses H0.
  generalize (mk_loop 0 errors_df result_df []). revert w ls' w' t.
  induction n as [| n IH]; intros w ls' w' t ls Hpasses Hls.
  - simpl in Hpasses. inversion Hpasses; subst. exact Hls.
  - apply passes_inv in Hpasses
      as (ls1 & w1 & t1 & t2 & _ & Hrel & Hrest & _).
    eapply IH; [exact Hrest |]. eapply Hstep; eassumption.
Qed.

Lemma retry_sorted_run errors_df result_df max_retries w :
  sorted_by_docid (frame_rows result_df) ->
  exists result_df' errors_df' logs_df w' t,
    retry_failed_rows df prompts api_key apigw_api_key
      errors_df result_df max_retries w
    = (Return (Some (result_df', errors_df', logs_df)), w', t)
    /\ sorted_by_docid (frame_rows result_df').
Proof.
  intros Hs.
  destruct (@retry_failed_rows_invariant PF df prompts api_key apigw_api_key
              (fun ls => sorted_by_docid (frame_rows (ls_result_df ls)))
              errors_df result_df max_retries w Hs)
    as (ls' & w' & t & Hrun & HI).
  - intros ls ls' Hls (st & Hall & ->). simpl.
    apply (retried_all_invariant
             (fun s => sorted_by_docid (frame_rows (ps_result_df s))) Hall).
    + intros er s s' Hsorted Hr. eapply retried_sorted; eassumption.
    + exact Hls.
  - exists (ls_result_df ls'), (ls_errors_df ls'), (ls_all_logs ls'), w', t.
    split; [exact Hrun | exact HI].
Qed.

(** X3.  [retry_failed_rows] keeps a result frame that is sorted by
    document id sorted, however many rows it recovers. *)
Theorem retry_failed_rows_keeps_sorted errors_df result_df max_retries w :
  sorted_by_docid (frame_rows result_df) ->
  exists result_df' errors_df' logs_df w' t,
    retry_failed_rows df prompts api_key apigw_api_key
      errors_df result_df max_retries w
    = (Return (Some (result_df', errors_df', logs_df)), w', t)
    /\ sorted_by_docid (frame_rows result_df').
Proof. apply retry_sorted_run. Qed.

(** X4.  [retry_failed_rows] never removes or reorders a result: the rows
    of the frame it is given are a subsequence of the rows it returns, and
    the rows it adds are as many as the errors it resolves. *)
Theorem retry_failed_rows_keeps_results errors_df result_df max_retries w :
  exists result_df' errors_df' logs_df w' t,
    retry_failed_rows df prompts api_key apigw_api_key
      errors_df result_df max_retries w
    = (Return (Some (result_df', errors_df', logs_df)), w', t)
    /\ subseq (frame_rows result_df) (frame_rows result_df')
    /\ (nrows result_df' + List.length errors_df')%nat
       = (nrows result_df + List.length errors_df)%nat.
Proof.
  destruct (@retry_failed_rows_counted
              (fun ls => subseq (frame_rows result_df)
                                (frame_rows (ls_result_df ls)))
              errors_df result_df max_retries w)
    as (n & ls' & w' & t & Hrun & Hpasses & _ & HI).
  - simpl. apply subseq_refl.
  - intros ls ls' Hls (st & Hall & ->). simpl.
    apply (retried_all_invariant
             (fun s => subseq (frame_rows result_df)
                              (frame_rows (ps_result_df s))) Hall).
    + intros er s s' Hsub Hr. eapply subseq_trans; [exact Hsub |].
      eapply retried_subseq; eassumption.
    + exact Hls.
  - exists (ls_result_df ls'), (ls_errors_df ls'), (ls_all_logs ls'), w', t.
    split; [exact Hrun |]. split; [exact HI |].
    apply passes_entries in Hpasses. exact Hpasses.
Qed.

(** X5.  On the frame [pd.DataFrame([])], which has no column (what
    [process_dataframe] returns when no row succeeded), the retry driver
    recovers nothing: the lookup of the [docid] column raises for every
    row, so the frame comes back as it was and the unresolved errors are
    the records of the same documents, in the same order. *)
Theorem retry_failed_rows_no_columns errors_df max_retries w :
  exists errors_df' logs_df w' t,
    retry_failed_rows df prompts api_key apigw_api_key
      errors_df NoColumns max_retries w
    = (Return (Some (NoColumns, errors_df', logs_df)), w', t)
    /\ map error_key errors_df' = map error_key errors_df.
Proof.
  destruct (@retry_failed_rows_invariant PF df prompts api_key apigw_api_key
              (fun ls => ls_result_df ls = NoColumns
                         /\ map error_key (ls_errors_df ls)
                            = map error_key errors_df)
              errors_df NoColumns max_retries w)
    as (ls' & w' & t & Hrun & Hno & Hkeys).
  - split; reflexivity.
  - intros ls ls' [Hno Hkeys] (st & Hall & ->). simpl.
    destruct (retried_all_no_columns Hall) as [H1 H2]; [exact Hno |].
    split; [exact H1 |]. rewrite H2. simpl. exact Hkeys.
  - exists (ls_errors_df ls'), (ls_all_logs ls'), w', t.
    rewrite Hno in Hrun. split; [exact Hrun | exact Hkeys].
Qed.

(** X6.  The retry driver invents no error: the documents of the
    unresolved errors are, in the same order, among those of the errors it
    was given, and the records are the given ones untouched (when no pass
    ran) or all carry the stage [Retry]. *)
Theorem retry_failed_rows_errors_from_input
    errors_df result_df max_retries w :
  exists result_df' errors_df' logs_df w' t,
    retry_failed_rows df prompts api_key apigw_api_key
      errors_df result_df max_retries w
    = (Return (Some (result_df', errors_df', logs_df)), w', t)
    /\ subseq (map error_key errors_df') (map error_key errors_df)
    /\ (errors_df' = errors_df \/ Forall tagged_retry errors_df').
Proof.
  destruct (@retry_failed_rows_invariant PF df prompts api_key apigw_api_key
              (fun ls => subseq (map error_key (ls_errors_df ls))
                                (map error_key errors_df)
                         /\ (ls_errors_df ls = errors_df
                             \/ Forall tagged_retry (ls_errors_df ls)))
              errors_df result_df max_retries w)
    as (ls' & w' & t & Hrun & Hsub & Htag).
  - split; [apply subseq_refl | left; reflexivity].
  - intros ls ls' [Hsub _] (st & Hall & ->). simpl.
    destruct (retried_all_errors Hall) as (added & Hadd & Hsub' & Htag).
    simpl in Hadd. rewrite Hadd. split; [| right; exact Htag].
    eapply subseq_trans; eassumption.
  - exists (ls_result_df ls'), (ls_errors_df ls'), (ls_all_logs ls'), w', t.
    split; [exact Hrun |]. split; assumption.
Qed.

End RetryInvariants.

(* ------------------------------------------------------------------ *)
(** ** Counting the requests of a run *)

Definition not_post (ev : event) : Prop :=
  match ev with EvPost _ => False | _ => True end.

Lemma posts_app t1 t2 :
  Script.posts (t1 ++ t2) = (Script.posts t1 + Script.posts t2)%nat.
Proof. unfold Script.posts. rewrite filter_app, length_app. reflexivity. Qed.

Lemma posts_not_post t : Forall not_post t -> Script.posts t = 0%nat.
Proof.
  intros H. induction H as [| ev t Hev _ IH]; [reflexivity |].
  destruct ev; simpl in Hev; try contradiction; exact IH.
Qed.

Section Cost.

Context {PF : Platform}.

(** [m] sends at most [n] requests. *)
Definition at_most {A} (n : nat) (m : M A) : Prop :=
  forall w, (Script.posts (trace_of (m w)) <= n)%nat.

Lemma at_most_quiet A (m : M A) : emits not_post m -> at_most 0 m.
Proof. intros H w. rewrite (posts_not_post (H w)). lia. Qed.

Lemma at_most_weaken A (m : M A) a b :
  (a <= b)%nat -> at_most a m -> at_most b m.
Proof. intros Hle H w. specialize (H w). lia. Qed.

Lemma at_most_bind A B (m : M A) (k : A -> M B) a b :
  at_most a m -> (forall x, at_most b (k x)) -> at_most (a + b) (bind m k).
Proof.
  intros Hm Hk w. unfold bind, trace_of. specialize (Hm w).
  unfold trace_of in Hm.
  destruct (m w) as [[[x | e] w1] t1]; cbn [snd] in *; [| lia].
  specialize (Hk x w1). unfold trace_of in Hk.
  destruct (k x w1) as [[r w2] t2]. cbn [snd] in *. rewrite posts_app. lia.
Qed.

Lemma at_most_try A (m : M A) h a b :
  at_most a m -> (forall e, at_most b (h e)) ->
  at_most (a + b) (try_except m h).
Proof.
  intros Hm Hh w. unfold try_except, trace_of. specialize (Hm w).
  unfold trace_of in Hm.
  destruct (m w) as [[[x | e] w1] t1]; cbn [snd] in *; [lia |].
  specialize (Hh e w1). unfold trace_of in Hh.
  destruct (h e w1) as [[r w2] t2]. cbn [snd] in *. rewrite posts_app. lia.
Qed.

Lemma at_most_call k g ms : at_most 1 (call_clova_api k g ms).
Proof.
  intros w. unfold call_clova_api, trace_of.
  destruct (requests_post completion_url k g ms w).
  unfold Script.posts. simpl. lia.
Qed.

Variable df : list Row.
Variable prompts : pystr -> option pystr.
Variables api_key apigw_api_key : pystr.

Lemma retry_row_at_most error_row st :
  at_most 1 (retry_row df prompts api_key apigw_api_key error_row st).
Proof.
  unfold retry_row.
  destruct (matching (e_docid error_row) (e_category error_row) df)
    as [| row others].
  - apply at_most_weaken with (a := 0%nat); [lia |].
    apply at_most_quiet. emits_quiet.
  - apply at_most_bind with (a := 0%nat) (b := 1%nat).
    + apply at_most_quiet. apply emits_lift.
    + intros prompt. apply at_most_bind with (a := 1%nat) (b := 0%nat).
      * apply at_most_call.
      * intros [response_json error]. apply at_most_quiet. emits_quiet.
Qed.

Lemma retry_step_at_most error_row st :
  at_most 1 (retry_step df prompts api_key apigw_api_key error_row st).
Proof.
  unfold retry_step. apply at_most_bind with (a := 1%nat) (b := 0%nat).
  - apply at_most_try with (a := 1%nat) (b := 0%nat);
      [apply retry_row_at_most |].
    intros e. apply at_most_quiet. unfold retry_handler. emits_quiet.
  - intros [fl st']. apply at_most_quiet. emits_quiet.
Qed.

Lemma retry_rows_at_most errors_df : forall st,
  at_most (List.length errors_df)
          (retry_rows df prompts api_key apigw_api_key errors_df st).
Proof.
  induction errors_df as [| error_row rest IH]; intros st.
  - apply at_most_quiet. apply emits_ret.
  - change (List.length (error_row :: rest))
      with (1 + List.length rest)%nat.
    rewrite retry_rows_cons. apply at_most_bind;
      [apply retry_step_at_most | intros st'; apply IH].
Qed.

Lemma retry_pass_at_most ls :
  at_most (List.length (ls_errors_df ls))
          (retry_pass df prompts api_key apigw_api_key ls).
Proof.
  unfold retry_pass.
  apply at_most_bind with (a := 0%nat) (b := List.length (ls_errors_df ls)%nat).
  - apply at_most_quiet. apply emits_print. exact I.
  - intros _.
    rewrite <- (Nat.add_0_r (List.length (ls_errors_df ls))).
    apply at_most_bind; [apply retry_rows_at_most |].
    intros st. apply at_most_quiet. apply emits_ret.
Qed.

Lemma pass_of_sizes ls ls' :
  pass_of df ls ls' ->
  (List.length (ls_errors_df ls') <= List.length (ls_errors_df ls))%nat
  /\ List.length (ls_all_logs ls')
     = (List.length (ls_all_logs ls) + List.length (ls_errors_df ls))%nat.
Proof.
  intros (st & Hall & ->). simpl.
  destruct (retried_all_errors Hall) as (added & Hadd & Hsub & _).
  destruct (retried_all_logs Hall) as (logs & Hlogs & Hlen).
  simpl in Hadd, Hlogs. rewrite Hadd, Hlogs, length_app, Hlen.
  apply subseq_length in Hsub. rewrite !length_map in Hsub. lia.
Qed.

Lemma passes_cost : forall n ls w ls' w' t,
  passes df prompts api_key apigw_api_key n ls w = (Return ls', w', t) ->
  (Script.posts t <= n * List.length (ls_errors_df ls))%nat
  /\ (List.length (ls_all_logs ls')
      <= List.length (ls_all_logs ls) + n * List.length (ls_errors_df ls))%nat
  /\ (List.length (ls_errors_df ls') <= List.length (ls_errors_df ls))%nat.
Proof.
  induction n as [| n IH]; intros ls w ls' w' t H.
  - simpl in H. inversion H; subst. unfold Script.posts. simpl. lia.
  - apply passes_inv in H as (ls1 & w1 & t1 & t2 & Hp & Hrel & Hrest & ->).
    destruct (IH _ _ _ _ _ Hrest) as (H1 & H2 & H3).
    destruct (pass_of_sizes Hrel) as [Hsize Hlogs].
    pose proof (retry_pass_at_most ls w) as Hposts.
    rewrite Hp in Hposts. unfold trace_of in Hposts. simpl in Hposts.
    rewrite posts_app. nia.
Qed.

(** X7.  The cost of a retry is bounded: [retry_failed_rows] sends at most
    [max_retries] requests per error record it is given, logs at most as
    many lines, and returns no more errors than it was given. *)
Theorem retry_failed_rows_cost errors_df result_df max_retries w :
  exists result_df' errors_df' logs_df w' t,
    retry_failed_rows df prompts api_key apigw_api_key
      errors_df result_df max_retries w
    = (Return (Some (result_df', errors_df', logs_df)), w', t)
    /\ (Script.posts t <= Z.to_nat max_retries * List.length errors_df)%nat
    /\ (List.length logs_df
        <= Z.to_nat max_retries * List.length errors_df)%nat
    /\ (List.length errors_df' <= List.length errors_df)%nat.
Proof.
  destruct (retry_failed_rows_passes df prompts api_key apigw_api_key
              errors_df result_df max_retries w)
    as (n & ls' & w' & t & Hpasses & Hretry & Hle & _).
  exists (ls_result_df ls'), (ls_errors_df ls'), (ls_all_logs ls'), w', t.
  split; [exact Hretry |].
  apply passes_cost in Hpasses as (H1 & H2 & H3). simpl in H1, H2, H3.
  repeat split; nia.
Qed.

(** X8.  With nothing to retry, or with no attempt allowed, the retry
    driver returns what it was given, with an empty log, and has no
    effect: no request, no sleep, not even a printed line. *)
Theorem retry_failed_rows_nothing_to_do errors_df result_df max_retries w :
  errors_df = [] \/ max_retries <= 0 ->
  retry_failed_rows df prompts api_key apigw_api_key
    errors_df result_df max_retries w
  = (Return (Some (result_df, errors_df, [])), w, []).
Proof.
  intros H.
  assert (Hc : retry_cond max_retries (mk_loop 0 errors_df result_df [])
               = false).
  { unfold retry_cond. simpl. destruct H as [-> | Hle]; [reflexivity |].
    apply andb_false_iff. right. apply Z.ltb_ge. exact Hle. }
  unfold retry_failed_rows, bind.
  rewrite (@while_stop PF df prompts api_key apigw_api_key
             (Z.to_nat max_retries) max_retries _ w Hc).
  reflexivity.
Qed.

End Cost.

(* ------------------------------------------------------------------ *)
(** ** The branches of a retry iteration *)

Lemma message_content_dict response_json c :
  message_content response_json = Return c ->
  Py.truthy response_json = true
  /\ result_or_message_missing response_json = Return false.
Proof.
  unfold message_content, result_or_message_missing.
  destruct response_json as [| | | | | | kvs]; try discriminate.
  unfold Py.getitem at 1 3. unfold Py.contains_key at 1.
  destruct (Py.assoc (lit "result") kvs) as [r |] eqn:Hr; [| discriminate].
  cbn [rbind negb].
  destruct r as [| | | | | | kvs2]; try discriminate.
  unfold Py.getitem, Py.contains_key.
  destruct (Py.assoc (lit "message") kvs2) as [m |] eqn:Hmsg;
    [| discriminate].
  intros _. split; [| reflexivity].
  destruct kvs; [discriminate Hr | reflexivity].
Qed.

Section Branches.

Context {PF : Platform}.

Variable df : list Row.
Variable prompts : pystr -> option pystr.
Variables api_key apigw_api_key : pystr.

(** X9.  An error record whose document and category match no row of the
    dataframe is never sent to the API: the iteration sends no request and
    does not sleep, leaves the world as it was, and puts the record back
    among the errors with the text [No matching row found ...]. *)
Theorem retry_step_no_match error_row st w :
  matching (e_docid error_row) (e_category error_row) df = [] ->
  let line :=
    lit "No matching row found for docid " ++ str_of_Z (e_docid error_row)
    ++ lit " and category " ++ e_category error_row in
  retry_step df prompts api_key apigw_api_key error_row st w
  = (Return
       (mk_pass (ps_result_df st)
          (ps_new_errors st
           ++ [mk_ErrorRow (e_docid error_row) (e_category error_row) line
                 (Some stage_retry) (strftime_now w)])
          (ps_logs st
           ++ [mk_LogRow (e_docid error_row) (e_category error_row)
                 (lit "Error") stage_retry line (strftime_now w)])),
     w, [EvPrint line]).
Proof.
  intros Hm line. unfold retry_step, retry_row. rewrite Hm.
  unfold bind, try_except, print, now, ret. cbn [app]. reflexivity.
Qed.

(** X10.  An error text containing [429] takes the rate-limit branch even
    when it also contains 40005 or 40006: the driver sleeps twice, 6
    seconds each, and the record it keeps carries the fixed text
    [API 호출 실패: 429, Too Many Requests] in place of the error text
    received. *)
Theorem retry_step_rate_limited error_row st w row others p rj e w1 t1 :
  matching (e_docid error_row) (e_category error_row) df = row :: others ->
  prompts (category row) = Some p ->
  call_clova_api api_key apigw_api_key
    (chat_messages p (truncate_context row)) w
  = (Return (rj, Some e), w1, t1) ->
  contains (lit "429") e = true ->
  exists line1 line2,
    retry_step df prompts api_key apigw_api_key error_row st w
    = (Return
         (mk_pass (ps_result_df st)
            (ps_new_errors st
             ++ [mk_ErrorRow (e_docid error_row) (e_category error_row)
                   (lit "API 호출 실패: 429, Too Many Requests")
                   (Some stage_retry) (strftime_now (time_sleep 6 w1))])
            (ps_logs st
             ++ [mk_LogRow (e_docid error_row) (e_category error_row)
                   (lit "Error") stage_retry line2
                   (strftime_now (time_sleep 6 w1))])),
       time_sleep 6 (time_sleep 6 w1),
       t1 ++ [EvPrint line1; EvSleep 6; EvPrint line2; EvSleep 6]).
Proof.
  intros Hm Hp Hcall H429.
  assert (Hset : error_set (Some e) = Some e).
  { unfold error_set. destruct (eqb e []) eqn:He; [| reflexivity].
    apply eqb_eq in He. subst e. vm_compute in H429. discriminate H429. }
  unfold retry_step, retry_row. rewrite Hm. unfold prompt_for. rewrite Hp.
  unfold bind at 1. unfold try_except. unfold bind at 1. unfold lift at 1.
  unfold bind at 1. rewrite Hcall, Hset, H429.
  do 2 eexists. unfold retry_handler, retry_wait_time.
  unfold bind, print, now, ret, sleep, raise.
  cbn [app]. rewrite <- !app_assoc. cbn [app]. reflexivity.
Qed.

(** X11.  A retried row whose completion decodes to a JSON object is
    inserted into the result frame at its place by document id: the
    record carries the fields of the dataframe row (its category and its
    full content, not the truncated context) and the three fields of the
    completion, the row leaves the error set, one [Success] line is
    logged and the iteration sleeps 6 seconds. *)
Theorem retry_step_recovers error_row st w row others p rj w1 t1 body kvs
    rows :
  matching (e_docid error_row) (e_category error_row) df = row :: others ->
  prompts (category row) = Some p ->
  call_clova_api api_key apigw_api_key
    (chat_messages p (truncate_context row)) w
  = (Return (rj, None), w1, t1) ->
  message_content rj = Return (JStr body) ->
  json_loads body = Decoded (JDict kvs) ->
  ps_result_df st = Frame rows ->
  exists line,
    retry_step df prompts api_key apigw_api_key error_row st w
    = (Return
         (mk_pass
            (Frame
               (insert_at (original_index (docid row) rows)
                  (mk_ResultRow (docid row) (category row) (title row)
                     (link row) (content row) (len_context row) (label row)
                     (field key_pred kvs) (field key_reason kvs)
                     (field key_summary kvs))
                  rows))
            (ps_new_errors st)
            (ps_logs st
             ++ [mk_LogRow (docid row) (category row) (lit "Success")
                   stage_retry line (strftime_now w1)])),
       time_sleep 6 w1, t1 ++ [EvPrint line; EvSleep 6]).
Proof.
  intros Hm Hp Hcall Hcontent Hloads Hframe.
  destruct (message_content_dict _ Hcontent) as [Htruthy Hmissing].
  unfold retry_step, retry_row. rewrite Hm. unfold prompt_for. rewrite Hp.
  unfold bind at 1. unfold try_except. unfold bind at 1. unfold lift at 1.
  unfold bind at 1. rewrite Hcall. cbn [error_set]. rewrite Htruthy.
  cbn [negb]. unfold bind at 1. unfold lift at 1. rewrite Hmissing.
  unfold bind at 1. unfold lift at 1. rewrite Hcontent.
  cbn [Py.is_str negb]. unfold bind at 1. unfold lift at 1.
  unfold process_response_content. rewrite Hloads.
  cbn [Py.get rbind]. unfold bind at 1. unfold lift at 1.
  unfold insert_result. rewrite Hframe.
  eexists. unfold bind, print, now, ret, sleep, retry_wait_time, field.
  cbn [app]. rewrite <- !app_assoc. cbn [app]. reflexivity.
Qed.

End Branches.

(* ------------------------------------------------------------------ *)
(** ** What the batch processor records *)

Lemma startswith_app needle rest : startswith needle (needle ++ rest) = true.
Proof.
  induction needle as [| c needle IH]; simpl; [reflexivity |].
  rewrite N.eqb_refl. exact IH.
Qed.

Lemma contains_startswith needle s :
  startswith needle s = true -> contains needle s = true.
Proof. intros H. destruct s; simpl; rewrite H; reflexivity. Qed.

Lemma contains_app needle before after :
  contains needle (before ++ needle ++ after) = true.
Proof.
  induction before as [| c before IH].
  - cbn [app]. apply contains_startswith. apply startswith_app.
  - simpl. rewrite IH. apply orb_true_r.
Qed.

(** The dataframe row a result record was built from. *)
Definition built_from (category0 : pystr) (row : Row) (r : ResultRow)
  : Prop :=
  r = mk_ResultRow (docid row) category0 (title row) (link row)
        (content row) (len_context row) (label row)
        (r_pred r) (r_reason r) (r_summary r).

Section Recorded.

Context {PF : Platform}.

Variables category0 prompt api_key apigw_api_key : pystr.

Lemma process_row_built row :
  post (process_row category0 prompt api_key apigw_api_key row)
       (built_from category0 row) anything.
Proof.
  unfold process_row.
  apply post_bind with (R := anything); [apply post_any |].
  intros [response_json error] _.
  destruct (error_set error); [apply post_raise; exact I |].
  apply post_bind with (R := anything); [apply post_any |].
  intros [|] _; [apply post_raise; exact I |].
  apply post_bind with (R := anything); [apply post_any |].
  intros result_content _.
  apply post_bind with (R := anything); [apply post_any |].
  intros [[summary pred] reason] _. apply post_ret. reflexivity.
Qed.

(** One iteration of the batch loop, on its accumulators. *)
Inductive processed (row : Row)
    (acc acc' : list ResultRow * list ErrorRow) : Prop :=
| Succeeded r :
    built_from category0 row r ->
    acc' = (fst acc ++ [r], snd acc) ->
    processed row acc acc'
| Failed errors time :
    acc' = (fst acc,
            snd acc ++ [mk_ErrorRow (docid row) category0 errors None time]) ->
    processed row acc acc'.

Inductive processed_all
  : list Row -> list ResultRow * list ErrorRow
    -> list ResultRow * list ErrorRow -> Prop :=
| processed_none acc : processed_all [] acc acc
| processed_next row rest acc acc' acc'' :
    processed row acc acc' -> processed_all rest acc' acc'' ->
    processed_all (row :: rest) acc acc''.

Lemma process_step_processed row acc w :
  exists acc' w' t,
    process_step category0 prompt api_key apigw_api_key row acc w
    = (Return acc', w', t)
    /\ processed row acc acc'.
Proof.
  rewrite process_step_run.
  pose proof (process_row_built row w) as Hb. unfold res in Hb.
  destruct (process_row category0 prompt api_key apigw_api_key row w)
    as [[[r | e] w1] t1]; simpl in Hb.
  - do 3 eexists. split; [reflexivity |].
    eapply Succeeded; [exact Hb | reflexivity].
  - do 3 eexists. split; [reflexivity |].
    eapply Failed. reflexivity.
Qed.

Lemma process_rows_processed rows : forall acc w,
  exists acc' w' t,
    process_rows category0 prompt api_key apigw_api_key rows acc w
    = (Return acc', w', t)
    /\ processed_all rows acc acc'.
Proof.
  induction rows as [| row rest IH]; intros acc w.
  - exists acc, w, []. split; [reflexivity | constructor].
  - rewrite process_rows_cons. unfold bind.
    destruct (process_step_processed row acc w)
      as (acc1 & w1 & t1 & Hstep & Hp).
    rewrite Hstep.
    destruct (IH acc1 w1) as (acc2 & w2 & t2 & Hrest & Hall).
    rewrite Hrest. do 3 eexists. split; [reflexivity |].
    econstructor; eassumption.
Qed.

(** What a run adds to its accumulators: the results and the errors are
    taken from the rows in order, each built from its row. *)
Lemma processed_all_added rows acc acc' :
  processed_all rows acc acc' ->
  exists results errors,
    acc' = (fst acc ++ results, snd acc ++ errors)
    /\ subseq (map r_docid results) (map docid rows)
    /\ subseq (map e_docid errors) (map docid rows)
    /\ Forall (fun r => exists row, In row rows /\ built_from category0 row r)
              results
    /\ Forall (fun e => e_category e = category0 /\ e_error_stage e = None)
              errors.
Proof.
  intros Hall. induction Hall as [acc | row rest acc acc1 acc2 H1 _ IH].
  - exists [], []. rewrite !app_nil_r. destruct acc.
    repeat split; constructor.
  - destruct IH as (results & errors & -> & Hr & He & Hbuilt & Hcat).
    assert (Hbuilt' : Forall (fun r => exists row0, In row0 (row :: rest)
                                        /\ built_from category0 row0 r)
                             results).
    { eapply Forall_impl; [| exact Hbuilt].
      intros r (row0 & Hin & Hb). exists row0. split; [right |]; assumption. }
    destruct H1 as [r Hb -> | errors0 time ->]; simpl.
    + exists (r :: results), errors. rewrite <- app_assoc. simpl.
      split; [reflexivity |].
      assert (Hd : r_docid r = docid row) by (rewrite Hb; reflexivity).
      rewrite Hd.
      split; [apply subseq_take; exact Hr |].
      split; [apply subseq_skip; exact He |].
      split; [| exact Hcat].
      constructor; [| exact Hbuilt'].
      exists row. split; [left; reflexivity | exact Hb].
    + exists results,
        (mk_ErrorRow (docid row) category0 errors0 None time :: errors).
      rewrite <- app_assoc. simpl. split; [reflexivity |].
      split; [apply subseq_skip; exact Hr |].
      split; [apply subseq_take; exact He |].
      split; [exact Hbuilt' |].
      constructor; [split; reflexivity | exact Hcat].
Qed.

Lemma process_dataframe_recorded df w :
  exists results errors_df w' t,
    process_dataframe df category0 prompt api_key apigw_api_key w
    = (Return (DataFrame results, errors_df), w', t)
    /\ subseq (map r_docid results)
              (map docid (filter_category category0 df))
    /\ subseq (map e_docid errors_df)
              (map docid (filter_category category0 df))
    /\ Forall (fun r => exists row,
                   In row (filter_category category0 df)
                   /\ built_from category0 row r) results
    /\ Forall (fun e => e_category e = category0 /\ e_error_stage e = None)
              errors_df.
Proof.
  rewrite process_dataframe_run.
  destruct (process_rows_processed (filter_category category0 df) ([], []) w)
    as (acc' & w' & t & Hrun & Hall).
  rewrite Hrun.
  destruct (processed_all_added Hall) as (results & errors & -> & H).
  exists results, errors, w', t. split; [reflexivity | exact H].
Qed.

End Recorded.

(* ------------------------------------------------------------------ *)
(** ** Order and effects of the batch processor *)

Lemma sorted_of_docids rows :
  StronglySorted Z.le (map r_docid rows) -> sorted_by_docid rows.
Proof.
  unfold sorted_by_docid. intros H. apply StronglySorted_Sorted.
  induction rows as [| r rest IH]; [constructor |].
  simpl in H. inversion H as [| ? ? Hrest Hall]; subst.
  constructor; [apply IH; exact Hrest |].
  rewrite Forall_map in Hall. exact Hall.
Qed.

Lemma Z_le_transitive : Relations_1.Transitive Z.le.
Proof. intros a b c. lia. Qed.

(** The requests and sleeps of a trace, its printed lines left out. *)
Definition without_prints (t : list event) : list event :=
  filter (fun ev => match ev with EvPrint _ => false | _ => true end) t.

Section BatchOrder.

Context {PF : Platform}.

Variables category0 prompt api_key apigw_api_key : pystr.

(** A dataframe sorted by document id gives a sorted result frame. *)
Lemma process_dataframe_sorted_run df w :
  Sorted Z.le (map docid df) ->
  exists result_df errors_df w' t,
    process_dataframe df category0 prompt api_key apigw_api_key w
    = (Return (result_df, errors_df), w', t)
    /\ sorted_by_docid (frame_rows result_df).
Proof.
  intros Hs.
  destruct (process_dataframe_recorded category0 prompt api_key
              apigw_api_key df w)
    as (results & errors_df & w' & t & Hrun & Hsub & _).
  exists (DataFrame results), errors_df, w', t. split; [exact Hrun |].
  rewrite frame_rows_DataFrame. apply sorted_of_docids.
  apply Sorted_StronglySorted in Hs; [| exact Z_le_transitive].
  eapply subseq_StronglySorted; [| exact Hs].
  eapply subseq_trans; [exact Hsub |].
  apply subseq_map. apply subseq_filter.
Qed.

(** X12.  [process_dataframe] keeps the order of the dataframe: the
    documents of the results, and those of the errors, are taken in order
    from the rows of the category, so a dataframe sorted by document id
    gives a result frame sorted by document id. *)
Theorem process_dataframe_keeps_order df w :
  exists result_df errors_df w' t,
    process_dataframe df category0 prompt api_key apigw_api_key w
    = (Return (result_df, errors_df), w', t)
    /\ subseq (map r_docid (frame_rows result_df))
              (map docid (filter_category category0 df))
    /\ subseq (map e_docid errors_df)
              (map docid (filter_category category0 df))
    /\ (Sorted Z.le (map docid df) ->
        sorted_by_docid (frame_rows result_df)).
Proof.
  destruct (process_dataframe_recorded category0 prompt api_key
              apigw_api_key df w)
    as (results & errors_df & w' & t & Hrun & Hsub & Hsube & _).
  exists (DataFrame results), errors_df, w', t. split; [exact Hrun |].
  rewrite frame_rows_DataFrame. split; [exact Hsub |].
  split; [exact Hsube |].
  intros Hs. apply sorted_of_docids.
  apply Sorted_StronglySorted in Hs; [| exact Z_le_transitive].
  eapply subseq_StronglySorted; [| exact Hs].
  eapply subseq_trans; [exact Hsub |].
  apply subseq_map. apply subseq_filter.
Qed.

(** X13.  Every result record of [process_dataframe] is built from a row
    of the processed category: it carries that row's document id, title,
    link, label, its whole content (also when a truncated context was
    sent) and its [len_context]; every error record carries the processed
    category and no error stage. *)
Theorem process_dataframe_records df w :
  exists result_df errors_df w' t,
    process_dataframe df category0 prompt api_key apigw_api_key w
    = (Return (result_df, errors_df), w', t)
    /\ Forall (fun r => exists row,
                   In row df /\ category row = category0
                   /\ r_docid r = docid row /\ r_category r = category0
                   /\ r_title r = title row /\ r_link r = link row
                   /\ r_content r = content row
                   /\ r_len_content r = len_context row
                   /\ r_label r = label row)
              (frame_rows result_df)
    /\ Forall (fun e => e_category e = category0 /\ e_error_stage e = None)
              errors_df.
Proof.
  destruct (process_dataframe_recorded category0 prompt api_key
              apigw_api_key df w)
    as (results & errors_df & w' & t & Hrun & _ & _ & Hbuilt & Herr).
  exists (DataFrame results), errors_df, w', t. split; [exact Hrun |].
  rewrite frame_rows_DataFrame. split; [| exact Herr].
  eapply Forall_impl; [| exact Hbuilt].
  intros r (row & Hin & Hb). exists row.
  unfold filter_category in Hin. apply filter_In in Hin as [Hin Hcat].
  apply eqb_eq in Hcat.
  split; [exact Hin |]. split; [exact Hcat |].
  rewrite Hb. repeat split; reflexivity.
Qed.

Lemma process_rows_effects rows : forall acc w,
  without_prints
    (trace_of (process_rows category0 prompt api_key apigw_api_key rows acc w))
  = flat_map (fun row =>
                [EvPost (chat_messages prompt (truncate_context row));
                 EvSleep 6]) rows.
Proof.
  induction rows as [| row rest IH]; intros acc w.
  - reflexivity.
  - rewrite process_rows_cons. unfold bind, trace_of.
    destruct (process_step_trace category0 prompt api_key apigw_api_key
                row acc w) as [line Ht].
    destruct (process_rows_run category0 prompt api_key apigw_api_key
                [row] acc w) as (acc1 & w1 & t1 & Hrun).
    rewrite process_rows_cons in Hrun. unfold bind in Hrun.
    unfold trace_of in Ht.
    destruct (process_step category0 prompt api_key apigw_api_key row acc w)
      as [[[acc' | e] w2] t2]; [| discriminate Hrun].
    cbn [snd] in Ht. subst t2.
    specialize (IH acc' w2). unfold trace_of in IH.
    destruct (process_rows category0 prompt api_key apigw_api_key rest acc' w2)
      as [[r w3] t3]. cbn [snd] in *.
    unfold without_prints in *. rewrite filter_app, IH. reflexivity.
Qed.

(** X14.  [process_dataframe] sends exactly one request per row of the
    processed category, in dataframe order, each followed by a sleep of 6
    seconds; rows of other categories cause no request.  The user message
    of each request is the row's content, cut to its first 6500
    characters when [len_context] exceeds 6500. *)
Theorem process_dataframe_effects df w :
  without_prints
    (trace_of (process_dataframe df category0 prompt api_key apigw_api_key w))
  = flat_map (fun row =>
                [EvPost (chat_messages prompt (truncate_context row));
                 EvSleep 6])
             (filter_category category0 df).
Proof.
  rewrite process_dataframe_run.
  pose proof (process_rows_effects (filter_category category0 df) ([], []) w)
    as H.
  unfold trace_of, map_run in *.
  destruct (process_rows category0 prompt api_key apigw_api_key
              (filter_category category0 df) ([], []) w) as [[r w1] t1].
  exact H.
Qed.

End BatchOrder.

(* ------------------------------------------------------------------ *)
(** ** The batch followed by the retry *)

Section Pipeline.

Context {PF : Platform}.

(** X15.  The order survives the whole pipeline: for a dataframe sorted by
    document id, the result frame is sorted after [process_dataframe] and
    is still sorted after [retry_failed_rows] has put the recovered rows
    back. *)
Theorem pipeline_sorted (df : list Row) (category0 prompt : pystr)
    (prompts : pystr -> option pystr) (api_key apigw_api_key : pystr)
    (max_retries : Z) (w : World) :
  Sorted Z.le (map docid df) ->
  exists result_df errors_df w1 t1 result_df' errors_df' logs_df w2 t2,
    process_dataframe df category0 prompt api_key apigw_api_key w
    = (Return (result_df, errors_df), w1, t1)
    /\ retry_failed_rows df prompts api_key apigw_api_key
         errors_df result_df max_retries w1
       = (Return (Some (result_df', errors_df', logs_df)), w2, t2)
    /\ sorted_by_docid (frame_rows result_df)
    /\ sorted_by_docid (frame_rows result_df').
Proof.
  intros Hs.
  destruct (process_dataframe_sorted_run category0 prompt api_key
              apigw_api_key df w Hs)
    as (result_df & errors_df & w1 & t1 & Hrun & Hsorted).
  destruct (retry_sorted_run df prompts api_key apigw_api_key errors_df
              result_df max_retries w1 Hsorted)
    as (result_df' & errors_df' & logs_df & w2 & t2 & Hretry & Hsorted').
  exists result_df, errors_df, w1, t1, result_df', errors_df', logs_df, w2, t2.
  auto.
Qed.

End Pipeline.

(* ------------------------------------------------------------------ *)
(** ** The completion client's pair *)

Lemma contains_app_r needle before s :
  contains needle s = true -> contains needle (before ++ s) = true.
Proof.
  intros H. induction before as [| c before IH]; [exact H |].
  simpl. rewrite IH. apply orb_true_r.
Qed.

Ltac literal_nonempty :=
  let H := fresh in
  intros H; try (apply app_eq_nil in H as [H _]);
  vm_compute in H; discriminate H.

Section ClientFacts.

Context {PF : Platform}.

Variables api_key apigw_api_key : pystr.

(** X16.  [call_clova_api] sends one request and ends in one of three
    ways.  It raises, exactly when the status is 200, the body is not empty
    and decoding it raises something else than the decode error: that
    exception leaves the function.  It returns a JSON object with no
    error, exactly when the status is 200 and the body is not empty and
    decodes to an object.  In every other case it returns [None] with an
    error text that is not empty, so that the callers' test [if error:]
    misses no error. *)
Theorem call_clova_api_pair (messages : list message) (w : World) :
  exists r,
    call_clova_api api_key apigw_api_key messages w
    = (r,
       snd (requests_post completion_url api_key apigw_api_key messages w),
       [EvPost messages])
    /\ ((exists e response,
           r = Raise e
           /\ fst (requests_post completion_url api_key apigw_api_key
                     messages w) = PostResponse response
           /\ status_code response = 200
           /\ text response <> []
           /\ json_loads (text response) = DecodeRaises e)
        \/ (exists response_json response,
              r = Return (response_json, None)
              /\ Py.is_dict response_json = true
              /\ fst (requests_post completion_url api_key apigw_api_key
                        messages w) = PostResponse response
              /\ status_code response = 200
              /\ text response <> []
              /\ json_loads (text response) = Decoded response_json)
        \/ (exists e,
              r = Return (JNull, Some e)
              /\ e <> []
              /\ error_set (Some e) = Some e
              /\ forall response,
                   fst (requests_post completion_url api_key apigw_api_key
                          messages w) = PostResponse response ->
                   status_code response = 200 ->
                   text response <> [] ->
                   json_loads (text response) = NotJSON
                   \/ exists v, json_loads (text response) = Decoded v
                                /\ Py.is_dict v = false)).
Proof.
  unfold call_clova_api.
  destruct (requests_post completion_url api_key apigw_api_key messages w)
    as [o w1]. simpl fst. simpl snd.
  assert (Hset : forall e, e <> [] -> error_set (Some e) = Some e).
  { intros e He. unfold error_set. destruct (eqb e []) eqn:Heq;
      [apply eqb_eq in Heq; contradiction | reflexivity]. }
  destruct o as [resp | e].
  - destruct (status_code resp =? 200) eqn:Hstatus; simpl negb; cbv iota.
    + apply Z.eqb_eq in Hstatus.
      destruct (eqb (text resp) []) eqn:Hempty.
      * eexists. split; [reflexivity |]. right. right.
        eexists. split; [reflexivity |].
        assert (He : lit "Empty response received" <> [])
          by literal_nonempty.
        split; [exact He |]. split; [apply Hset; exact He |].
        intros response Hr _ Htext. inversion Hr; subst response.
        apply eqb_eq in Hempty. contradiction.
      * assert (Htext : text resp <> []).
        { intros Heq. rewrite Heq in Hempty. discriminate Hempty. }
        destruct (json_loads (text resp)) as [v | | e] eqn:Hloads.
        -- destruct (Py.is_dict v) eqn:Hdict.
           ++ eexists. split; [reflexivity |]. right. left.
              exists v, resp. repeat split; auto.
           ++ eexists. split; [reflexivity |]. right. right.
              eexists. split; [reflexivity |].
              assert (He : lit "Unexpected response format" <> [])
                by literal_nonempty.
              split; [exact He |]. split; [apply Hset; exact He |].
              intros response Hr _ _. inversion Hr; subst response.
              right. exists v. auto.
        -- eexists. split; [reflexivity |]. right. right.
           eexists. split; [reflexivity |].
           assert (He : lit "JSON decoding error: "
                        ++ json_error_str (text resp)
                        ++ lit " - Response text: "
                        ++ slice_to 100 (text resp) <> [])
             by literal_nonempty.
           split; [exact He |]. split; [apply Hset; exact He |].
           intros response Hr _ _. inversion Hr; subst response.
           left. exact Hloads.
        -- eexists. split; [reflexivity |]. left. exists e, resp.
           repeat split; auto.
    + eexists. split; [reflexivity |]. right. right.
      eexists. split; [reflexivity |].
      assert (He : lit "API 호출 실패: " ++ str_of_Z (status_code resp)
                   ++ lit ", " ++ text resp <> [])
        by literal_nonempty.
      split; [exact He |]. split; [apply Hset; exact He |].
      intros response Hr Hok _. inversion Hr; subst response.
      apply Z.eqb_neq in Hstatus. contradiction.
  - eexists. split; [reflexivity |]. right. right.
    eexists. split; [reflexivity |].
    assert (He : lit "Request failed: " ++ e <> []) by literal_nonempty.
    split; [exact He |]. split; [apply Hset; exact He |].
    intros response Hr. discriminate Hr.
Qed.

(** X17.  For a response whose status is not 200 the error text holds the
    status code in decimal and the whole body, which is not decoded: a
    status 429 is found by the retry driver's test for [429], and a code
    written in the body (40005, 40006) by its test for that code. *)
Theorem call_clova_api_status_error (messages : list message) (w : World)
    response w1 :
  requests_post completion_url api_key apigw_api_key messages w
  = (PostResponse response, w1) ->
  status_code response <> 200 ->
  let e := lit "API 호출 실패: " ++ str_of_Z (status_code response)
           ++ lit ", " ++ text response in
  call_clova_api api_key apigw_api_key messages w
  = (Return (JNull, Some e), w1, [EvPost messages])
  /\ contains (str_of_Z (status_code response)) e = true
  /\ (forall needle,
        contains needle (text response) = true -> contains needle e = true).
Proof.
  intros Hpost Hstatus e. unfold call_clova_api. rewrite Hpost.
  apply Z.eqb_neq in Hstatus. rewrite Hstatus. simpl negb. cbv iota.
  split; [reflexivity |]. split.
  - apply contains_app.
  - intros needle Hn. unfold e. rewrite !app_assoc.
    apply contains_app_r. exact Hn.
Qed.

End ClientFacts.

(* ------------------------------------------------------------------ *)
(** ** The outcomes of a batch iteration *)

Section BatchBranches.

Context {PF : Platform}.

Variables category0 prompt api_key apigw_api_key : pystr.

(** X18.  A row whose completion decodes to a JSON object is appended to
    the results with the three fields read by key (the empty string for
    an absent key); the errors are left as they were and the iteration
    ends with the sleep of 6 seconds. *)
Theorem process_step_records row acc w rj w1 t1 body kvs :
  call_clova_api api_key apigw_api_key
    (chat_messages prompt (truncate_context row)) w
  = (Return (rj, None), w1, t1) ->
  message_content rj = Return (JStr body) ->
  json_loads body = Decoded (JDict kvs) ->
  exists line,
    process_step category0 prompt api_key apigw_api_key row acc w
    = (Return
         (fst acc
          ++ [mk_ResultRow (docid row) category0 (title row) (link row)
                (content row) (len_context row) (label row)
                (field key_pred kvs) (field key_reason kvs)
                (field key_summary kvs)],
          snd acc),
       time_sleep 6 w1, t1 ++ [EvPrint line; EvSleep 6]).
Proof.
  intros Hcall Hcontent Hloads.
  destruct (message_content_dict _ Hcontent) as [_ Hmissing].
  rewrite process_step_run. unfold process_row.
  unfold bind at 1. rewrite Hcall. cbn [error_set].
  unfold bind at 1. unfold lift at 1. rewrite Hmissing.
  unfold bind at 1. unfold lift at 1. rewrite Hcontent.
  unfold bind at 1. unfold try_except_value_error, lift.
  unfold process_response_content. rewrite Hloads.
  cbn [Py.get rbind]. unfold ret, field. cbn [app].
  rewrite !app_nil_r. eexists. reflexivity.
Qed.

(** X19.  A row whose completion is not valid JSON becomes an error record
    whose text names the document and the category:
    [Failed to process content for docid D in C - Unexpected content
    format: Not a valid JSON]; the results are left as they were. *)
Theorem process_step_not_json row acc w rj w1 t1 body :
  call_clova_api api_key apigw_api_key
    (chat_messages prompt (truncate_context row)) w
  = (Return (rj, None), w1, t1) ->
  message_content rj = Return (JStr body) ->
  json_loads body = NotJSON ->
  exists line,
    process_step category0 prompt api_key apigw_api_key row acc w
    = (Return
         (fst acc,
          snd acc
          ++ [mk_ErrorRow (docid row) category0
                (lit "Failed to process content for docid "
                 ++ str_of_Z (docid row) ++ lit " in " ++ category0
                 ++ lit " - "
                 ++ lit "Unexpected content format: Not a valid JSON")
                None (strftime_now w1)]),
       time_sleep 6 w1, t1 ++ [EvPrint line; EvSleep 6]).
Proof.
  intros Hcall Hcontent Hloads.
  destruct (message_content_dict _ Hcontent) as [_ Hmissing].
  rewrite process_step_run. unfold process_row.
  unfold bind at 1. rewrite Hcall. cbn [error_set].
  unfold bind at 1. unfold lift at 1. rewrite Hmissing.
  unfold bind at 1. unfold lift at 1. rewrite Hcontent.
  unfold bind at 1. unfold try_except_value_error, lift.
  unfold process_response_content. rewrite Hloads.
  cbn [is_value_error exn_cls]. unfold raise, error_record.
  cbn [app exn_str]. rewrite !app_nil_r. eexists. reflexivity.
Qed.

(** X20.  An error of the client is recorded word for word: the error
    record of the row carries the client's error text, so that a later
    filter or retry can read the status code in it. *)
Theorem process_step_client_error row acc w rj e w1 t1 :
  call_clova_api api_key apigw_api_key
    (chat_messages prompt (truncate_context row)) w
  = (Return (rj, Some e), w1, t1) ->
  e <> [] ->
  exists line,
    process_step category0 prompt api_key apigw_api_key row acc w
    = (Return
         (fst acc,
          snd acc
          ++ [mk_ErrorRow (docid row) category0 e None (strftime_now w1)]),
       time_sleep 6 w1, t1 ++ [EvPrint line; EvSleep 6]).
Proof.
  intros Hcall He.
  assert (Hset : error_set (Some e) = Some e).
  { unfold error_set. destruct (eqb e []) eqn:Heq;
      [apply eqb_eq in Heq; contradiction | reflexivity]. }
  rewrite process_step_run. unfold process_row.
  unfold bind at 1. rewrite Hcall, Hset. unfold raise, error_record.
  cbn [app exn_str]. rewrite !app_nil_r. eexists. reflexivity.
Qed.

End BatchBranches.

(* ------------------------------------------------------------------ *)
(** ** The single-row check *)

Section SingleRowFacts.

Context {PF : Platform}.

(** [m] only prints: it leaves the world as it is. *)
Definition printer {A} (m : M A) : Prop :=
  forall w, exists r lines, m w = (r, w, map EvPrint lines).

Lemma printer_ret A (a : A) : printer (ret a).
Proof. intros w. exists (Return a), []. reflexivity. Qed.

Lemma printer_raise A e : printer (raise (A := A) e).
Proof. intros w. exists (Raise e), []. reflexivity. Qed.

Lemma printer_lift A (r : result A) : printer (lift r).
Proof. intros w. exists r, []. reflexivity. Qed.

Lemma printer_print line : printer (print line).
Proof. intros w. exists (Return tt), [line]. reflexivity. Qed.

Lemma printer_bind A B (m : M A) (k : A -> M B) :
  printer m -> (forall a, printer (k a)) -> printer (bind m k).
Proof.
  intros Hm Hk w. unfold bind. destruct (Hm w) as (r & l1 & ->).
  destruct r as [a | e].
  - destruct (Hk a w) as (r2 & l2 & ->). exists r2, (l1 ++ l2).
    rewrite map_app. reflexivity.
  - exists (Raise e), l1. reflexivity.
Qed.

Lemma bind_print_run B line (k : unit -> M B) w r w' t :
  bind (print line) k w = (r, w', t) ->
  exists t2, k tt w = (r, w', t2) /\ t = EvPrint line :: t2.
Proof.
  unfold bind, print. destruct (k tt w) as [[r2 w2] t2].
  intros H. inversion H; subst. exists t2. split; reflexivity.
Qed.

Variable py_repr : json -> pystr.

Lemma single_row_body_printer row called :
  printer (single_row_body py_repr row called).
Proof.
  unfold single_row_body. destruct called as [response_json error].
  destruct (error_set error); [apply printer_raise |].
  apply printer_bind; [apply printer_print |]. intros _.
  apply printer_bind; [apply printer_lift |].
  intros [|]; [apply printer_raise |].
  apply printer_bind; [apply printer_lift |]. intros result_content.
  apply printer_bind; [apply printer_lift |].
  intros [[summary pred] reason].
  apply printer_bind; [apply printer_print |]. intros _.
  apply printer_bind; [apply printer_print |]. intros _.
  apply printer_print.
Qed.

(** X21.  [process_single_row] never raises: whatever goes wrong is
    printed.  It sends exactly one request, with the row's content cut as
    in the batch processor, prints at least one line and never sleeps. *)
Theorem process_single_row_effects row prompt api_key apigw_api_key w :
  let messages := chat_messages prompt (truncate_context row) in
  exists lines,
    process_single_row py_repr row prompt api_key apigw_api_key w
    = (Return tt,
       snd (requests_post completion_url api_key apigw_api_key messages w),
       EvPost messages :: map EvPrint lines)
    /\ lines <> [].
Proof.
  intros messages. unfold process_single_row, try_except, bind.
  fold messages.
  assert (Hcall : exists called,
             call_clova_api api_key apigw_api_key messages w
             = (called,
                snd (requests_post completion_url api_key apigw_api_key
                       messages w),
                [EvPost messages])).
  { unfold call_clova_api.
    destruct (requests_post completion_url api_key apigw_api_key messages w)
      as [o w1]. cbn [snd]. eexists. reflexivity. }
  destruct Hcall as [called Hcall]. rewrite Hcall.
  set (w1 := snd (requests_post completion_url api_key apigw_api_key
                    messages w)).
  destruct called as [called | e0].
  - destruct (single_row_body_printer row called w1) as (r & lines & Hrun).
    rewrite Hrun. destruct r as [[] | e].
    + exists lines. split; [reflexivity |].
      destruct called as [rj err]. unfold single_row_body in Hrun.
      destruct (error_set err); [discriminate Hrun |].
      apply bind_print_run in Hrun as (t2 & _ & Ht).
      intros ->. discriminate Ht.
    + exists (lines ++ [lit "Error: docid " ++ str_of_Z (docid row)
                        ++ lit " 처리 실패 - " ++ exn_str e]).
      unfold print. rewrite map_app. cbn [map app]. split; [reflexivity |].
      intros H. apply app_eq_nil in H as [_ H]. discriminate H.
  - exists [lit "Error: docid " ++ str_of_Z (docid row)
            ++ lit " 처리 실패 - " ++ exn_str e0].
    unfold print. split; [reflexivity | discriminate].
Qed.

End SingleRowFacts.

(* ------------------------------------------------------------------ *)
(** ** The token counter *)

Section TokenFacts.

Context {PF : Platform}.

Variable float_add : json -> json -> json.

Lemma sum_counts_ints items counts :
  Forall2 (fun m c => Py.getitem (lit "count") m = Return (JInt c))
          items counts ->
  forall a,
    sum_counts float_add items (JInt a)
    = Return (JInt (a + fold_right Z.add 0 counts)).
Proof.
  intros H. induction H as [| m c items counts Hm _ IH]; intros a.
  - simpl. rewrite Z.add_0_r. reflexivity.
  - simpl. rewrite Hm. cbn [rbind add_count]. rewrite IH.
    rewrite Z.add_assoc. reflexivity.
Qed.

(** X22.  For a tokenizer response with status 200 and code ["20000"]
    whose messages each carry an integer [count],
    [calculate_token_count] returns the sum of the counts (0 for an empty
    list), after one request and no sleep. *)
Theorem calculate_token_count_sum messages api_key apigw_api_key w
    response w1 data status result_ items counts :
  requests_post tokenizer_url api_key apigw_api_key messages w
  = (PostResponse response, w1) ->
  status_code response = 200 ->
  json_loads (text response) = Decoded data ->
  Py.getitem (lit "status") data = Return status ->
  Py.getitem (lit "code") status = Return (JStr (lit "20000")) ->
  Py.getitem (lit "result") data = Return result_ ->
  Py.getitem (lit "messages") result_ = Return (JList items) ->
  Forall2 (fun m c => Py.getitem (lit "count") m = Return (JInt c))
          items counts ->
  calculate_token_count float_add messages api_key apigw_api_key w
  = (TokenReturn (Some (JInt (fold_right Z.add 0 counts))), w1,
     [EvPost messages]).
Proof.
  intros Hpost Hstatus Hloads Hst Hcode Hres Hmsgs Hcounts.
  unfold calculate_token_count. rewrite Hpost, Hstatus, Hloads.
  cbn [Z.eqb Pos.eqb]. unfold count_tokens.
  rewrite Hst. cbn [rbind]. rewrite Hcode. cbn [rbind Py.str_eqb].
  rewrite eqb_refl, Hres. cbn [rbind]. rewrite Hmsgs.
  cbn [rbind py_iter]. rewrite (sum_counts_ints Hcounts 0).
  reflexivity.
Qed.

(** X23.  [calculate_token_count] returns [None] in exactly two cases: the
    status is not 200 (the body is then not read), or the body decodes
    and its [status.code] is anything but the string ["20000"] (the
    result is then not read).  Otherwise it returns a count or lets an
    exception escape. *)
Theorem calculate_token_count_none messages api_key apigw_api_key w
    response w1 :
  requests_post tokenizer_url api_key apigw_api_key messages w
  = (PostResponse response, w1) ->
  (fst (fst (calculate_token_count float_add messages api_key
               apigw_api_key w)) = TokenReturn None
   <-> (status_code response <> 200
        \/ exists data status code,
             status_code response = 200
             /\ json_loads (text response) = Decoded data
             /\ Py.getitem (lit "status") data = Return status
             /\ Py.getitem (lit "code") status = Return code
             /\ Py.str_eqb (lit "20000") code = false)).
Proof.
  intros Hpost. unfold calculate_token_count. rewrite Hpost. cbn [fst].
  destruct (status_code response =? 200) eqn:Hs.
  - apply Z.eqb_eq in Hs.
    destruct (json_loads (text response)) as [data | | e0] eqn:Hloads.
    + unfold count_tokens.
      destruct (Py.getitem (lit "status") data) as [status | e1] eqn:Hst;
        cbn [rbind].
      * destruct (Py.getitem (lit "code") status) as [code | e2] eqn:Hcode;
          cbn [rbind].
        -- destruct (Py.str_eqb (lit "20000") code) eqn:Heq.
           ++ split.
              ** intros H. exfalso.
                 destruct (Py.getitem (lit "result") data) as [r | e3];
                   cbn [rbind] in H; [| discriminate H].
                 destruct (Py.getitem (lit "messages") r) as [ms | e4];
                   cbn [rbind] in H; [| discriminate H].
                 destruct (py_iter ms) as [items | e5];
                   cbn [rbind] in H; [| discriminate H].
                 destruct (sum_counts float_add items (JInt 0))
                   as [total | e6]; cbn [rbind] in H; discriminate H.
              ** intros [Hne | (d & s & c & _ & Hd & Hs' & Hc & Hf)];
                   [contradiction |].
                 congruence.
           ++ split; [| reflexivity].
              intros _. right. exists data, status, code. auto.
        -- split; [discriminate |].
           intros [Hne | (d & s & c & _ & Hd & Hs' & Hc & _)];
             [contradiction |].
           congruence.
      * split; [discriminate |].
        intros [Hne | (d & s & c & _ & Hd & Hs' & _)]; [contradiction |].
        congruence.
    + split; [discriminate |].
      intros [Hne | (d & s & c & _ & Hd & _)]; [contradiction |].
      congruence.
    + split; [discriminate |].
      intros [Hne | (d & s & c & _ & Hd & _)]; [contradiction |].
      congruence.
  - apply Z.eqb_neq in Hs. split; [intros _; left; exact Hs | reflexivity].
Qed.

End TokenFacts.

(* ------------------------------------------------------------------ *)
(** ** Further runs on the scripted platform *)

Definition rate_platform : Platform :=
  Script.platform (fun _ _ => Script.failure 429 (lit "Too Many Requests"))
    Script.no_pages.

Definition text_platform : Platform :=
  Script.platform (fun _ _ => Script.completion Script.text_body)
    Script.no_pages.

Definition token_body : pystr :=
  Script.encode
    (JDict [(lit "status", JDict [(lit "code", JStr (lit "20000"))]);
            (lit "result",
             JDict [(lit "messages",
                     JList [JDict [(lit "count", JInt 3)];
                            JDict [(lit "count", JInt 5)]])])]).

Definition token_platform : Platform :=
  Script.platform (fun _ _ => PostResponse (mk_response 200 token_body))
    Script.no_pages.

Definition the_error : ErrorRow :=
  mk_ErrorRow 7 Ex.cat (lit "API 호출 실패: 400") None (lit "0").

Definition sorted_pass : pass_state := mk_pass (Frame sorted_rows) [] [].

Definition a_message : list message :=
  chat_messages Ex.a_prompt (truncate_context Ex.article).

Definition first_float : json -> json -> json := fun a _ => a.

(** The fields of [Script.json_body] and the response that carries it. *)
Definition good_fields : list (pystr * json) :=
  [(key_summary, JStr (lit "s")); (key_pred, JStr (lit "p"));
   (key_reason, JStr (lit "r"))].

Definition good_response : json :=
  JDict [(lit "result",
          JDict [(lit "message",
                  JDict [(lit "role", JStr (lit "assistant"));
                         (lit "content", JStr Script.json_body)])])].

(** The response that carries [Script.text_body]. *)
Definition text_response : json :=
  JDict [(lit "result",
          JDict [(lit "message",
                  JDict [(lit "role", JStr (lit "assistant"));
                         (lit "content", JStr Script.text_body)])])].

Lemma batch_docids_sorted : Sorted Z.le (map docid Ex.batch).
Proof.
  repeat constructor; vm_compute; intros Hc; discriminate Hc.
Defined.

(** The result frame 1, 3, 5 stays sorted through a retry that recovers
    document 7. *)
Lemma retry_failed_rows_keeps_sorted_witness :
  sorted_by_docid (frame_rows (Frame sorted_rows))
  /\ exists result_df' errors_df' logs_df w' t,
       @retry_failed_rows Ex.good_platform [Ex.article] Ex.prompts Ex.key1
         Ex.key2 Ex.failed_once (Frame sorted_rows) 3 Script.start
       = (Return (Some (result_df', errors_df', logs_df)), w', t)
       /\ sorted_by_docid (frame_rows result_df').
Proof.
  split; [exact sorted_rows_sorted |].
  exact (@retry_failed_rows_keeps_sorted Ex.good_platform [Ex.article]
           Ex.prompts Ex.key1 Ex.key2 Ex.failed_once (Frame sorted_rows) 3
           Script.start sorted_rows_sorted).
Defined.

(** No attempt allowed: the inputs come back. *)
Lemma retry_failed_rows_nothing_to_do_witness :
  @retry_failed_rows Ex.good_platform [Ex.article] Ex.prompts Ex.key1
    Ex.key2 Ex.failed_once (Frame sorted_rows) 0 Script.start
  = (Return (Some (Frame sorted_rows, Ex.failed_once, [])), Script.start, []).
Proof.
  exact (@retry_failed_rows_nothing_to_do Ex.good_platform [Ex.article]
           Ex.prompts Ex.key1 Ex.key2 Ex.failed_once (Frame sorted_rows) 0
           Script.start (or_intror (Z.le_refl 0))).
Defined.

(** An error record for a document the dataframe does not hold. *)
Lemma retry_step_no_match_witness :
  matching 7 Ex.cat [] = []
  /\ Script.events
       (@retry_step Ex.good_platform [] Ex.prompts Ex.key1 Ex.key2
          the_error sorted_pass Script.start)
     = [EvPrint (lit "No matching row found for docid 7 and category 난이도")].
Proof.
  split; [reflexivity |].
  rewrite (@retry_step_no_match Ex.good_platform [] Ex.prompts Ex.key1
             Ex.key2 the_error sorted_pass Script.start eq_refl).
  reflexivity.
Defined.

(** A status 429: two sleeps, and the fixed text in the record. *)
Lemma retry_step_rate_limited_witness :
  exists st' w',
    @retry_step rate_platform [Ex.article] Ex.prompts Ex.key1 Ex.key2
      the_error sorted_pass Script.start
    = (Return st', w',
       Script.events
         (@retry_step rate_platform [Ex.article] Ex.prompts Ex.key1 Ex.key2
            the_error sorted_pass Script.start))
    /\ map e_errors (ps_new_errors st')
       = [lit "API 호출 실패: 429, Too Many Requests"]
    /\ snd w' = 12.
Proof.
  destruct (@retry_step_rate_limited rate_platform [Ex.article] Ex.prompts
              Ex.key1 Ex.key2 the_error sorted_pass Script.start
              Ex.article [] Ex.a_prompt JNull
              (lit "API 호출 실패: 429, Too Many Requests")
              (1%nat, 0) [EvPost a_message]
              eq_refl eq_refl eq_refl eq_refl)
    as (line1 & line2 & H).
  do 2 eexists. rewrite H. split; [reflexivity |].
  split; reflexivity.
Defined.

(** A completion in the JSON shape: document 7 goes after 1, 3 and 5. *)
Lemma retry_step_recovers_witness :
  exists st' w' t,
    @retry_step Ex.good_platform [Ex.article] Ex.prompts Ex.key1 Ex.key2
      the_error sorted_pass Script.start
    = (Return st', w', t)
    /\ map r_docid (frame_rows (ps_result_df st')) = [1; 3; 5; 7]
    /\ ps_new_errors st' = [].
Proof.
  destruct (@retry_step_recovers Ex.good_platform [Ex.article] Ex.prompts
              Ex.key1 Ex.key2 the_error sorted_pass Script.start
              Ex.article [] Ex.a_prompt good_response (1%nat, 0)
              [EvPost a_message] Script.json_body good_fields sorted_rows
              eq_refl eq_refl
              ltac:(vm_compute; reflexivity) ltac:(vm_compute; reflexivity)
              ltac:(vm_compute; reflexivity) eq_refl)
    as (line & H).
  do 3 eexists. split; [exact H |]. split; reflexivity.
Defined.

(** A batch sorted by document id, one row of which the server refuses. *)
Lemma pipeline_sorted_witness :
  Sorted Z.le (map docid Ex.batch)
  /\ exists result_df errors_df w1 t1 result_df' errors_df' logs_df w2 t2,
       @process_dataframe Ex.picky_platform Ex.batch Ex.cat Ex.a_prompt
         Ex.key1 Ex.key2 Script.start
       = (Return (result_df, errors_df), w1, t1)
       /\ @retry_failed_rows Ex.picky_platform Ex.batch Ex.prompts Ex.key1
            Ex.key2 errors_df result_df 3 w1
          = (Return (Some (result_df', errors_df', logs_df)), w2, t2)
       /\ sorted_by_docid (frame_rows result_df)
       /\ sorted_by_docid (frame_rows result_df').
Proof.
  split; [exact batch_docids_sorted |].
  exact (@pipeline_sorted Ex.picky_platform Ex.batch Ex.cat Ex.a_prompt
           Ex.prompts Ex.key1 Ex.key2 3 Script.start batch_docids_sorted).
Defined.

(** A status 429 with a body that names the code 40005. *)
Definition refusal : response :=
  mk_response 429 (lit "code 40005").

Definition refusing_platform : Platform :=
  Script.platform (fun _ _ => PostResponse refusal) Script.no_pages.

Lemma call_clova_api_status_error_witness :
  status_code refusal <> 200
  /\ exists e,
       @call_clova_api refusing_platform Ex.key1 Ex.key2 a_message
         Script.start
       = (Return (JNull, Some e), (1%nat, 0), [EvPost a_message])
       /\ contains (lit "429") e = true
       /\ contains (lit "40005") e = true.
Proof.
  assert (Hs : status_code refusal <> 200)
    by (vm_compute; intros Hc; discriminate Hc).
  split; [exact Hs |].
  destruct (@call_clova_api_status_error refusing_platform Ex.key1 Ex.key2
              a_message Script.start refusal (1%nat, 0) eq_refl Hs)
    as (Hcall & Hcode & Hbody).
  eexists. split; [exact Hcall |]. split; [exact Hcode |].
  apply Hbody. vm_compute. reflexivity.
Defined.

(** A completion in the JSON shape, in the batch. *)
Lemma process_step_records_witness :
  exists acc' w' t,
    @process_step Ex.good_platform Ex.cat Ex.a_prompt Ex.key1 Ex.key2
      Ex.article ([], []) Script.start
    = (Return acc', w', t)
    /\ map r_pred (fst acc') = [JStr (lit "p")]
    /\ snd acc' = [].
Proof.
  destruct (@process_step_records Ex.good_platform Ex.cat Ex.a_prompt
              Ex.key1 Ex.key2 Ex.article ([], []) Script.start
              good_response (1%nat, 0) [EvPost a_message] Script.json_body
              good_fields
              ltac:(vm_compute; reflexivity) ltac:(vm_compute; reflexivity)
              ltac:(vm_compute; reflexivity))
    as (line & H).
  do 3 eexists. split; [exact H |]. split; reflexivity.
Defined.

(** A completion in the plain-text shape, in the batch. *)
Lemma process_step_not_json_witness :
  exists acc' w' t,
    @process_step text_platform Ex.cat Ex.a_prompt Ex.key1 Ex.key2
      Ex.article ([], []) Script.start
    = (Return acc', w', t)
    /\ fst acc' = []
    /\ map e_errors (snd acc')
       = [lit "Failed to process content for docid 7 in 난이도 - Unexpected content format: Not a valid JSON"].
Proof.
  destruct (@process_step_not_json text_platform Ex.cat Ex.a_prompt
              Ex.key1 Ex.key2 Ex.article ([], []) Script.start
              text_response (1%nat, 0) [EvPost a_message] Script.text_body
              ltac:(vm_compute; reflexivity) ltac:(vm_compute; reflexivity)
              ltac:(vm_compute; reflexivity))
    as (line & H).
  do 3 eexists. split; [exact H |]. split; [reflexivity |].
  vm_compute. reflexivity.
Defined.

(** A status 429, in the batch: the text is kept as the client wrote it. *)
Lemma process_step_client_error_witness :
  exists acc' w' t,
    @process_step rate_platform Ex.cat Ex.a_prompt Ex.key1 Ex.key2
      Ex.article ([], []) Script.start
    = (Return acc', w', t)
    /\ map e_errors (snd acc')
       = [lit "API 호출 실패: 429, Too Many Requests"].
Proof.
  destruct (@process_step_client_error rate_platform Ex.cat Ex.a_prompt
              Ex.key1 Ex.key2 Ex.article ([], []) Script.start JNull
              (lit "API 호출 실패: 429, Too Many Requests") (1%nat, 0)
              [EvPost a_message]
              ltac:(vm_compute; reflexivity)
              ltac:(vm_compute; intros Hc; discriminate Hc))
    as (line & H).
  do 3 eexists. split; [exact H |]. reflexivity.
Defined.

(** Two messages of 3 and 5 tokens. *)
Definition token_data : json :=
  JDict [(lit "status", JDict [(lit "code", JStr (lit "20000"))]);
         (lit "result",
          JDict [(lit "messages",
                  JList [JDict [(lit "count", JInt 3)];
                         JDict [(lit "count", JInt 5)]])])].

Lemma token_counts :
  Forall2 (fun m c => Py.getitem (lit "count") m = Return (JInt c))
          [JDict [(lit "count", JInt 3)]; JDict [(lit "count", JInt 5)]]
          [3; 5].
Proof. repeat constructor. Defined.

Lemma calculate_token_count_sum_witness :
  @calculate_token_count token_platform first_float a_message Ex.key1
    Ex.key2 Script.start
  = (TokenReturn (Some (JInt 8)), (1%nat, 0), [EvPost a_message]).
Proof.
  exact (@calculate_token_count_sum token_platform first_float a_message
           Ex.key1 Ex.key2 Script.start (mk_response 200 token_body)
           (1%nat, 0) token_data
           (JDict [(lit "code", JStr (lit "20000"))])
           (JDict [(lit "messages",
                    JList [JDict [(lit "count", JInt 3)];
                           JDict [(lit "count", JInt 5)]])])
           [JDict [(lit "count", JInt 3)]; JDict [(lit "count", JInt 5)]]
           [3; 5]
           eq_refl eq_refl ltac:(vm_compute; reflexivity)
           ltac:(vm_compute; reflexivity) ltac:(vm_compute; reflexivity)
           ltac:(vm_compute; reflexivity) ltac:(vm_compute; reflexivity)
           token_counts).
Defined.

Lemma rate_status : status_code (mk_response 429 (lit "Too Many Requests")) <> 200.
Proof. vm_compute. intros Hc. discriminate Hc. Defined.

(** A status 429 from the tokenizer: [None]. *)
Lemma calculate_token_count_none_witness :
  fst (fst (@calculate_token_count rate_platform first_float a_message
              Ex.key1 Ex.key2 Script.start))
  = TokenReturn None.
Proof.
  exact (proj2 (@calculate_token_count_none rate_platform first_float
                  a_message Ex.key1 Ex.key2 Script.start
                  (mk_response 429 (lit "Too Many Requests")) (1%nat, 0)
                  eq_refl)
           (or_introl rate_status)).
Defined.
